(** * QuickChart MCP server: chart-configuration normalisation and dispatch

    A shallow embedding of [validateChartType], [generateChartConfig],
    [generateChartUrl] and the [generate_chart] and [download_chart] tool
    handlers of the server, over a small model of the JavaScript values the
    handlers receive, followed by the properties proved of them.

    Modelling conventions.
    - A JavaScript value is a [JsVal].  Numbers are the integers ([Z]) and
      the two infinities, which a request carries as [1e999] and [-1e999];
      fractions, NaN and negative zero are outside the model, and an integer
      is printed in full, as the engine prints it below 10^21.  Strings are
      sequences of bytes (the UTF-8 text), so indexing a string yields one
      byte where the engine yields one UTF-16 code unit.
    - An object is the list of its own properties in insertion order, keys
      unique.  The engine's reordering of array-index keys is not modelled.
    - A thrown exception is the [Throw] result of the [Result] monad; reading
      a property of [undefined] or [null] throws, as in the engine.
    - [JSON.stringify], [JSON.parse], [encodeURIComponent] and
      [decodeURIComponent] are functions on text.  The parser reads integer
      literals only and refuses the escape of a surrogate half, which has
      no byte form.
    - The file system, the clock and the network are a [Host] record; the
      handler of [download_chart] runs over a trace of the host calls it
      makes. *)

From Stdlib Require Import ZArith List String Ascii Bool Lia.
From Stdlib Require Import Decimal DecimalN DecimalZ.
Import ListNotations.
Open Scope list_scope.
Open Scope string_scope.

(* ================================================================== *)
(** * JavaScript values *)

Module Js.

(** The only function value the program creates: the arrow function
    [(value: number) => value] of the gauge branch. *)
Inductive Closure : Set :=
| FormatterEcho.

Unset Elimination Schemes.
Inductive JsVal : Type :=
| JUndefined
| JNull
| JBool (b : bool)
| JNum (n : Z)
| JStr (s : string)
| JArr (items : list JsVal)
| JObj (props : list (string * JsVal))
| JFun (f : Closure)
| JInf (negative : bool).
Set Elimination Schemes.

Definition Props : Type := list (string * JsVal).

(** Induction over values that reaches inside arrays and objects. *)
Fixpoint JsVal_ind (P : JsVal -> Prop)
    (Hundef : P JUndefined) (Hnull : P JNull)
    (Hbool : forall b, P (JBool b)) (Hnum : forall n, P (JNum n))
    (Hstr : forall s, P (JStr s))
    (Harr : forall l, Forall P l -> P (JArr l))
    (Hobj : forall l, Forall (fun kv => P (snd kv)) l -> P (JObj l))
    (Hfun : forall f, P (JFun f))
    (Hinf : forall negative, P (JInf negative))
    (v : JsVal) {struct v} : P v :=
  let rec := JsVal_ind P Hundef Hnull Hbool Hnum Hstr Harr Hobj Hfun Hinf in
  match v with
  | JUndefined => Hundef
  | JNull => Hnull
  | JBool b => Hbool b
  | JNum n => Hnum n
  | JStr s => Hstr s
  | JArr l =>
      Harr l ((fix go (l : list JsVal) : Forall P l :=
                 match l with
                 | [] => Forall_nil _
                 | x :: r => Forall_cons x (rec x) (go r)
                 end) l)
  | JObj l =>
      Hobj l ((fix go (l : Props) : Forall (fun kv => P (snd kv)) l :=
                 match l with
                 | [] => Forall_nil _
                 | kv :: r => Forall_cons kv (rec (snd kv)) (go r)
                 end) l)
  | JFun f => Hfun f
  | JInf negative => Hinf negative
  end.

(** Calling a function value. *)
Definition call (f : Closure) (value : JsVal) : JsVal :=
  match f with
  | FormatterEcho => value
  end.

(** ** Decimal text of integers *)

Fixpoint digits_of_uint (d : uint) : string :=
  match d with
  | Nil => ""
  | D0 r => String "0" (digits_of_uint r)
  | D1 r => String "1" (digits_of_uint r)
  | D2 r => String "2" (digits_of_uint r)
  | D3 r => String "3" (digits_of_uint r)
  | D4 r => String "4" (digits_of_uint r)
  | D5 r => String "5" (digits_of_uint r)
  | D6 r => String "6" (digits_of_uint r)
  | D7 r => String "7" (digits_of_uint r)
  | D8 r => String "8" (digits_of_uint r)
  | D9 r => String "9" (digits_of_uint r)
  end.

(** [String(i)] for an array index [i]. *)
Definition index_key (i : nat) : string := digits_of_uint (N.to_uint (N.of_nat i)).

(** [Number.prototype.toString] on an integer of magnitude below 10^21,
    which the engine prints in full. *)
Definition number_to_string (n : Z) : string :=
  match n with
  | Z0 => "0"
  | Zpos p => digits_of_uint (Pos.to_uint p)
  | Zneg p => String "-" (digits_of_uint (Pos.to_uint p))
  end.

(** ** Truthiness and type tests *)

(** ToBoolean. *)
Definition truthy (v : JsVal) : bool :=
  match v with
  | JUndefined | JNull => false
  | JBool b => b
  | JNum n => negb (n =? 0)%Z
  | JStr s => negb (s =? "")
  | JArr _ | JObj _ | JFun _ | JInf _ => true
  end.

Definition nullish (v : JsVal) : bool :=
  match v with
  | JUndefined | JNull => true
  | _ => false
  end.

(** [Array.isArray]. *)
Definition isArray (v : JsVal) : bool :=
  match v with
  | JArr _ => true
  | _ => false
  end.

(** The elements of an array value. *)
Definition own_items (v : JsVal) : list JsVal :=
  match v with
  | JArr l => l
  | _ => []
  end.

(** [typeof v === 'object']. *)
Definition typeof_object (v : JsVal) : bool :=
  match v with
  | JNull | JArr _ | JObj _ => true
  | _ => false
  end.

(** [a || b] and [a && b]. *)
Definition js_or (a b : JsVal) : JsVal := if truthy a then a else b.
Definition js_and (a b : JsVal) : JsVal := if truthy a then b else a.

(** A destructuring default [x = d]: taken only when the value is
    [undefined]. *)
Definition default_to (v d : JsVal) : JsVal :=
  match v with
  | JUndefined => d
  | _ => v
  end.

(** ** Own properties *)

Fixpoint lookup (k : string) (l : Props) : option JsVal :=
  match l with
  | [] => None
  | (k', v) :: r => if k' =? k then Some v else lookup k r
  end.

(** Define or overwrite one own property; an existing key keeps its place. *)
Fixpoint obj_set (l : Props) (k : string) (v : JsVal) : Props :=
  match l with
  | [] => [(k, v)]
  | (k', v') :: r => if k' =? k then (k', v) :: r else (k', v') :: obj_set r k v
  end.

Fixpoint indexed_from (i : nat) (l : list JsVal) : Props :=
  match l with
  | [] => []
  | x :: r => (index_key i, x) :: indexed_from (S i) r
  end.

Fixpoint chars_of (s : string) : list JsVal :=
  match s with
  | EmptyString => []
  | String c r => JStr (String c "") :: chars_of r
  end.

(** The own enumerable properties an object spread [...v] copies. *)
Definition own_entries (v : JsVal) : Props :=
  match v with
  | JObj l => l
  | JArr l => indexed_from 0 l
  | JStr s => indexed_from 0 (chars_of s)
  | _ => []
  end.

(** [{ ...target, ...src }] continued from the properties written so far. *)
Definition spread (target : Props) (src : JsVal) : Props :=
  fold_left (fun acc kv => obj_set acc (fst kv) (snd kv)) (own_entries src) target.

(** [v.name] for the property names this program reads ([type], [datasets],
    [labels], [title], [options], [data], [label], [backgroundColor],
    [borderColor], [additionalConfig]): none of them is inherited, so on
    anything but a plain object the result is [undefined]. *)
Definition get_field (v : JsVal) (name : string) : JsVal :=
  match v with
  | JObj l => match lookup name l with Some x => x | None => JUndefined end
  | _ => JUndefined
  end.

(** [v[i]] for a numeric index. *)
Definition get_index (v : JsVal) (i : nat) : JsVal :=
  match v with
  | JArr l => nth i l JUndefined
  | JStr s => match String.get i s with
              | Some c => JStr (String c "")
              | None => JUndefined
              end
  | JObj l => match lookup (index_key i) l with Some x => x | None => JUndefined end
  | _ => JUndefined
  end.

(** Strict equality with a string literal, as in [switch] and [includes]. *)
Definition is_string (v : JsVal) (s : string) : bool :=
  match v with
  | JStr t => t =? s
  | _ => false
  end.

(** [Array.prototype.includes] on an array of string literals. *)
Definition includes (l : list string) (v : JsVal) : bool :=
  existsb (is_string v) l.

(** ToString, as a template literal applies it, on a value in which no
    object has a [toString] or [valueOf] member of its own. *)
Fixpoint to_string (v : JsVal) : string :=
  match v with
  | JUndefined => "undefined"
  | JNull => "null"
  | JBool true => "true"
  | JBool false => "false"
  | JNum n => number_to_string n
  | JStr s => s
  | JArr l =>
      String.concat ","
        ((fix go (l : list JsVal) : list string :=
            match l with
            | [] => []
            | x :: r => (if nullish x then "" else to_string x) :: go r
            end) l)
  | JObj _ => "[object Object]"
  | JFun FormatterEcho => "(value) => value"
  | JInf false => "Infinity"
  | JInf true => "-Infinity"
  end.

End Js.
Export Js.

(* ================================================================== *)
(** * Exceptions *)

Inductive ErrorCode : Set :=
| InvalidParams
| InternalError
| MethodNotFound.

(** A host exception: its [code] property, when it has one, and its
    [message]. *)
Record JsError : Set := mkJsError {
  err_code : option string;
  err_message : string
}.

Inductive Exn : Set :=
| McpError (code : ErrorCode) (message : string)
| Thrown (e : JsError).

Inductive Result (A : Type) : Type :=
| Ok (a : A)
| Throw (e : Exn).
Arguments Ok {A} a.
Arguments Throw {A} e.

Definition bind {A B : Type} (m : Result A) (k : A -> Result B) : Result B :=
  match m with
  | Ok a => k a
  | Throw e => Throw e
  end.

Declare Scope result_scope.
Delimit Scope result_scope with result.
Notation "x <- m ;; k" := (bind m (fun x => k))
  (at level 61, m at next level, right associativity) : result_scope.
Notation "m ;;; k" := (bind m (fun _ => k))
  (at level 61, right associativity) : result_scope.
Open Scope result_scope.

(** The TypeError of a property read on [undefined] or [null]. *)
Definition TypeError (name : string) : Exn :=
  Thrown (mkJsError None ("Cannot read properties of undefined (reading '" ++ name ++ "')")).

(** [v.name], throwing on a nullish receiver. *)
Definition prop (v : JsVal) (name : string) : Result JsVal :=
  if nullish v then Throw (TypeError name) else Ok (get_field v name).

(** [v[i]], throwing on a nullish receiver. *)
Definition index (v : JsVal) (i : nat) : Result JsVal :=
  if nullish v then Throw (TypeError (index_key i)) else Ok (get_index v i).

(** [v?.name] and [v?.[i]]. *)
Definition opt_prop (v : JsVal) (name : string) : JsVal :=
  if nullish v then JUndefined else get_field v name.
Definition opt_index (v : JsVal) (i : nat) : JsVal :=
  if nullish v then JUndefined else get_index v i.

(** [Array.prototype.map] and [forEach] with a callback that may throw. *)
Fixpoint array_map (f : JsVal -> Result JsVal) (l : list JsVal) : Result (list JsVal) :=
  match l with
  | [] => Ok []
  | x :: r => y <- f x ;; ys <- array_map f r ;; Ok (y :: ys)
  end.

Fixpoint array_forEach (f : JsVal -> Result unit) (l : list JsVal) : Result unit :=
  match l with
  | [] => Ok tt
  | x :: r => f x ;;; array_forEach f r
  end.

(* ================================================================== *)
(** * JSON text *)

Module Json.
Local Open Scope string_scope.
Local Open Scope nat_scope.

Definition dquote : ascii := "034"%char.
Definition backslash : ascii := "\"%char.

Definition hex_lower (n : nat) : ascii :=
  if n <? 10 then ascii_of_nat (48 + n) else ascii_of_nat (87 + n).

(** QuoteJSONString on one byte. *)
Definition escape_char (c : ascii) : string :=
  let n := nat_of_ascii c in
  if (c =? dquote)%char then String backslash (String dquote "")
  else if (c =? backslash)%char then String backslash (String backslash "")
  else if n =? 8 then "\b"
  else if n =? 12 then "\f"
  else if n =? 10 then "\n"
  else if n =? 13 then "\r"
  else if n =? 9 then "\t"
  else if n <? 32 then
    "\u00" ++ String (hex_lower (n / 16)) (String (hex_lower (n mod 16)) "")
  else String c "".

Fixpoint escape (s : string) : string :=
  match s with
  | EmptyString => ""
  | String c r => escape_char c ++ escape r
  end.

Definition quote (s : string) : string :=
  String dquote (escape s ++ String dquote "").

(** [JSON.stringify(v)] without indentation; [None] is the [undefined] it
    returns for [undefined] and for functions.  Inside an array such a value
    is written as [null]; inside an object the property is left out.  An
    infinite number is written as [null] wherever it stands. *)
Fixpoint JSON_stringify (v : JsVal) : option string :=
  match v with
  | JUndefined | JFun _ => None
  | JNull | JInf _ => Some "null"
  | JBool true => Some "true"
  | JBool false => Some "false"
  | JNum n => Some (number_to_string n)
  | JStr s => Some (quote s)
  | JArr l =>
      Some ("[" ++ String.concat ","
              ((fix items (l : list JsVal) : list string :=
                  match l with
                  | [] => []
                  | x :: r =>
                      match JSON_stringify x with
                      | Some t => t
                      | None => "null"
                      end :: items r
                  end) l) ++ "]")
  | JObj l =>
      Some ("{" ++ String.concat ","
              ((fix members (l : Props) : list string :=
                  match l with
                  | [] => []
                  | (k, x) :: r =>
                      match JSON_stringify x with
                      | Some t => (quote k ++ ":" ++ t) :: members r
                      | None => members r
                      end
                  end) l) ++ "}")
  end.

(** ** Parsing *)

Definition is_ws (c : ascii) : bool :=
  let n := nat_of_ascii c in
  (n =? 32) || (n =? 9) || (n =? 10) || (n =? 13).

Fixpoint skip_ws (s : string) : string :=
  match s with
  | EmptyString => ""
  | String c r => if is_ws c then skip_ws r else s
  end.

Fixpoint strip_prefix (p s : string) : option string :=
  match p, s with
  | EmptyString, _ => Some s
  | String a p', String b s' => if (a =? b)%char then strip_prefix p' s' else None
  | String _ _, EmptyString => None
  end.

Definition digit_cons (c : ascii) : option (uint -> uint) :=
  match nat_of_ascii c - 48, nat_of_ascii c <? 48 with
  | _, true => None
  | 0, _ => Some D0
  | 1, _ => Some D1
  | 2, _ => Some D2
  | 3, _ => Some D3
  | 4, _ => Some D4
  | 5, _ => Some D5
  | 6, _ => Some D6
  | 7, _ => Some D7
  | 8, _ => Some D8
  | 9, _ => Some D9
  | _, _ => None
  end.

(** The longest prefix of decimal digits, and what follows it. *)
Fixpoint take_digits (s : string) : uint * string :=
  match s with
  | EmptyString => (Nil, "")
  | String c r =>
      match digit_cons c with
      | Some d => let (ds, r') := take_digits r in (d ds, r')
      | None => (Nil, s)
      end
  end.

(** The digits of a JSON integer: a single zero, or a first digit other
    than zero. *)
Definition well_formed_digits (d : uint) : bool :=
  match d with
  | Nil => false
  | D0 Nil => true
  | D0 _ => false
  | _ => true
  end.

(** An integer literal: an optional minus sign, then well-formed digits.
    A fraction or an exponent after the digits is left in the remaining
    text, so that a number which is not an integer is refused by whoever
    reads on. *)
Definition parse_number (s : string) : option (JsVal * string) :=
  let (negative, body) :=
    match s with
    | String c r => if (c =? "-")%char then (true, r) else (false, s)
    | EmptyString => (false, s)
    end in
  let (d, r) := take_digits body in
  if well_formed_digits d then
    Some (JNum (if negative then Z.opp (Z.of_uint d) else Z.of_uint d), r)
  else None.

Definition hex_value (c : ascii) : option nat :=
  let n := nat_of_ascii c in
  if (48 <=? n) && (n <=? 57) then Some (n - 48)
  else if (97 <=? n) && (n <=? 102) then Some (n - 87)
  else if (65 <=? n) && (n <=? 70) then Some (n - 55)
  else None.

Definition hex4 (a b c d : ascii) : option nat :=
  match hex_value a, hex_value b, hex_value c, hex_value d with
  | Some x, Some y, Some z, Some w => Some (((x * 16 + y) * 16 + z) * 16 + w)
  | _, _, _, _ => None
  end.

(** UTF-8 bytes of a code point of the basic plane; the halves of a
    surrogate pair have no byte form of their own and are refused. *)
Definition utf8 (n : nat) : option string :=
  if n <? 128 then Some (String (ascii_of_nat n) "")
  else if n <? 2048 then
    Some (String (ascii_of_nat (192 + n / 64))
            (String (ascii_of_nat (128 + n mod 64)) ""))
  else if (216 <=? n / 256) && (n / 256 <? 224) then None
  else
    Some (String (ascii_of_nat (224 + n / 4096))
            (String (ascii_of_nat (128 + (n / 64) mod 64))
               (String (ascii_of_nat (128 + n mod 64)) ""))).

Definition unescape (c : ascii) : option ascii :=
  if (c =? dquote)%char then Some dquote
  else if (c =? backslash)%char then Some backslash
  else if (c =? "/")%char then Some "/"%char
  else if (c =? "b")%char then Some (ascii_of_nat 8)
  else if (c =? "f")%char then Some (ascii_of_nat 12)
  else if (c =? "n")%char then Some (ascii_of_nat 10)
  else if (c =? "r")%char then Some (ascii_of_nat 13)
  else if (c =? "t")%char then Some (ascii_of_nat 9)
  else None.

(** The characters of a string literal after its opening quote, up to and
    including the closing quote. *)
Fixpoint parse_chars (s : string) : option (string * string) :=
  match s with
  | EmptyString => None
  | String c r =>
      if (c =? dquote)%char then Some ("", r)
      else if (c =? backslash)%char then
        match r with
        | EmptyString => None
        | String e r1 =>
            if (e =? "u")%char then
              match r1 with
              | String h1 (String h2 (String h3 (String h4 r2))) =>
                  match hex4 h1 h2 h3 h4 with
                  | Some n =>
                      match utf8 n, parse_chars r2 with
                      | Some bytes, Some (t, r3) => Some (bytes ++ t, r3)
                      | _, _ => None
                      end
                  | None => None
                  end
              | _ => None
              end
            else
              match unescape e, parse_chars r1 with
              | Some c', Some (t, r2) => Some (String c' t, r2)
              | _, _ => None
              end
        end
      else if nat_of_ascii c <? 32 then None
      else
        match parse_chars r with
        | Some (t, r') => Some (String c t, r')
        | None => None
        end
  end.

Definition head_is (c : ascii) (s : string) : option string :=
  match s with
  | String a r => if (a =? c)%char then Some r else None
  | EmptyString => None
  end.

(** One JSON value at the head of [s], with the text after it.  The fuel
    bounds the nesting plus the number of array elements and members. *)
Fixpoint parse_value (fuel : nat) (s : string) {struct fuel} : option (JsVal * string) :=
  match fuel with
  | O => None
  | S fuel =>
      match skip_ws s with
      | EmptyString => None
      | String c r =>
          if (c =? "[")%char then
            match head_is "]" (skip_ws r) with
            | Some r' => Some (JArr [], r')
            | None => parse_elements fuel r []
            end
          else if (c =? "{")%char then
            match head_is "}" (skip_ws r) with
            | Some r' => Some (JObj [], r')
            | None => parse_members fuel r []
            end
          else if (c =? dquote)%char then
            match parse_chars r with
            | Some (t, r') => Some (JStr t, r')
            | None => None
            end
          else
            match strip_prefix "null" (String c r),
                  strip_prefix "true" (String c r),
                  strip_prefix "false" (String c r) with
            | Some r', _, _ => Some (JNull, r')
            | _, Some r', _ => Some (JBool true, r')
            | _, _, Some r' => Some (JBool false, r')
            | None, None, None => parse_number (String c r)
            end
      end
  end
with parse_elements (fuel : nat) (s : string) (acc : list JsVal) {struct fuel}
    : option (JsVal * string) :=
  match fuel with
  | O => None
  | S fuel =>
      match parse_value fuel s with
      | None => None
      | Some (v, r) =>
          match head_is "," (skip_ws r), head_is "]" (skip_ws r) with
          | Some r', _ => parse_elements fuel r' (acc ++ [v])%list
          | None, Some r' => Some (JArr (acc ++ [v])%list, r')
          | None, None => None
          end
      end
  end
with parse_members (fuel : nat) (s : string) (acc : Props) {struct fuel}
    : option (JsVal * string) :=
  match fuel with
  | O => None
  | S fuel =>
      match head_is dquote (skip_ws s) with
      | None => None
      | Some r0 =>
          match parse_chars r0 with
          | None => None
          | Some (k, r1) =>
              match head_is ":" (skip_ws r1) with
              | None => None
              | Some r2 =>
                  match parse_value fuel r2 with
                  | None => None
                  | Some (v, r3) =>
                      match head_is "," (skip_ws r3), head_is "}" (skip_ws r3) with
                      | Some r4, _ => parse_members fuel r4 (obj_set acc k v)
                      | None, Some r4 => Some (JObj (obj_set acc k v), r4)
                      | None, None => None
                      end
                  end
              end
          end
      end
  end.

(** [JSON.parse(text)]; [None] is its SyntaxError. *)
Definition JSON_parse (text : string) : option JsVal :=
  match parse_value (S (String.length text)) text with
  | Some (v, r) => if (skip_ws r =? "")%string then Some v else None
  | None => None
  end.

(** What survives [JSON.stringify]: properties holding [undefined] or a
    function are gone, array elements holding them are [null], and so is
    every infinite number. *)
Definition unserialisable (v : JsVal) : bool :=
  match v with
  | JUndefined | JFun _ => true
  | _ => false
  end.

Fixpoint json_image (v : JsVal) : JsVal :=
  match v with
  | JUndefined | JFun _ | JInf _ => JNull
  | JArr l => JArr (map json_image l)
  | JObj l =>
      JObj ((fix members (l : Props) : Props :=
               match l with
               | [] => []
               | (k, x) :: r =>
                   if unserialisable x then members r
                   else (k, json_image x) :: members r
               end) l)
  | _ => v
  end.

Fixpoint distinct (l : list string) : bool :=
  match l with
  | [] => true
  | k :: r => negb (existsb (String.eqb k) r) && distinct r
  end.

(** No object inside [v] has the same key twice. *)
Fixpoint keys_unique (v : JsVal) : bool :=
  match v with
  | JArr l => forallb keys_unique l
  | JObj l => distinct (map fst l) && forallb (fun kv => keys_unique (snd kv)) l
  | _ => true
  end.

(** No function value, no [undefined] and no infinite number anywhere
    inside [v]. *)
Fixpoint serialisable (v : JsVal) : bool :=
  match v with
  | JUndefined | JFun _ | JInf _ => false
  | JArr l => forallb serialisable l
  | JObj l => forallb (fun kv => serialisable (snd kv)) l
  | _ => true
  end.

End Json.
Export Json.

(* ================================================================== *)
(** * Percent-encoding *)

Module Uri.
Local Open Scope string_scope.
Local Open Scope nat_scope.

(** The characters [encodeURIComponent] leaves alone: letters, digits and
    [- _ . ! ~ * ' ( )]. *)
Definition unreserved (c : ascii) : bool :=
  let n := nat_of_ascii c in
  ((65 <=? n) && (n <=? 90)) || ((97 <=? n) && (n <=? 122))
  || ((48 <=? n) && (n <=? 57))
  || (n =? 45) || (n =? 95) || (n =? 46) || (n =? 33) || (n =? 126)
  || (n =? 42) || (n =? 39) || (n =? 40) || (n =? 41).

Definition hex_upper (n : nat) : ascii :=
  if n <? 10 then ascii_of_nat (48 + n) else ascii_of_nat (55 + n).

Definition percent (c : ascii) : string :=
  let n := nat_of_ascii c in
  String "%" (String (hex_upper (n / 16)) (String (hex_upper (n mod 16)) "")).

Fixpoint encodeURIComponent (s : string) : string :=
  match s with
  | EmptyString => ""
  | String c r => (if unreserved c then String c "" else percent c) ++ encodeURIComponent r
  end.

(** [decodeURIComponent]; [None] is its URIError on a malformed escape. *)
Fixpoint decodeURIComponent (s : string) : option string :=
  match s with
  | EmptyString => Some ""
  | String c r =>
      if (c =? "%")%char then
        match r with
        | String h1 (String h2 r') =>
            match hex_value h1, hex_value h2, decodeURIComponent r' with
            | Some a, Some b, Some t => Some (String (ascii_of_nat (a * 16 + b)) t)
            | _, _, _ => None
            end
        | _ => None
        end
      else
        match decodeURIComponent r with
        | Some t => Some (String c t)
        | None => None
        end
  end.

End Uri.
Export Uri.

(* ================================================================== *)
(** * The normaliser *)

Module QuickChart.
Local Open Scope string_scope.

Definition QUICKCHART_BASE_URL : string := "https://quickchart.io/chart".

Definition validTypes : list string :=
  ["bar"; "line"; "pie"; "doughnut"; "radar";
   "polarArea"; "scatter"; "bubble"; "radialGauge"; "speedometer"].

Definition validateChartType (type : JsVal) : Result unit :=
  if negb (includes validTypes type) then
    Throw (McpError InvalidParams
             ("Invalid chart type. Must be one of: " ++ String.concat ", " validTypes))
  else Ok tt.

(** The callback of [datasets.map]. *)
Definition map_dataset (dataset : JsVal) : Result JsVal :=
  if negb (truthy dataset) then
    Throw (McpError InvalidParams "Each dataset must have a data property")
  else
    data <- prop dataset "data" ;;
    if negb (truthy data) then
      Throw (McpError InvalidParams "Each dataset must have a data property")
    else
      label <- prop dataset "label" ;;
      backgroundColor <- prop dataset "backgroundColor" ;;
      borderColor <- prop dataset "borderColor" ;;
      additionalConfig <- prop dataset "additionalConfig" ;;
      Ok (JObj (spread [("label", js_or label (JStr ""));
                        ("data", data);
                        ("backgroundColor", backgroundColor);
                        ("borderColor", borderColor)]
                       (js_or additionalConfig (JObj [])))).

(** The callback of [datasets.forEach] in the scatter and bubble branch. *)
Definition check_point (type : JsVal) (dataset : JsVal) : Result unit :=
  data <- prop dataset "data" ;;
  first <- index data 0 ;;
  if negb (isArray first) then
    Throw (McpError InvalidParams
             (to_string type ++ " requires data points in [x, y"
              ++ (if is_string type "bubble" then ", r" else "") ++ "] format"))
  else Ok tt.

Definition datalabels_plugin : JsVal :=
  JObj [("datalabels", JObj [("display", JBool true);
                             ("formatter", JFun FormatterEcho)])].

Definition mk_config (type data options : JsVal) : JsVal :=
  JObj [("type", type); ("data", data); ("options", options)].

Definition generateChartConfig (args : JsVal) : Result JsVal :=
  if negb (truthy args) then
    Throw (McpError InvalidParams "No arguments provided to generateChartConfig")
  else
  type0 <- prop args "type" ;;
  if negb (truthy type0) then
    Throw (McpError InvalidParams "Chart type is required")
  else
  datasets0 <- prop args "datasets" ;;
  if negb (truthy datasets0) || negb (isArray datasets0) then
    Throw (McpError InvalidParams "Datasets must be a non-empty array")
  else
  type <- prop args "type" ;;
  labels <- prop args "labels" ;;
  datasets <- prop args "datasets" ;;
  title <- prop args "title" ;;
  options0 <- prop args "options" ;;
  let options := default_to options0 (JObj []) in
  validateChartType type ;;;
  mapped <- array_map map_dataset (own_items datasets) ;;
  let data := JObj [("labels", js_or labels (JArr [])); ("datasets", JArr mapped)] in
  let config_options :=
    spread (spread [] options)
           (js_and title (JObj [("title", JObj [("display", JBool true);
                                                ("text", title)])])) in
  if is_string type "radialGauge" || is_string type "speedometer" then
    if negb (truthy (opt_index (opt_prop (opt_index datasets 0) "data") 0)) then
      Throw (McpError InvalidParams (to_string type ++ " requires a single numeric value"))
    else
      Ok (mk_config type data
            (JObj (obj_set (spread [] (JObj config_options)) "plugins" datalabels_plugin)))
  else if is_string type "scatter" || is_string type "bubble" then
    array_forEach (check_point type) (own_items datasets) ;;;
    Ok (mk_config type data (JObj config_options))
  else
    Ok (mk_config type data (JObj config_options)).

(** [generateChartUrl]; [encodeURIComponent] applies ToString to its
    argument, so an [undefined] serialisation is encoded as that word. *)
Definition generateChartUrl (config : JsVal) : string :=
  let encodedConfig :=
    encodeURIComponent (match JSON_stringify config with
                        | Some text => text
                        | None => "undefined"
                        end) in
  QUICKCHART_BASE_URL ++ "?c=" ++ encodedConfig.

(** Reading a URL back: the part after [?c=], percent-decoded and parsed. *)
Definition decode_url (url : string) : option JsVal :=
  match strip_prefix (QUICKCHART_BASE_URL ++ "?c=") url with
  | Some encoded =>
      match decodeURIComponent encoded with
      | Some text => JSON_parse text
      | None => None
      end
  | None => None
  end.

(** The outer [catch] of both tool handlers. *)
Definition wrap_internal (what : string) (error : Exn) : Exn :=
  match error with
  | McpError _ _ => error
  | Thrown e =>
      McpError InternalError
        (what ++ (if (err_message e =? "")%string then "Unknown error" else err_message e))
  end.

(** The [generate_chart] tool. *)
Definition generate_chart (arguments : JsVal) : Result string :=
  match generateChartConfig arguments with
  | Ok config => Ok (generateChartUrl config)
  | Throw error => Throw (wrap_internal "Failed to generate chart: " error)
  end.

(** ** The [download_chart] tool *)

(** The shape adapter, one field: lines 292-307. *)
Definition lift_field (config : JsVal) (normalizedConfig : Props) (name : string)
    : Result Props :=
  data <- prop config "data" ;;
  if truthy data && typeof_object data then
    nested <- prop data name ;;
    if truthy nested && negb (truthy (get_field (JObj normalizedConfig) name)) then
      Ok (obj_set normalizedConfig name nested)
    else Ok normalizedConfig
  else Ok normalizedConfig.

(** Lines 280-315: the checks on [config] and the shape adapter. *)
Definition normalize_shape (config : JsVal) : Result JsVal :=
  if negb (truthy config) || negb (typeof_object config) then
    Throw (McpError InvalidParams "Config must be a valid chart configuration object")
  else
    let normalizedConfig := spread [] config in
    normalizedConfig <- lift_field config normalizedConfig "datasets" ;;
    normalizedConfig <- lift_field config normalizedConfig "labels" ;;
    normalizedConfig <- lift_field config normalizedConfig "type" ;;
    if negb (truthy (get_field (JObj normalizedConfig) "type"))
       || negb (truthy (get_field (JObj normalizedConfig) "datasets")) then
      Throw (McpError InvalidParams
               "Config must include type and datasets properties (either at root level or inside data object)")
    else Ok (JObj normalizedConfig).

(** *** The host: file system, clock and network *)

Record Host : Type := mkHost {
  os_homedir : string;
  path_join : string -> string -> string;
  path_dirname : string -> string;
  (** whether [fs.promises.access(p, W_OK)] resolves *)
  fs_access_W_OK : string -> bool;
  (** [new Date().toISOString()] *)
  date_toISOString : string;
  (** [axios.get(url, {responseType: 'arraybuffer'})]: the body or the
      rejection *)
  axios_get : string -> JsError + string;
  (** [fs.promises.writeFile(p, data)]: the rejection, if any *)
  fs_writeFile : string -> string -> option JsError
}.

Inductive Event : Type :=
| EvAccess (path : string)
| EvConsoleError (message : string)
| EvHttpGet (url : string)
| EvWriteFile (path : string) (data : string).

(** A computation that appends to the trace of host calls made so far. *)
Definition IO (A : Type) : Type := list Event -> list Event * Result A.

Definition io_ret {A : Type} (a : A) : IO A := fun tr => (tr, Ok a).
Definition io_throw {A : Type} (e : Exn) : IO A := fun tr => (tr, Throw e).
Definition io_lift {A : Type} (r : Result A) : IO A := fun tr => (tr, r).
Definition io_bind {A B : Type} (m : IO A) (k : A -> IO B) : IO B :=
  fun tr =>
    match m tr with
    | (tr', Ok a) => k a tr'
    | (tr', Throw e) => (tr', Throw e)
    end.
Definition try_catch {A : Type} (m : IO A) (handler : Exn -> IO A) : IO A :=
  fun tr =>
    match m tr with
    | (tr', Ok a) => (tr', Ok a)
    | (tr', Throw e) => handler e tr'
    end.
Definition emit (e : Event) : IO unit := fun tr => ((tr ++ [e])%list, Ok tt).

Declare Scope io_scope.
Delimit Scope io_scope with io.
Notation "x <- m ;; k" := (io_bind m (fun x => k))
  (at level 61, m at next level, right associativity) : io_scope.
Notation "m ;;; k" := (io_bind m (fun _ => k))
  (at level 61, right associativity) : io_scope.

(** *** The timestamp of the default file name *)

(** [.replace(/:/g, '-')] *)
Fixpoint replace_colons (s : string) : string :=
  match s with
  | EmptyString => ""
  | String c r => String (if (c =? ":")%char then "-"%char else c) (replace_colons r)
  end.

Definition is_line_terminator (c : ascii) : bool :=
  (c =? "010")%char || (c =? "013")%char.

Fixpoint drop_line (s : string) : string :=
  match s with
  | EmptyString => ""
  | String c r => if is_line_terminator c then s else drop_line r
  end.

(** [.replace(/\..+/, '')]: the first dot that has a character after it on
    its line goes, with the rest of that line. *)
Fixpoint cut_fraction (s : string) : string :=
  match s with
  | EmptyString => ""
  | String c r =>
      if (c =? ".")%char then
        match r with
        | EmptyString => s
        | String c' _ =>
            if is_line_terminator c' then String c (cut_fraction r) else drop_line r
        end
      else String c (cut_fraction r)
  end.

(** [.replace('T', '_')]: the first occurrence only. *)
Fixpoint replace_first_T (s : string) : string :=
  match s with
  | EmptyString => ""
  | String c r => if (c =? "T")%char then String "_" r else String c (replace_first_T r)
  end.

Section Download.

Variable h : Host.

Definition access (path : string) : IO bool :=
  fun tr => ((tr ++ [EvAccess path])%list, Ok (fs_access_W_OK h path)).

Definition console_error (message : string) : IO unit :=
  emit (EvConsoleError message).

Definition http_get (url : string) : IO string :=
  fun tr =>
    ((tr ++ [EvHttpGet url])%list,
     match axios_get h url with
     | inr body => Ok body
     | inl e => Throw (Thrown e)
     end).

Definition write_file (path data : string) : IO unit :=
  fun tr =>
    ((tr ++ [EvWriteFile path data])%list,
     match fs_writeFile h path data with
     | None => Ok tt
     | Some e => Throw (Thrown e)
     end).

(** Lines 324-346: the default output path. *)
Definition default_output_path (normalizedConfig : JsVal) : IO string :=
  (let homeDir := os_homedir h in
   let desktopDir := path_join h homeDir "Desktop" in
   writable <- access desktopDir ;;
   baseDir <- (if writable : bool then io_ret desktopDir
               else console_error "Desktop not accessible, using home directory instead" ;;;
                    io_ret homeDir) ;;
   let timestamp :=
     replace_first_T (cut_fraction (replace_colons (date_toISOString h))) in
   let chartType := js_or (get_field normalizedConfig "type") (JStr "chart") in
   let outputPath :=
     path_join h baseDir (to_string chartType ++ "_" ++ timestamp ++ ".png") in
   console_error ("No output path provided, using: " ++ outputPath) ;;;
   io_ret outputPath)%io.

(** Lines 322-347: [userProvidedPath], or the default when it is missing or
    empty. *)
Definition resolve_output_path (normalizedConfig : JsVal)
    (userProvidedPath : option string) : IO string :=
  match userProvidedPath with
  | Some p => if (p =? "")%string then default_output_path normalizedConfig else io_ret p
  | None => default_output_path normalizedConfig
  end.

(** The [catch] around the fetch and the write: lines 367-381. *)
Definition classify_transfer_error (outputPath : string) (error : Exn) : Exn :=
  match error with
  | McpError _ _ => error
  | Thrown e =>
      match err_code e with
      | Some code =>
          if (code =? "EACCES")%string || (code =? "EROFS")%string then
            McpError InvalidParams
              ("Cannot write to " ++ outputPath ++ ": Permission denied")
          else if (code =? "ENOENT")%string then
            McpError InvalidParams
              ("Cannot write to " ++ outputPath ++ ": Directory does not exist")
          else error
      | None => error
      end
  end.

(** The [download_chart] tool: lines 273-400.  [userProvidedPath] is the
    optional string of the handler's argument type. *)
Definition download_chart (config : JsVal) (userProvidedPath : option string)
    : IO string :=
  try_catch
    (normalizedConfig <- io_lift (normalize_shape config) ;;
     outputPath <- resolve_output_path normalizedConfig userProvidedPath ;;
     let outputDir := path_dirname h outputPath in
     writable <- access outputDir ;;
     (if writable : bool then io_ret tt
      else io_throw (McpError InvalidParams
                       ("Output directory does not exist or is not writable: "
                        ++ outputDir))) ;;;
     chartConfig <- io_lift (generateChartConfig normalizedConfig) ;;
     let url := generateChartUrl chartConfig in
     try_catch
       (response <- http_get url ;;
        write_file outputPath response)
       (fun error => io_throw (classify_transfer_error outputPath error)) ;;;
     io_ret ("Chart saved to " ++ outputPath))%io
    (fun error => io_throw (wrap_internal "Failed to download chart: " error)).

End Download.

End QuickChart.
Export QuickChart.

(* ================================================================== *)
(** * The handlers of [src/index.ts] *)

(** The second source file holds the same server without the defensive
    checks: no test of [args], of [args.type], of [args.datasets] or of a
    dataset's [data] before they are used, no shape adapter and no probe of
    the output directory.  [validateChartType], [generateChartUrl] and the
    callback of [datasets.forEach] are the same text as above and are
    shared. *)
Module IndexTs.

(** [datasets.map(callback)]: only an array has the method.  A request
    comes from JSON and holds no function, so no other value has a callable
    [map] property. *)
Definition call_map (datasets : JsVal) (callback : JsVal -> Result JsVal)
    : Result (list JsVal) :=
  if nullish datasets then Throw (TypeError "map")
  else if isArray datasets then array_map callback (own_items datasets)
  else Throw (Thrown (mkJsError None "datasets.map is not a function")).

(** [datasets.forEach(callback)], likewise. *)
Definition call_forEach (datasets : JsVal) (callback : JsVal -> Result unit)
    : Result unit :=
  if nullish datasets then Throw (TypeError "forEach")
  else if isArray datasets then array_forEach callback (own_items datasets)
  else Throw (Thrown (mkJsError None "datasets.forEach is not a function")).

(** The callback of [datasets.map]: lines 88-94. *)
Definition map_dataset (dataset : JsVal) : Result JsVal :=
  label <- prop dataset "label" ;;
  data <- prop dataset "data" ;;
  backgroundColor <- prop dataset "backgroundColor" ;;
  borderColor <- prop dataset "borderColor" ;;
  additionalConfig <- prop dataset "additionalConfig" ;;
  Ok (JObj (spread [("label", js_or label (JStr ""));
                    ("data", data);
                    ("backgroundColor", backgroundColor);
                    ("borderColor", borderColor)]
                   additionalConfig)).

(** Lines 79-142. *)
Definition generateChartConfig (args : JsVal) : Result JsVal :=
  type <- prop args "type" ;;
  labels <- prop args "labels" ;;
  datasets <- prop args "datasets" ;;
  title <- prop args "title" ;;
  options0 <- prop args "options" ;;
  let options := default_to options0 (JObj []) in
  validateChartType type ;;;
  mapped <- call_map datasets map_dataset ;;
  let data := JObj [("labels", js_or labels (JArr [])); ("datasets", JArr mapped)] in
  let config_options :=
    spread (spread [] options)
           (js_and title (JObj [("title", JObj [("display", JBool true);
                                                ("text", title)])])) in
  if is_string type "radialGauge" || is_string type "speedometer" then
    if negb (truthy (opt_index (opt_prop (opt_index datasets 0) "data") 0)) then
      Throw (McpError InvalidParams (to_string type ++ " requires a single numeric value"))
    else
      Ok (mk_config type data
            (JObj (obj_set (spread [] (JObj config_options)) "plugins" datalabels_plugin)))
  else if is_string type "scatter" || is_string type "bubble" then
    call_forEach datasets (check_point type) ;;;
    Ok (mk_config type data (JObj config_options))
  else
    Ok (mk_config type data (JObj config_options)).

(** The [generate_chart] tool: lines 220-241. *)
Definition generate_chart (arguments : JsVal) : Result string :=
  match generateChartConfig arguments with
  | Ok config => Ok (generateChartUrl config)
  | Throw error => Throw (wrap_internal "Failed to generate chart: " error)
  end.

(** The [download_chart] tool: lines 243-273.  [outputPath] is the string
    of the handler's argument type. *)
Definition download_chart (h : Host) (config : JsVal) (outputPath : string)
    : IO string :=
  try_catch
    (chartConfig <- io_lift (generateChartConfig config) ;;
     let url := generateChartUrl chartConfig in
     response <- http_get h url ;;
     write_file h outputPath response ;;;
     io_ret ("Chart saved to " ++ outputPath))%io
    (fun error => io_throw (wrap_internal "Failed to download chart: " error)).

End IndexTs.

(* ================================================================== *)
(** * Vocabulary of the statements *)

Definition keys (l : Props) : list string := map fst l.

(** The gate of line 111: the dataset and its [data] are both truthy.
    Every array, every object and every non-empty string is truthy, so a
    dataset whose [data] is a sequence always passes. *)
Definition has_concrete_data (dataset : JsVal) : bool :=
  truthy dataset && truthy (get_field dataset "data").

Definition is_gauge (t : string) : bool :=
  (t =? "radialGauge") || (t =? "speedometer").

Definition is_points (t : string) : bool :=
  (t =? "scatter") || (t =? "bubble").

(** [datasets?.[0]?.data?.[0]] *)
Definition gauge_value (datasets : JsVal) : JsVal :=
  opt_index (opt_prop (opt_index datasets 0) "data") 0.

(** [Array.isArray(dataset.data[0])] *)
Definition first_is_point (dataset : JsVal) : bool :=
  isArray (get_index (get_field dataset "data") 0).

(** The rule of the [switch] for each chart type. *)
Definition type_rule (t : string) (ds : list JsVal) : bool :=
  if is_gauge t then truthy (gauge_value (JArr ds))
  else if is_points t then forallb first_is_point ds
  else true.

Definition title_block (title : JsVal) : JsVal :=
  JObj [("display", JBool true); ("text", title)].

Definition invalid (message : string) : Exn := McpError InvalidParams message.

(** The four properties every canonical dataset starts from. *)
Definition dataset_base (dataset : JsVal) : Props :=
  [("label", js_or (get_field dataset "label") (JStr ""));
   ("data", get_field dataset "data");
   ("backgroundColor", get_field dataset "backgroundColor");
   ("borderColor", get_field dataset "borderColor")].

Definition is_fetch (e : Event) : bool :=
  match e with
  | EvHttpGet _ => true
  | _ => false
  end.

Definition is_write (e : Event) : bool :=
  match e with
  | EvWriteFile _ _ => true
  | _ => false
  end.

(** The own property [k] of an object, when it has one. *)
Definition own_property (v : JsVal) (k : string) : option JsVal :=
  match v with
  | JObj l => lookup k l
  | _ => None
  end.

(** The canonical dataset of lines 117-123. *)
Definition canonical_dataset (dataset : JsVal) : JsVal :=
  JObj (spread (dataset_base dataset)
               (js_or (get_field dataset "additionalConfig") (JObj []))).

(** The [data] member of the canonical configuration. *)
Definition data_block (args : JsVal) (ds : list JsVal) : JsVal :=
  JObj [("labels", js_or (get_field args "labels") (JArr []));
        ("datasets", JArr (map canonical_dataset ds))].

(** The [options] of lines 126-134. *)
Definition canonical_options (args : JsVal) : Props :=
  spread (spread [] (default_to (get_field args "options") (JObj [])))
         (js_and (get_field args "title")
                 (JObj [("title", title_block (get_field args "title"))])).

(** The [options] after the gauge branch, lines 147-155. *)
Definition gauge_options (args : JsVal) : Props :=
  obj_set (spread [] (JObj (canonical_options args))) "plugins" datalabels_plugin.

Definition points_message (t : string) : string :=
  t ++ " requires data points in [x, y" ++ (if t =? "bubble" then ", r" else "")
    ++ "] format".

Definition gauge_message (t : string) : string :=
  t ++ " requires a single numeric value".

Definition valid_types_message : string :=
  "Invalid chart type. Must be one of: bar, line, pie, doughnut, radar, polarArea, scatter, bubble, radialGauge, speedometer".

(** The condition under which the shape adapter copies [config.data.name]
    to the top level: lines 292-293, 298-299 and 304-305. *)
Definition lifts (config : JsVal) (name : string) : bool :=
  let data := get_field config "data" in
  truthy data && typeof_object data && truthy (get_field data name)
  && negb (truthy (get_field config name)).

Definition adapter_fields : list string := ["datasets"; "labels"; "type"].

(** A trace with no fetch and no file write in it. *)
Definition quiet (tr : list Event) : bool :=
  negb (existsb is_fetch tr) && negb (existsb is_write tr).

Definition unwritable_message (outputDir : string) : string :=
  "Output directory does not exist or is not writable: " ++ outputDir.

(** A host whose file system refuses every write-access probe; paths are
    joined with a slash and every file lives in [/srv/out]. *)
Definition sample_readonly_host : Host :=
  mkHost "/home/u" (fun a b => a ++ "/" ++ b) (fun _ => "/srv/out")
         (fun _ => false) "2026-11-03T08:42:00.123Z"
         (fun _ => inr "PNG") (fun _ _ => None).

(** ** Text of serialised values *)

(** The text of an array element: [null] stands for a value that has no
    JSON text. *)
Definition item_text (v : JsVal) : string :=
  match JSON_stringify v with
  | Some t => t
  | None => "null"
  end.

(** The properties of an object that are written out. *)
Definition retained (l : Props) : Props :=
  filter (fun kv => negb (unserialisable (snd kv))) l.

Definition member_text (kv : string * JsVal) : string :=
  quote (fst kv) ++ ":" ++ item_text (snd kv).

Definition member_image (kv : string * JsVal) : string * JsVal :=
  (fst kv, json_image (snd kv)).

(** The text after a value does not continue a number. *)
Definition no_digit_head (s : string) : bool :=
  match s with
  | EmptyString => true
  | String c _ => match digit_cons c with Some _ => false | None => true end
  end.

(** What follows a value inside compact JSON text: nothing, a comma or a
    closing bracket. *)
Definition delim (s : string) : bool :=
  match s with
  | EmptyString => true
  | String c _ => (c =? ",")%char || (c =? "]")%char || (c =? "}")%char
  end.

(** The first byte of a number. *)
Definition number_head (c : ascii) : bool :=
  (c =? "-")%char || match digit_cons c with Some _ => true | None => false end.

(** The first byte of a value's text: not white space, not a closing
    bracket. *)
Definition value_head (s : string) : bool :=
  match s with
  | EmptyString => false
  | String c _ => negb (is_ws c) && negb (c =? "]")%char && negb (c =? "}")%char
  end.

(** The value parser reads the text of [v] back, whatever delimiter
    follows, as soon as the fuel covers the length of the text. *)
Definition parses_back (v : JsVal) : Prop :=
  keys_unique v = true ->
  forall fuel rest,
    String.length (item_text v) <= fuel ->
    delim rest = true ->
    parse_value fuel (item_text v ++ rest) = Some (json_image v, rest).

(** No function value anywhere inside [v]. *)
Fixpoint function_free (v : JsVal) : bool :=
  match v with
  | JFun _ => false
  | JArr l => forallb function_free l
  | JObj l => forallb (fun kv => function_free (snd kv)) l
  | _ => true
  end.

Definition is_atom (v : JsVal) : bool :=
  match v with
  | JArr _ | JObj _ | JFun _ => false
  | _ => true
  end.

Definition is_integer (v : JsVal) : bool :=
  match v with
  | JNum _ => true
  | _ => false
  end.

(** Every integer inside [v] is a safe integer, of magnitude below 2^53:
    the engine holds it exactly and prints all its digits. *)
Fixpoint safe_integers (v : JsVal) : bool :=
  match v with
  | JNum n => (Z.abs n <? 2 ^ 53)%Z
  | JArr l => forallb safe_integers l
  | JObj l => forallb (fun kv => safe_integers (snd kv)) l
  | _ => true
  end.

(** [config.data.datasets[0].data] *)
Definition first_data (config : JsVal) : JsVal :=
  get_field (get_index (get_field (get_field config "data") "datasets") 0) "data".

(** [{type: "bar", datasets: [{data: [1e999], backgroundColor: "red",
    borderColor: "blue"}]}] *)
Definition sample_infinite : JsVal :=
  JObj [("type", JStr "bar");
        ("datasets",
         JArr [JObj [("data", JArr [JInf false]);
                     ("backgroundColor", JStr "red");
                     ("borderColor", JStr "blue")]])].

(** Line 275, [const { config, outputPath: userProvidedPath } =
    request.params.arguments], where neither the destructuring nor the
    [path.dirname] of line 349 throws a TypeError: the arguments are present
    and [outputPath] is a string or is falsy, which line 322 treats as no
    path. *)
Definition destructure_arguments (arguments : JsVal)
    : option (JsVal * option string) :=
  if nullish arguments then None
  else match get_field arguments "outputPath" with
       | JStr p => Some (get_field arguments "config", Some p)
       | v => if truthy v then None
              else Some (get_field arguments "config", None)
       end.

(** The [type] that the shape adapter arrives at is a string. *)
Definition type_is_text (config : JsVal) : bool :=
  match normalize_shape config with
  | Ok nc => match get_field nc "type" with
             | JStr _ => true
             | _ => false
             end
  | Throw _ => true
  end.

Definition values_satisfy (Q : JsVal -> bool) (l : Props) : bool :=
  forallb (fun kv => Q (snd kv)) l.

(** A byte comes back from its percent-encoded form, and a byte that is
    written as itself is not the percent sign. *)
Definition byte_survives (c : ascii) : bool :=
  match decodeURIComponent (if unreserved c then String c "" else percent c) with
  | Some t => (t =? String c "")%string
  | None => false
  end
  && (if unreserved c then negb (c =? "%")%char else true).


(** ** Sample requests *)

Definition numbers (l : list Z) : JsVal := JArr (map JNum l).

(** [{type: "bar", datasets: [{data: [1, 2, 3]}]}] *)
Definition sample_bar : JsVal :=
  JObj [("type", JStr "bar");
        ("datasets", JArr [JObj [("data", numbers [1; 2; 3]%Z)]])].

(** [{type: "radialGauge", datasets: [{data: [5], backgroundColor: "red",
    borderColor: "blue"}]}] *)
Definition sample_gauge : JsVal :=
  JObj [("type", JStr "radialGauge");
        ("datasets", JArr [JObj [("data", numbers [5]%Z);
                                 ("backgroundColor", JStr "red");
                                 ("borderColor", JStr "blue")]])].

(** [{type: "radialGauge", datasets: [{data: []}]}] *)
Definition sample_gauge_empty : JsVal :=
  JObj [("type", JStr "radialGauge");
        ("datasets", JArr [JObj [("data", JArr [])]])].

(** [{type: "scatter", datasets: [{data: [[1, 2], 7, "x"]}]}]: a point, then
    two elements that are not points. *)
Definition sample_scatter : JsVal :=
  JObj [("type", JStr "scatter");
        ("datasets", JArr [JObj [("data", JArr [numbers [1; 2]%Z; JNum 7; JStr "x"])]])].

(** [{type: "scatter", datasets: [{data: [1, 2, 3]}]}] *)
Definition sample_scatter_flat : JsVal :=
  JObj [("type", JStr "scatter");
        ("datasets", JArr [JObj [("data", numbers [1; 2; 3]%Z)]])].

(** [{type: "bar", title: T, options: {title: {display: false, text: "Old"}},
    datasets: [{data: [1]}]}] *)
Definition sample_titled (title : string) : JsVal :=
  JObj [("type", JStr "bar");
        ("title", JStr title);
        ("options", JObj [("title", JObj [("display", JBool false);
                                          ("text", JStr "Old")])]);
        ("datasets", JArr [JObj [("data", numbers [1]%Z)]])].

(** [{type: "line", datasets: []}] *)
Definition sample_no_datasets : JsVal :=
  JObj [("type", JStr "line"); ("datasets", JArr [])].

(** [{type: "histogram", datasets: []}] *)
Definition sample_unknown_type : JsVal :=
  JObj [("type", JStr "histogram"); ("datasets", JArr [])].

(** [{data: [4], label: "a", additionalConfig: {label: "b", fill: false}}] *)
Definition sample_dataset : JsVal :=
  JObj [("data", numbers [4]%Z);
        ("label", JStr "a");
        ("additionalConfig", JObj [("label", JStr "b"); ("fill", JBool false)])].

(** [{type: "bar", labels: ["a", "b"], datasets: [{data: [1, 2],
    backgroundColor: "red", borderColor: "blue"}]}] *)
Definition sample_coloured : JsVal :=
  JObj [("type", JStr "bar");
        ("labels", JArr [JStr "a"; JStr "b"]);
        ("datasets", JArr [JObj [("data", numbers [1; 2]%Z);
                                 ("backgroundColor", JStr "red");
                                 ("borderColor", JStr "blue")]])].

(** Reading [config.options.plugins.datalabels.formatter]. *)
Definition formatter_of (config : JsVal) : JsVal :=
  get_field (get_field (get_field (get_field config "options") "plugins")
                       "datalabels") "formatter".

(** [{type: "pie", data: {datasets: [{data: [1]}], labels: ["a"]}}] *)
Definition sample_pie_nested : JsVal :=
  JObj [("type", JStr "pie");
        ("data", JObj [("datasets", JArr [JObj [("data", numbers [1]%Z)]]);
                       ("labels", JArr [JStr "a"])])].

(** [{type: "pie", datasets: [{data: [1]}], labels: ["a"]}] *)
Definition sample_pie_flat : JsVal :=
  JObj [("type", JStr "pie");
        ("datasets", JArr [JObj [("data", numbers [1]%Z)]]);
        ("labels", JArr [JStr "a"])].

(** [{type: "pie", labels: "", datasets: [{data: [1]}], data: {labels: ["a"]}}]:
    the top-level [labels] is present and holds the empty string. *)
Definition sample_pie_both : JsVal :=
  JObj [("type", JStr "pie");
        ("labels", JStr "");
        ("datasets", JArr [JObj [("data", numbers [1]%Z)]]);
        ("data", JObj [("labels", JArr [JStr "a"])])].

(** ** Further vocabulary: requests, shapes, paths and traces *)

(** The five members of a request the normaliser reads. *)
Definition request_fields : list string :=
  ["type"; "labels"; "datasets"; "title"; "options"].

(** A field the shape adapter can find: truthy at the top level, or truthy
    inside an object-typed [data] member. *)
Definition available (config : JsVal) (name : string) : bool :=
  let data := get_field config "data" in
  truthy (get_field config name)
  || (truthy data && typeof_object data && truthy (get_field data name)).

(** The value of a field after the shape adapter. *)
Definition effective (config : JsVal) (name : string) : JsVal :=
  if lifts config name then get_field (get_field config "data") name
  else get_field config name.

(** The flat request with the values the adapter settles on. *)
Definition flat_equivalent (config : JsVal) : JsVal :=
  JObj [("type", effective config "type");
        ("labels", effective config "labels");
        ("datasets", effective config "datasets");
        ("title", get_field config "title");
        ("options", get_field config "options")].

(** One step of the adapter in closed form, and the three steps in the
    order of the source: [datasets], [labels], [type]. *)
Definition lift_into (config : JsVal) (nc : Props) (name : string) : Props :=
  if lifts config name
  then obj_set nc name (get_field (get_field config "data") name)
  else nc.

Definition adapted (props : Props) : Props :=
  lift_into (JObj props)
    (lift_into (JObj props) (lift_into (JObj props) props "datasets") "labels")
    "type".

(** [{x: undefined, y: 1}] and [{y: 1}] *)
Definition sample_sparse : JsVal := JObj [("x", JUndefined); ("y", JNum 1)].
Definition sample_dense : JsVal := JObj [("y", JNum 1)].

Fixpoint all_chars (P : ascii -> bool) (s : string) : bool :=
  match s with
  | EmptyString => true
  | String c r => P c && all_chars P r
  end.

(** The byte [x] does not occur in [s]. *)
Definition lacks (x : ascii) (s : string) : bool :=
  all_chars (fun c => negb (c =? x)%char) s.

(** The host error carries one of the three codes that lines 368-379
    translate. *)
Definition is_fs_code (e : JsError) : bool :=
  match err_code e with
  | Some code => (code =? "EACCES") || (code =? "EROFS") || (code =? "ENOENT")
  | None => false
  end.

Definition shape_message : string :=
  "Config must include type and datasets properties (either at root level or inside data object)".

Definition object_message : string :=
  "Config must be a valid chart configuration object".

(** The timestamp of the default file name: line 339-342. *)
Definition timestamp_of (iso : string) : string :=
  replace_first_T (cut_fraction (replace_colons iso)).

(** A byte that may stand in the query of a URL as it is: an unreserved
    character or the percent sign of an escape. *)
Definition url_safe (c : ascii) : bool := unreserved c || (c =? "%")%char.

(** A byte that none of the three replacements of the timestamp touches. *)
Definition plain_char (c : ascii) : bool :=
  negb (c =? ":")%char && negb (c =? ".")%char && negb (c =? "T")%char
  && negb (is_line_terminator c).

Definition not_colon (c : ascii) : bool := negb (c =? ":")%char.

Definition not_line_terminator (c : ascii) : bool := negb (is_line_terminator c).

Definition count_events (P : Event -> bool) (tr : list Event) : nat :=
  List.length (filter P tr).

Definition is_access (e : Event) : bool :=
  match e with
  | EvAccess _ => true
  | _ => false
  end.

Definition desktop_dir (h : Host) : string := path_join h (os_homedir h) "Desktop".

(** The directory of a derived output path: line 329-336. *)
Definition base_dir (h : Host) : string :=
  if fs_access_W_OK h (desktop_dir h) then desktop_dir h else os_homedir h.

(** The host calls made while the default path is derived. *)
Definition default_path_trace (h : Host) (outputPath : string) : list Event :=
  EvAccess (desktop_dir h)
  :: (if fs_access_W_OK h (desktop_dir h) then []
      else [EvConsoleError "Desktop not accessible, using home directory instead"])
  ++ [EvConsoleError ("No output path provided, using: " ++ outputPath)].

(** What the handlers report for a host error that is not one of the three
    file-system codes. *)
Definition internal_report (what : string) (e : JsError) : Exn :=
  McpError InternalError
    (what ++ (if (err_message e =? "")%string then "Unknown error" else err_message e)).

(** A host with a writable file system that serves [body] for every URL and
    stores every file. *)
Definition sample_host (body : string) : Host :=
  mkHost "/home/u" (fun a b => a ++ "/" ++ b) (fun _ => "/srv/out")
         (fun _ => true) "2026-11-03T08:42:00.123Z"
         (fun _ => inr body) (fun _ _ => None).

(** A host with a writable file system whose network refuses every URL with
    the error [e]. *)
Definition sample_offline_host (e : JsError) : Host :=
  mkHost "/home/u" (fun a b => a ++ "/" ++ b) (fun _ => "/srv/out")
         (fun _ => true) "2026-11-03T08:42:00.123Z"
         (fun _ => inl e) (fun _ _ => None).

(** [{type: "bar", datasets: [{label: "no data"}]}] *)
Definition sample_without_data : JsVal :=
  JObj [("type", JStr "bar");
        ("datasets", JArr [JObj [("label", JStr "no data")]])].

(** [{type: "bar", title: "Sales", options: {legend: false},
    datasets: [{data: [1]}]}] *)
Definition sample_with_legend : JsVal :=
  JObj [("type", JStr "bar");
        ("title", JStr "Sales");
        ("options", JObj [("legend", JBool false)]);
        ("datasets", JArr [JObj [("data", numbers [1]%Z)]])].

(* ================================================================== *)
(** * Own properties: lookup, assignment and spread *)

Section Objects.

Lemma lookup_obj_set (l : Props) (k k' : string) (v : JsVal) :
  lookup k' (obj_set l k v) = if k =? k' then Some v else lookup k' l.
Proof.
  induction l as [|[a x] l IH]; simpl.
  - destruct (String.eqb_spec k k'); reflexivity.
  - destruct (String.eqb_spec a k) as [->|Hak]; simpl.
    + destruct (String.eqb_spec k k'); reflexivity.
    + rewrite IH. destruct (String.eqb_spec a k') as [->|Hak'].
      * destruct (String.eqb_spec k k'); congruence.
      * reflexivity.
Qed.

Lemma lookup_obj_set_same (l : Props) (k : string) (v : JsVal) :
  lookup k (obj_set l k v) = Some v.
Proof. now rewrite lookup_obj_set, String.eqb_refl. Qed.

Lemma lookup_app (k : string) (l1 l2 : Props) :
  lookup k (l1 ++ l2)%list
  = match lookup k l1 with Some v => Some v | None => lookup k l2 end.
Proof.
  induction l1 as [|[a x] l1 IH]; simpl; [reflexivity|].
  destruct (a =? k); [reflexivity | exact IH].
Qed.

Lemma lookup_None_iff (k : string) (l : Props) :
  lookup k l = None <-> ~ In k (keys l).
Proof.
  induction l as [|[a x] l IH]; simpl.
  - tauto.
  - destruct (String.eqb_spec a k) as [->|Hne].
    + split; [discriminate | intros H; exfalso; apply H; now left].
    + rewrite IH. split; [intros H [E|E]; [congruence | tauto] | tauto].
Qed.

Lemma obj_set_fresh (l : Props) (k : string) (v : JsVal) :
  ~ In k (keys l) -> obj_set l k v = (l ++ [(k, v)])%list.
Proof.
  induction l as [|[a x] l IH]; simpl; intros H; [reflexivity|].
  destruct (String.eqb_spec a k) as [->|Hne].
  - exfalso; apply H; now left.
  - f_equal. apply IH. tauto.
Qed.

(** Spreading a list of distinct, new keys appends it. *)
Lemma fold_obj_set_fresh (src acc : Props) :
  NoDup (keys acc ++ keys src)%list ->
  fold_left (fun a kv => obj_set a (fst kv) (snd kv)) src acc = (acc ++ src)%list.
Proof.
  revert acc. induction src as [|[k v] src IH]; intros acc H; simpl.
  - now rewrite app_nil_r.
  - simpl in H. rewrite obj_set_fresh.
    + rewrite IH.
      * now rewrite <- app_assoc.
      * unfold keys. rewrite map_app, <- app_assoc. exact H.
    + apply NoDup_remove_2 in H. intros Hin. apply H. apply in_or_app. now left.
Qed.

Lemma spread_nil_object (l : Props) :
  NoDup (keys l) -> spread [] (JObj l) = l.
Proof. intros H. unfold spread. simpl. now rewrite fold_obj_set_fresh. Qed.

(** After a spread the last write wins. *)
Lemma lookup_fold_obj_set (k : string) (src acc : Props) :
  lookup k (fold_left (fun a kv => obj_set a (fst kv) (snd kv)) src acc)
  = match lookup k (List.rev src) with
    | Some v => Some v
    | None => lookup k acc
    end.
Proof.
  revert acc. induction src as [|[a x] src IH]; intros acc; simpl; [reflexivity|].
  rewrite IH, lookup_app, lookup_obj_set. simpl.
  destruct (lookup k (List.rev src)); [reflexivity|].
  destruct (a =? k); reflexivity.
Qed.

Lemma lookup_rev_NoDup (k : string) (l : Props) :
  NoDup (keys l) -> lookup k (List.rev l) = lookup k l.
Proof.
  induction l as [|[a x] l IH]; simpl; intros H; [reflexivity|].
  inversion H as [|? ? Hnin Hnd]; subst.
  rewrite lookup_app, (IH Hnd). simpl.
  destruct (String.eqb_spec a k) as [->|Hne].
  - apply lookup_None_iff in Hnin. now rewrite Hnin.
  - now destruct (lookup k l).
Qed.

Lemma keys_obj_set (l : Props) (k : string) (v : JsVal) :
  keys (obj_set l k v) = if existsb (String.eqb k) (keys l) then keys l
                         else (keys l ++ [k])%list.
Proof.
  induction l as [|[a x] l IH]; simpl; [reflexivity|].
  rewrite (String.eqb_sym k a).
  destruct (String.eqb_spec a k) as [->|Hne]; simpl; [reflexivity|].
  rewrite IH. now destruct (existsb (String.eqb k) (keys l)).
Qed.

Lemma NoDup_keys_obj_set (l : Props) (k : string) (v : JsVal) :
  NoDup (keys l) -> NoDup (keys (obj_set l k v)).
Proof.
  intros H. rewrite keys_obj_set.
  destruct (existsb (String.eqb k) (keys l)) eqn:E; [exact H|].
  assert (Hk : ~ In k (keys l)).
  { intros Hin. assert (existsb (String.eqb k) (keys l) = true); [|congruence].
    apply existsb_exists. exists k. split; [exact Hin | apply String.eqb_refl]. }
  clear E. induction (keys l) as [|a ks IH]; simpl.
  - constructor; [tauto | constructor].
  - inversion H; subst. constructor.
    + rewrite in_app_iff. simpl in *. intuition congruence.
    + apply IH; simpl in *; tauto.
Qed.

Lemma NoDup_keys_spread (l : Props) (src : JsVal) :
  NoDup (keys l) -> NoDup (keys (spread l src)).
Proof.
  unfold spread. generalize (own_entries src). intros es. revert l.
  induction es as [|[k v] es IH]; intros l H; simpl; [exact H|].
  apply IH. now apply NoDup_keys_obj_set.
Qed.

End Objects.

(* ================================================================== *)
(** * The normaliser, gate by gate *)

Section Normaliser.

Lemma truthy_not_nullish (v : JsVal) : truthy v = true -> nullish v = false.
Proof. destruct v; simpl; congruence. Qed.

Lemma prop_ok (v : JsVal) (name : string) :
  truthy v = true -> prop v name = Ok (get_field v name).
Proof. intros H. unfold prop. now rewrite (truthy_not_nullish v H). Qed.

Lemma index_ok (v : JsVal) (i : nat) :
  truthy v = true -> index v i = Ok (get_index v i).
Proof. intros H. unfold index. now rewrite (truthy_not_nullish v H). Qed.

Lemma get_field_truthy (v : JsVal) (name : string) :
  truthy (get_field v name) = true -> truthy v = true.
Proof. destruct v; simpl; congruence. Qed.

Lemma map_dataset_ok (d : JsVal) :
  has_concrete_data d = true -> map_dataset d = Ok (canonical_dataset d).
Proof.
  unfold has_concrete_data, map_dataset. intros H.
  apply andb_prop in H as [Hd Hdata].
  rewrite Hd. simpl. rewrite !(prop_ok _ _ Hd). simpl. now rewrite Hdata.
Qed.

Lemma map_dataset_fail (d : JsVal) :
  has_concrete_data d = false ->
  map_dataset d = Throw (invalid "Each dataset must have a data property").
Proof.
  unfold has_concrete_data, map_dataset. intros H.
  destruct (truthy d) eqn:Hd; simpl in *; [|reflexivity].
  rewrite (prop_ok _ _ Hd). simpl. now rewrite H.
Qed.

Lemma array_map_ok (ds : list JsVal) :
  forallb has_concrete_data ds = true ->
  array_map map_dataset ds = Ok (map canonical_dataset ds).
Proof.
  induction ds as [|d ds IH]; simpl; intros H; [reflexivity|].
  apply andb_prop in H as [Hd Hds].
  now rewrite (map_dataset_ok d Hd), (IH Hds).
Qed.

Lemma array_map_fail (ds : list JsVal) :
  forallb has_concrete_data ds = false ->
  array_map map_dataset ds = Throw (invalid "Each dataset must have a data property").
Proof.
  induction ds as [|d ds IH]; simpl; intros H; [discriminate|].
  destruct (has_concrete_data d) eqn:Hd; simpl in H.
  - now rewrite (map_dataset_ok d Hd), (IH H).
  - now rewrite (map_dataset_fail d Hd).
Qed.

(** A dataset whose first data element is an array has passed line 111. *)
Lemma first_is_point_concrete (d : JsVal) :
  first_is_point d = true -> has_concrete_data d = true.
Proof.
  unfold first_is_point, has_concrete_data.
  destruct d; simpl; try discriminate.
  destruct (lookup "data" props) as [[]|]; simpl; try discriminate; try reflexivity.
  destruct (String.get 0 s); discriminate.
Qed.

Lemma check_point_ok (ty d : JsVal) :
  has_concrete_data d = true -> first_is_point d = true ->
  check_point ty d = Ok tt.
Proof.
  unfold has_concrete_data, first_is_point, check_point. intros H Hp.
  apply andb_prop in H as [Hd Hdata].
  rewrite (prop_ok _ _ Hd). simpl. rewrite (index_ok _ _ Hdata). simpl.
  now rewrite Hp.
Qed.

Lemma check_point_fail (t : string) (d : JsVal) :
  has_concrete_data d = true -> first_is_point d = false ->
  check_point (JStr t) d = Throw (invalid (points_message t)).
Proof.
  unfold has_concrete_data, first_is_point, check_point. intros H Hp.
  apply andb_prop in H as [Hd Hdata].
  rewrite (prop_ok _ _ Hd). simpl. rewrite (index_ok _ _ Hdata). simpl.
  now rewrite Hp.
Qed.

Lemma forEach_points_ok (ty : JsVal) (ds : list JsVal) :
  forallb first_is_point ds = true ->
  array_forEach (check_point ty) ds = Ok tt.
Proof.
  induction ds as [|d ds IH]; simpl; intros H; [reflexivity|].
  apply andb_prop in H as [Hd Hds].
  rewrite (check_point_ok ty d (first_is_point_concrete d Hd) Hd). simpl.
  exact (IH Hds).
Qed.

Lemma forEach_points_fail (t : string) (ds : list JsVal) :
  forallb has_concrete_data ds = true ->
  forallb first_is_point ds = false ->
  array_forEach (check_point (JStr t)) ds = Throw (invalid (points_message t)).
Proof.
  induction ds as [|d ds IH]; simpl; intros Hc H; [discriminate|].
  apply andb_prop in Hc as [Hd Hds].
  destruct (first_is_point d) eqn:Hp; simpl in H.
  - rewrite (check_point_ok _ d Hd Hp). simpl. exact (IH Hds H).
  - now rewrite (check_point_fail t d Hd Hp).
Qed.

Lemma valid_type_truthy (t : string) : In t validTypes -> truthy (JStr t) = true.
Proof.
  intros H. simpl. destruct (String.eqb_spec t ""); [|reflexivity].
  subst. simpl in H. repeat (destruct H as [H|H]; [discriminate|]). destruct H.
Qed.

Lemma includes_valid (t : string) :
  includes validTypes (JStr t) = true <-> In t validTypes.
Proof.
  unfold includes. rewrite existsb_exists. split.
  - intros [x [Hx E]]. simpl in E. apply String.eqb_eq in E. now subst.
  - intros H. exists t. split; [exact H | simpl; apply String.eqb_refl].
Qed.

(** What the normaliser computes once the first three gates are passed and
    the type is one of the ten. *)
Lemma generateChartConfig_valid (args : JsVal) (t : string) (ds : list JsVal) :
  get_field args "type" = JStr t ->
  In t validTypes ->
  get_field args "datasets" = JArr ds ->
  generateChartConfig args =
    if negb (forallb has_concrete_data ds) then
      Throw (invalid "Each dataset must have a data property")
    else if is_gauge t then
      if truthy (gauge_value (JArr ds)) then
        Ok (mk_config (JStr t) (data_block args ds) (JObj (gauge_options args)))
      else Throw (invalid (gauge_message t))
    else if is_points t then
      if forallb first_is_point ds then
        Ok (mk_config (JStr t) (data_block args ds) (JObj (canonical_options args)))
      else Throw (invalid (points_message t))
    else
      Ok (mk_config (JStr t) (data_block args ds) (JObj (canonical_options args))).
Proof.
  intros Hty Hin Hds.
  assert (Hargs : truthy args = true).
  { apply (get_field_truthy args "type"). rewrite Hty. now apply valid_type_truthy. }
  unfold generateChartConfig. rewrite Hargs. simpl negb. cbv iota.
  rewrite !(prop_ok _ _ Hargs). cbn [bind]. rewrite Hty, Hds.
  rewrite (valid_type_truthy t Hin). cbn [negb truthy isArray orb own_items].
  unfold validateChartType.
  rewrite (proj2 (includes_valid t) Hin). cbn [negb bind].
  destruct (forallb has_concrete_data ds) eqn:Hc.
  - rewrite (array_map_ok ds Hc). cbn [bind negb].
    fold (canonical_options args). fold (data_block args ds).
    fold (gauge_options args). fold (gauge_value (JArr ds)).
    unfold is_gauge, is_points, is_string.
    destruct ((t =? "radialGauge") || (t =? "speedometer")) eqn:Hg.
    + destruct (truthy (gauge_value (JArr ds))); reflexivity.
    + destruct ((t =? "scatter") || (t =? "bubble")) eqn:Hp; [|reflexivity].
      destruct (forallb first_is_point ds) eqn:Hf.
      * now rewrite (forEach_points_ok _ ds Hf).
      * now rewrite (forEach_points_fail t ds Hc Hf).
  - now rewrite (array_map_fail ds Hc).
Qed.

End Normaliser.

(* ================================================================== *)
(** * Properties of the normaliser *)

Section NormaliserProperties.

Lemma includes_inv (v : JsVal) :
  includes validTypes v = true -> exists t, v = JStr t /\ In t validTypes.
Proof.
  destruct v; try (intros H; vm_compute in H; discriminate).
  intros H. exists s. split; [reflexivity | now apply includes_valid].
Qed.

Lemma isArray_inv (v : JsVal) : isArray v = true -> exists l, v = JArr l.
Proof. destruct v; try discriminate. intros _. now exists items. Qed.

(** The first gate: line 81. *)
Lemma gate_no_arguments (args : JsVal) :
  truthy args = false ->
  generateChartConfig args = Throw (invalid "No arguments provided to generateChartConfig").
Proof. intros H. unfold generateChartConfig. now rewrite H. Qed.

(** The second gate: line 88. *)
Lemma gate_type_required (args : JsVal) :
  truthy args = true -> truthy (get_field args "type") = false ->
  generateChartConfig args = Throw (invalid "Chart type is required").
Proof.
  intros Ha Ht. unfold generateChartConfig. rewrite Ha. simpl negb. cbv iota.
  rewrite (prop_ok _ _ Ha). cbn [bind]. now rewrite Ht.
Qed.

(** The third gate: line 95. *)
Lemma gate_datasets_array (args : JsVal) :
  truthy args = true -> truthy (get_field args "type") = true ->
  isArray (get_field args "datasets") = false ->
  generateChartConfig args = Throw (invalid "Datasets must be a non-empty array").
Proof.
  intros Ha Ht Hd. unfold generateChartConfig. rewrite Ha. simpl negb. cbv iota.
  rewrite !(prop_ok _ _ Ha). cbn [bind]. rewrite Ht, Hd. simpl negb. cbv iota.
  now rewrite orb_true_r.
Qed.

(** The fourth gate: line 104. *)
Lemma gate_type_enumerated (args : JsVal) :
  truthy args = true -> truthy (get_field args "type") = true ->
  isArray (get_field args "datasets") = true ->
  includes validTypes (get_field args "type") = false ->
  generateChartConfig args = Throw (invalid valid_types_message).
Proof.
  intros Ha Ht Hd Hi. unfold generateChartConfig. rewrite Ha. simpl negb. cbv iota.
  rewrite !(prop_ok _ _ Ha). cbn [bind]. rewrite Ht, Hd.
  destruct (isArray_inv _ Hd) as [l Hl]. rewrite Hl. cbn [truthy negb orb].
  cbv iota. unfold validateChartType. rewrite Hi. reflexivity.
Qed.

(** Either one of the four gates stops the normaliser, or the type is one
    of the ten and the datasets are an array. *)
Lemma gates_cases (args : JsVal) :
  (exists message, generateChartConfig args = Throw (invalid message))
  \/ (exists t ds, get_field args "type" = JStr t /\ In t validTypes
                   /\ get_field args "datasets" = JArr ds).
Proof.
  destruct (truthy args) eqn:Ha;
    [|left; eexists; now apply gate_no_arguments].
  destruct (truthy (get_field args "type")) eqn:Ht;
    [|left; eexists; now apply gate_type_required].
  destruct (isArray (get_field args "datasets")) eqn:Hd;
    [|left; eexists; now apply gate_datasets_array].
  destruct (includes validTypes (get_field args "type")) eqn:Hi;
    [|left; eexists; now apply gate_type_enumerated].
  destruct (includes_inv _ Hi) as [t [Et Hin]].
  destruct (isArray_inv _ Hd) as [ds Eds].
  right. now exists t, ds.
Qed.

(** A successful normalisation has passed the four gates. *)
Lemma generateChartConfig_Ok_inv (args config : JsVal) :
  generateChartConfig args = Ok config ->
  exists t ds, get_field args "type" = JStr t /\ In t validTypes
               /\ get_field args "datasets" = JArr ds.
Proof.
  intros H. destruct (gates_cases args) as [[m E]|Hvalid]; [congruence | exact Hvalid].
Qed.

(** Every exception of the normaliser is an invalid-parameters error: no
    property is ever read from [undefined] or [null]. *)
Lemma generateChartConfig_throws_invalid (args : JsVal) (e : Exn) :
  generateChartConfig args = Throw e -> exists message, e = invalid message.
Proof.
  intros H. destruct (gates_cases args) as [[m E]|[t [ds [Et [Hin Eds]]]]].
  - rewrite E in H. inversion H. now exists m.
  - rewrite (generateChartConfig_valid args t ds Et Hin Eds) in H.
    destruct (forallb has_concrete_data ds); simpl in H; [|inversion H; eauto].
    destruct (is_gauge t).
    + destruct (truthy (gauge_value (JArr ds))); inversion H; eauto.
    + destruct (is_points t); [|discriminate].
      destruct (forallb first_is_point ds); inversion H; eauto.
Qed.

Lemma gauge_is_valid (t : string) : is_gauge t = true -> In t validTypes.
Proof.
  unfold is_gauge. intros H. apply orb_prop in H as [H|H];
    apply String.eqb_eq in H; subst; simpl; tauto.
Qed.

Lemma points_is_valid (t : string) : is_points t = true -> In t validTypes.
Proof.
  unfold is_points. intros H. apply orb_prop in H as [H|H];
    apply String.eqb_eq in H; subst; simpl; tauto.
Qed.

Lemma points_not_gauge (t : string) : is_points t = true -> is_gauge t = false.
Proof.
  unfold is_points, is_gauge. intros H. apply orb_prop in H as [H|H];
    apply String.eqb_eq in H; subst; reflexivity.
Qed.

Lemma NoDup_canonical_options (args : JsVal) : NoDup (keys (canonical_options args)).
Proof.
  unfold canonical_options. apply NoDup_keys_spread, NoDup_keys_spread. constructor.
Qed.

Lemma lookup_title_canonical (args : JsVal) :
  truthy (get_field args "title") = true ->
  lookup "title" (canonical_options args) = Some (title_block (get_field args "title")).
Proof.
  intros H. unfold canonical_options, js_and. rewrite H.
  unfold spread at 1. simpl fold_left. apply lookup_obj_set_same.
Qed.

Lemma lookup_gauge_options (args : JsVal) (k : string) :
  lookup k (gauge_options args)
  = if "plugins" =? k then Some datalabels_plugin else lookup k (canonical_options args).
Proof.
  unfold gauge_options.
  now rewrite lookup_obj_set, (spread_nil_object _ (NoDup_canonical_options args)).
Qed.

(** The [options] member of a successful result. *)
Lemma options_of_config (args config : JsVal) :
  generateChartConfig args = Ok config ->
  exists t, get_field args "type" = JStr t /\
    get_field config "options"
    = JObj (if is_gauge t then gauge_options args else canonical_options args).
Proof.
  intros H.
  destruct (generateChartConfig_Ok_inv _ _ H) as [t [ds [Et [Hin Eds]]]].
  exists t. split; [exact Et|].
  rewrite (generateChartConfig_valid args t ds Et Hin Eds) in H.
  destruct (forallb has_concrete_data ds); simpl in H; [|discriminate].
  destruct (is_gauge t).
  - destruct (truthy (gauge_value (JArr ds))); inversion H; reflexivity.
  - destruct (is_points t); [|inversion H; reflexivity].
    destruct (forallb first_is_point ds); inversion H; reflexivity.
Qed.

End NormaliserProperties.

(* ================================================================== *)
(** * The normaliser: what it accepts and what it builds *)

(** C1.  When [type] is one of the ten chart kinds, [datasets] is an array,
    every dataset passes the presence test on its [data], and the rule of
    the chart type holds (a truthy first value for the gauges, an array as
    first data element of every dataset for scatter and bubble), the
    normaliser returns a configuration whose [type] is the input [type]. *)
Theorem normalize_valid_input_succeeds (args : JsVal) (t : string) (ds : list JsVal) :
  get_field args "type" = JStr t ->
  In t validTypes ->
  get_field args "datasets" = JArr ds ->
  forallb has_concrete_data ds = true ->
  type_rule t ds = true ->
  exists config,
    generateChartConfig args = Ok config /\ get_field config "type" = JStr t.
Proof.
  intros Et Hin Eds Hc Hrule.
  rewrite (generateChartConfig_valid args t ds Et Hin Eds), Hc. simpl negb. cbv iota.
  unfold type_rule in Hrule.
  destruct (is_gauge t).
  - rewrite Hrule. eexists. split; reflexivity.
  - destruct (is_points t).
    + rewrite Hrule. eexists. split; reflexivity.
    + eexists. split; reflexivity.
Qed.

Lemma normalize_valid_input_succeeds_witness :
  exists config,
    generateChartConfig sample_gauge = Ok config
    /\ get_field config "type" = JStr "radialGauge".
Proof.
  apply (normalize_valid_input_succeeds sample_gauge "radialGauge"
           [JObj [("data", numbers [5]%Z); ("backgroundColor", JStr "red");
                  ("borderColor", JStr "blue")]]).
  - reflexivity.
  - simpl. tauto.
  - reflexivity.
  - reflexivity.
  - reflexivity.
Defined.

(** C2, as the code has it.  The gates are tried in order and the first
    that fails decides the error: a falsy argument (absent or [null] among
    them) gives "No arguments provided"; otherwise a falsy [type] (absent,
    or present but [null], [false], [0] or the empty string) gives "Chart
    type is required"; otherwise a [datasets] that is absent or not an array
    gives the datasets error; and only then a truthy [type] outside the
    ten-element list gives the error whose message lists the ten values. *)
Theorem normalize_gates_in_order (args : JsVal) :
  (truthy args = false ->
   generateChartConfig args
   = Throw (invalid "No arguments provided to generateChartConfig"))
  /\ (truthy args = true -> truthy (get_field args "type") = false ->
      generateChartConfig args = Throw (invalid "Chart type is required"))
  /\ (truthy args = true -> truthy (get_field args "type") = true ->
      isArray (get_field args "datasets") = false ->
      generateChartConfig args = Throw (invalid "Datasets must be a non-empty array"))
  /\ (truthy args = true -> truthy (get_field args "type") = true ->
      isArray (get_field args "datasets") = true ->
      includes validTypes (get_field args "type") = false ->
      generateChartConfig args = Throw (invalid valid_types_message))
  /\ valid_types_message
     = "Invalid chart type. Must be one of: " ++ String.concat ", " validTypes
  /\ validTypes = ["bar"; "line"; "pie"; "doughnut"; "radar"; "polarArea";
                   "scatter"; "bubble"; "radialGauge"; "speedometer"].
Proof.
  split; [apply gate_no_arguments|].
  split; [apply gate_type_required|].
  split; [apply gate_datasets_array|].
  split; [apply gate_type_enumerated|].
  split; reflexivity.
Qed.

Lemma normalize_gates_in_order_witness :
  generateChartConfig JNull
  = Throw (invalid "No arguments provided to generateChartConfig")
  /\ generateChartConfig (JObj [("datasets", JArr [])])
     = Throw (invalid "Chart type is required")
  /\ generateChartConfig (JObj [("type", JStr "histogram")])
     = Throw (invalid "Datasets must be a non-empty array")
  /\ generateChartConfig sample_unknown_type = Throw (invalid valid_types_message).
Proof.
  split; [|split; [|split]].
  - apply (proj1 (normalize_gates_in_order JNull)). reflexivity.
  - apply (proj1 (proj2 (normalize_gates_in_order (JObj [("datasets", JArr [])]))));
      reflexivity.
  - apply (proj1 (proj2 (proj2
             (normalize_gates_in_order (JObj [("type", JStr "histogram")])))));
      reflexivity.
  - apply (proj1 (proj2 (proj2 (proj2 (normalize_gates_in_order sample_unknown_type)))));
      reflexivity.
Defined.

(** C2 fails as stated: the empty string is a [type] value outside the
    ten-element list, and with it (and [datasets] an array) the normaliser
    answers "Chart type is required", not the error that lists the ten
    values.  The same holds of the [type] values [0], [false] and [null]. *)
Lemma falsy_type_is_reported_missing :
  get_field (JObj [("type", JStr ""); ("datasets", JArr [])]) "type" = JStr ""
  /\ includes validTypes (JStr "") = false
  /\ isArray (get_field (JObj [("type", JStr ""); ("datasets", JArr [])]) "datasets")
     = true
  /\ generateChartConfig (JObj [("type", JStr ""); ("datasets", JArr [])])
     = Throw (invalid "Chart type is required")
  /\ generateChartConfig (JObj [("type", JNum 0); ("datasets", JArr [])])
     = Throw (invalid "Chart type is required")
  /\ invalid "Chart type is required" <> invalid valid_types_message.
Proof.
  repeat split; try reflexivity. discriminate.
Qed.

(** C4, as the code has it.  Whenever the normaliser succeeds on an input
    whose [title] is truthy (a non-empty string in particular), the
    canonical options hold [title = {display: true, text: title}], whatever
    [options.title] the caller passed. *)
Theorem title_overrides_options (args title config : JsVal) :
  get_field args "title" = title ->
  truthy title = true ->
  generateChartConfig args = Ok config ->
  get_field (get_field config "options") "title" = title_block title.
Proof.
  intros Etitle Htitle H. subst title.
  destruct (options_of_config _ _ H) as [t [_ Eopt]]. rewrite Eopt.
  unfold get_field at 1.
  destruct (is_gauge t).
  - rewrite lookup_gauge_options. simpl String.eqb. cbv iota.
    now rewrite (lookup_title_canonical args Htitle).
  - now rewrite (lookup_title_canonical args Htitle).
Qed.

Lemma title_overrides_options_witness :
  exists config,
    generateChartConfig (sample_titled "Sales") = Ok config
    /\ get_field (get_field config "options") "title" = title_block (JStr "Sales").
Proof.
  eexists. split; [reflexivity|].
  apply (title_overrides_options (sample_titled "Sales") (JStr "Sales")); reflexivity.
Defined.

(** C4 fails as stated: an empty title string is a supplied title string,
    and then the caller's [options.title] stays in the canonical options. *)
Lemma empty_title_does_not_override :
  get_field (sample_titled "") "title" = JStr ""
  /\ exists config,
       generateChartConfig (sample_titled "") = Ok config
       /\ get_field (get_field config "options") "title"
          = JObj [("display", JBool false); ("text", JStr "Old")]
       /\ get_field (get_field config "options") "title" <> title_block (JStr "").
Proof.
  split; [reflexivity|].
  eexists. split; [reflexivity|]. split; [reflexivity|]. discriminate.
Qed.

(** C5.  For [radialGauge] and [speedometer]: when [datasets?.[0]?.data?.[0]]
    is falsy the normaliser fails with an invalid-parameters error, in
    particular when the first dataset's data is the empty array or starts
    with 0; and when it succeeds the canonical options hold
    [plugins = {datalabels: {display: true, formatter}}] where calling
    [formatter] returns its argument. *)
Theorem gauge_requires_first_value (args : JsVal) (t : string) :
  get_field args "type" = JStr t ->
  is_gauge t = true ->
  (truthy (gauge_value (get_field args "datasets")) = false ->
   exists message, generateChartConfig args = Throw (invalid message))
  /\ (forall d rest more,
        get_field args "datasets" = JArr (d :: rest) ->
        get_field d "data" = JArr [] \/ get_field d "data" = JArr (JNum 0 :: more) ->
        exists message, generateChartConfig args = Throw (invalid message))
  /\ (forall config,
        generateChartConfig args = Ok config ->
        get_field (get_field config "options") "plugins"
        = JObj [("datalabels", JObj [("display", JBool true);
                                     ("formatter", JFun FormatterEcho)])]
        /\ forall value, call FormatterEcho value = value).
Proof.
  intros Et Hg.
  assert (Hfail : truthy (gauge_value (get_field args "datasets")) = false ->
                  exists message, generateChartConfig args = Throw (invalid message)).
  { intros Hv.
    destruct (generateChartConfig args) as [config|e] eqn:H.
    - exfalso.
      destruct (generateChartConfig_Ok_inv _ _ H) as [t' [ds [Et' [Hin Eds]]]].
      rewrite (generateChartConfig_valid args t' ds Et' Hin Eds) in H.
      assert (t' = t) by congruence. subst t'.
      rewrite Eds in Hv. rewrite Hg, Hv in H.
      destruct (forallb has_concrete_data ds); discriminate.
    - destruct (generateChartConfig_throws_invalid _ _ H) as [m ->]. now exists m. }
  split; [exact Hfail|]. split.
  - intros d rest more Eds Hdata. apply Hfail. rewrite Eds.
    unfold gauge_value. cbn [opt_index nullish get_index nth].
    destruct d; try (destruct Hdata as [Hd|Hd]; simpl in Hd; discriminate).
    unfold opt_prop. cbn [nullish].
    destruct Hdata as [Hd|Hd]; rewrite Hd; reflexivity.
  - intros config H. split; [|reflexivity].
    destruct (options_of_config _ _ H) as [t' [Et' Eopt]].
    assert (t' = t) by congruence. subst t'.
    rewrite Eopt, Hg. unfold get_field. now rewrite lookup_gauge_options.
Qed.

Lemma gauge_requires_first_value_witness :
  exists message, generateChartConfig sample_gauge_empty = Throw (invalid message).
Proof.
  apply (proj1 (gauge_requires_first_value sample_gauge_empty "radialGauge"
                  eq_refl eq_refl)).
  reflexivity.
Defined.

(** C6.  For [scatter] and [bubble] with an array of datasets: when some
    dataset's first data element is not an array the normaliser fails with
    an invalid-parameters error; when every dataset's first data element is
    an array it succeeds; and the test on a dataset looks at the first
    element of its data only. *)
Theorem points_check_first_element (args : JsVal) (t : string) (ds : list JsVal) :
  get_field args "type" = JStr t ->
  is_points t = true ->
  get_field args "datasets" = JArr ds ->
  (forallb first_is_point ds = false ->
   exists message, generateChartConfig args = Throw (invalid message))
  /\ (forallb first_is_point ds = true ->
      generateChartConfig args
      = Ok (mk_config (JStr t) (data_block args ds) (JObj (canonical_options args))))
  /\ (forall dataset first rest,
        get_field dataset "data" = JArr (first :: rest) ->
        first_is_point dataset = isArray first).
Proof.
  intros Et Hp Eds.
  pose proof (generateChartConfig_valid args t ds Et (points_is_valid t Hp) Eds) as E.
  rewrite (points_not_gauge t Hp), Hp in E.
  split; [|split].
  - intros Hf. rewrite Hf in E.
    destruct (forallb has_concrete_data ds); simpl in E; eauto.
  - intros Hf. rewrite Hf in E.
    assert (Hc : forallb has_concrete_data ds = true).
    { apply forallb_forall. intros d Hd. apply first_is_point_concrete.
      now apply (proj1 (forallb_forall _ _) Hf). }
    now rewrite Hc in E.
  - intros dataset first rest Hd. unfold first_is_point. now rewrite Hd.
Qed.

Lemma points_check_first_element_witness :
  (exists message, generateChartConfig sample_scatter_flat = Throw (invalid message))
  /\ exists config, generateChartConfig sample_scatter = Ok config.
Proof.
  split.
  - apply (proj1 (points_check_first_element sample_scatter_flat "scatter" _
                    eq_refl eq_refl eq_refl)).
    reflexivity.
  - eexists.
    apply (proj1 (proj2 (points_check_first_element sample_scatter "scatter" _
                           eq_refl eq_refl eq_refl))).
    reflexivity.
Defined.

(** C9.  A dataset that passes the presence test is mapped to the object
    that starts with [label] (the dataset's label, or the empty string when
    that is absent), [data], [backgroundColor] and [borderColor] as the
    dataset has them ([undefined] when absent), and then receives the
    properties of [additionalConfig]: any key of [additionalConfig] replaces
    the value written before it, any other key keeps it. *)
Theorem canonical_dataset_last_write_wins (dataset : JsVal) :
  has_concrete_data dataset = true ->
  map_dataset dataset = Ok (canonical_dataset dataset)
  /\ dataset_base dataset
     = [("label", js_or (get_field dataset "label") (JStr ""));
        ("data", get_field dataset "data");
        ("backgroundColor", get_field dataset "backgroundColor");
        ("borderColor", get_field dataset "borderColor")]
  /\ (get_field dataset "label" = JUndefined ->
      lookup "label" (dataset_base dataset) = Some (JStr ""))
  /\ (get_field dataset "additionalConfig" = JUndefined ->
      canonical_dataset dataset = JObj (dataset_base dataset))
  /\ (forall extra,
        get_field dataset "additionalConfig" = JObj extra ->
        NoDup (keys extra) ->
        forall k,
          own_property (canonical_dataset dataset) k
          = match lookup k extra with
            | Some v => Some v
            | None => lookup k (dataset_base dataset)
            end).
Proof.
  intros H. split; [now apply map_dataset_ok|]. split; [reflexivity|].
  split; [intros E; simpl; now rewrite E|]. split.
  - intros E. unfold canonical_dataset. now rewrite E.
  - intros extra E Hnd k. unfold canonical_dataset. rewrite E.
    unfold js_or, spread. cbn [truthy own_entries own_property].
    now rewrite lookup_fold_obj_set, (lookup_rev_NoDup k extra Hnd).
Qed.

Lemma canonical_dataset_last_write_wins_witness :
  map_dataset sample_dataset
  = Ok (JObj [("label", JStr "b"); ("data", numbers [4]%Z);
              ("backgroundColor", JUndefined); ("borderColor", JUndefined);
              ("fill", JBool false)]).
Proof.
  apply (proj1 (canonical_dataset_last_write_wins sample_dataset eq_refl)).
Defined.

(** C10.  For a chart type of the list other than the two gauges, an empty
    [datasets] array is accepted and the canonical configuration has an
    empty [datasets] array; the third gate rejects only a [datasets] that is
    absent or not an array, under the message "Datasets must be a non-empty
    array". *)
Theorem empty_datasets_accepted (args : JsVal) (t : string) :
  get_field args "type" = JStr t ->
  In t validTypes ->
  is_gauge t = false ->
  get_field args "datasets" = JArr [] ->
  (exists config,
     generateChartConfig args = Ok config
     /\ get_field (get_field config "data") "datasets" = JArr [])
  /\ (forall other,
        truthy other = true -> truthy (get_field other "type") = true ->
        isArray (get_field other "datasets") = false ->
        generateChartConfig other
        = Throw (invalid "Datasets must be a non-empty array")).
Proof.
  intros Et Hin Hg Eds. split; [|apply gate_datasets_array].
  rewrite (generateChartConfig_valid args t [] Et Hin Eds), Hg. simpl.
  destruct (is_points t); eexists; split; reflexivity.
Qed.

Lemma empty_datasets_accepted_witness :
  exists config,
    generateChartConfig sample_no_datasets = Ok config
    /\ get_field (get_field config "data") "datasets" = JArr [].
Proof.
  apply (proj1 (empty_datasets_accepted sample_no_datasets "line" eq_refl
                  (or_intror (or_introl eq_refl)) eq_refl eq_refl)).
Defined.

(* ================================================================== *)
(** * The shape adapter of [download_chart] *)

Section ShapeAdapter.

Lemma lift_field_eq (config : JsVal) (nc : Props) (name : string) :
  truthy config = true ->
  get_field (JObj nc) name = get_field config name ->
  lift_field config nc name
  = Ok (if lifts config name
        then obj_set nc name (get_field (get_field config "data") name)
        else nc).
Proof.
  intros Hc Hsame. unfold lift_field, lifts.
  rewrite (prop_ok _ _ Hc). cbn [bind].
  destruct (truthy (get_field config "data")) eqn:Hd; [|reflexivity].
  destruct (typeof_object (get_field config "data")); [|reflexivity].
  cbn [andb]. rewrite (prop_ok _ _ Hd). cbn [bind]. rewrite Hsame.
  now destruct (truthy (get_field (get_field config "data") name)
                && negb (truthy (get_field config name))).
Qed.

Lemma get_field_obj_set (nc : Props) (k name : string) (v : JsVal) :
  get_field (JObj (obj_set nc k v)) name
  = if k =? name then v else get_field (JObj nc) name.
Proof. unfold get_field. rewrite lookup_obj_set. now destruct (k =? name). Qed.

Lemma get_field_cond_set (b : bool) (nc : Props) (k name : string) (v : JsVal) :
  get_field (JObj (if b then obj_set nc k v else nc)) name
  = if b && (k =? name) then v else get_field (JObj nc) name.
Proof. destruct b; [apply get_field_obj_set | reflexivity]. Qed.

(** The adapter on a plain object, in closed form. *)
Lemma normalize_shape_object (props : Props) :
  NoDup (keys props) ->
  let config := JObj props in
  let nested := get_field (get_field config "data") in
  let nc1 := if lifts config "datasets"
             then obj_set props "datasets" (nested "datasets") else props in
  let nc2 := if lifts config "labels"
             then obj_set nc1 "labels" (nested "labels") else nc1 in
  let nc3 := if lifts config "type"
             then obj_set nc2 "type" (nested "type") else nc2 in
  normalize_shape config
  = if negb (truthy (get_field (JObj nc3) "type"))
       || negb (truthy (get_field (JObj nc3) "datasets"))
    then Throw (invalid "Config must include type and datasets properties (either at root level or inside data object)")
    else Ok (JObj nc3).
Proof.
  intros Hnd config nested nc1 nc2 nc3.
  unfold normalize_shape. subst config. cbn [truthy typeof_object negb orb].
  cbv iota. rewrite (spread_nil_object props Hnd).
  rewrite (lift_field_eq (JObj props) props "datasets" eq_refl eq_refl). cbn [bind].
  fold nested. fold nc1.
  rewrite (lift_field_eq (JObj props) nc1 "labels" eq_refl).
  2:{ subst nc1. now rewrite get_field_cond_set, andb_false_r. }
  cbn [bind]. fold nested. fold nc2.
  rewrite (lift_field_eq (JObj props) nc2 "type" eq_refl).
  2:{ subst nc2 nc1. now rewrite !get_field_cond_set, !andb_false_r. }
  cbn [bind]. fold nested. fold nc3. reflexivity.
Qed.

(** C7, as the code has it.  On a plain object the adapter copies
    [datasets], [labels] and [type] from the [data] member exactly when the
    nested value is truthy and the top-level one is falsy (absent, [null],
    [false], 0 or the empty string); a truthy top-level field is never
    replaced; and the nested pie request normalises to the same canonical
    configuration as the flat one. *)
Theorem shape_adapter_lifts_falsy_fields (props : Props) (normalized : JsVal) :
  NoDup (keys props) ->
  normalize_shape (JObj props) = Ok normalized ->
  (forall name, In name adapter_fields ->
     get_field normalized name
     = if lifts (JObj props) name
       then get_field (get_field (JObj props) "data") name
       else get_field (JObj props) name)
  /\ (forall name, In name adapter_fields ->
        truthy (get_field (JObj props) name) = true ->
        get_field normalized name = get_field (JObj props) name)
  /\ (exists lifted config,
        normalize_shape sample_pie_nested = Ok lifted
        /\ normalize_shape sample_pie_flat = Ok sample_pie_flat
        /\ generateChartConfig lifted = Ok config
        /\ generateChartConfig sample_pie_flat = Ok config).
Proof.
  intros Hnd H.
  assert (Hfields : forall name, In name adapter_fields ->
            get_field normalized name
            = if lifts (JObj props) name
              then get_field (get_field (JObj props) "data") name
              else get_field (JObj props) name).
  { rewrite (normalize_shape_object props Hnd) in H.
    match type of H with (if ?c then _ else _) = _ =>
      destruct c; [discriminate|] end.
    inversion H as [E]. clear H E.
    intros name [<-|[<-|[<-|[]]]];
      rewrite !get_field_cond_set; cbn [String.eqb Ascii.eqb Bool.eqb andb];
      rewrite ?andb_false_r, ?andb_true_r;
      repeat match goal with
             | |- context [if ?b then _ else _] => destruct b
             end; reflexivity. }
  split; [exact Hfields|]. split.
  - intros name Hin Ht. rewrite (Hfields name Hin).
    unfold lifts. rewrite Ht. cbn [negb]. now rewrite andb_false_r.
  - eexists. eexists. split; [reflexivity|]. split; [reflexivity|].
    split; reflexivity.
Qed.

Lemma shape_adapter_lifts_falsy_fields_witness :
  exists normalized,
    normalize_shape sample_pie_nested = Ok normalized
    /\ forall name, In name adapter_fields ->
         get_field normalized name
         = if lifts sample_pie_nested name
           then get_field (get_field sample_pie_nested "data") name
           else get_field sample_pie_nested name.
Proof.
  assert (Hnd : NoDup (keys [("type", JStr "pie");
        ("data", JObj [("datasets", JArr [JObj [("data", numbers [1]%Z)]]);
                       ("labels", JArr [JStr "a"])])])).
  { repeat constructor; simpl; intuition discriminate. }
  eexists. split; [reflexivity|].
  exact (proj1 (shape_adapter_lifts_falsy_fields _ _ Hnd eq_refl)).
Defined.

(** C7 fails as stated: a top-level [labels] that is present and holds the
    empty string is replaced by the nested one. *)
Lemma present_falsy_field_is_overwritten :
  lookup "labels" [("type", JStr "pie");
                   ("labels", JStr "");
                   ("datasets", JArr [JObj [("data", numbers [1]%Z)]]);
                   ("data", JObj [("labels", JArr [JStr "a"])])]
  = Some (JStr "")
  /\ exists normalized,
       normalize_shape sample_pie_both = Ok normalized
       /\ get_field normalized "labels" = JArr [JStr "a"]
       /\ get_field normalized "labels" <> get_field sample_pie_both "labels".
Proof.
  split; [reflexivity|].
  eexists. split; [reflexivity|]. split; [reflexivity|]. discriminate.
Qed.

End ShapeAdapter.

(* ================================================================== *)
(** * The [download_chart] handler: order of validation and transfer *)

Section DownloadOrder.

Variable h : Host.

Lemma lift_field_total (config : JsVal) (nc : Props) (name : string) :
  truthy config = true -> exists nc', lift_field config nc name = Ok nc'.
Proof.
  intros Hc. unfold lift_field. rewrite (prop_ok _ _ Hc). cbn [bind].
  destruct (truthy (get_field config "data")) eqn:Hd;
    [|eexists; reflexivity].
  destruct (typeof_object (get_field config "data"));
    [|eexists; reflexivity].
  cbn [andb]. rewrite (prop_ok _ _ Hd). cbn [bind].
  match goal with |- context [if ?b then _ else _] => destruct b end;
    eexists; reflexivity.
Qed.

(** The shape checks throw nothing but invalid-parameters errors. *)
Lemma normalize_shape_throws_invalid (config : JsVal) (e : Exn) :
  normalize_shape config = Throw e -> exists message, e = invalid message.
Proof.
  unfold normalize_shape. intros H.
  destruct (truthy config) eqn:Hc; cbn [negb orb] in H; [|inversion H; eauto].
  destruct (typeof_object config); cbn [negb] in H; [|inversion H; eauto].
  destruct (lift_field_total config (spread [] config) "datasets" Hc) as [n1 E1].
  rewrite E1 in H. cbn [bind] in H.
  destruct (lift_field_total config n1 "labels" Hc) as [n2 E2].
  rewrite E2 in H. cbn [bind] in H.
  destruct (lift_field_total config n2 "type" Hc) as [n3 E3].
  rewrite E3 in H. cbn [bind] in H.
  match type of H with (if ?b then _ else _) = _ => destruct b end;
    inversion H; eauto.
Qed.

Lemma quiet_snoc (tr : list Event) (e : Event) :
  quiet (tr ++ [e])%list = quiet tr && negb (is_fetch e) && negb (is_write e).
Proof.
  unfold quiet. rewrite !existsb_app. simpl. rewrite !orb_false_r, !negb_orb.
  destruct (existsb is_fetch tr), (existsb is_write tr), (is_fetch e), (is_write e);
    reflexivity.
Qed.

(** Working out the output path always yields a path, and touches neither
    the network nor any file. *)
Lemma resolve_output_path_quiet (nc : JsVal) (path : option string) :
  exists tr0 outputPath,
    resolve_output_path h nc path [] = (tr0, Ok outputPath) /\ quiet tr0 = true.
Proof.
  assert (Hd : exists tr0 outputPath,
             default_output_path h nc [] = (tr0, Ok outputPath) /\ quiet tr0 = true).
  { unfold default_output_path, io_bind, access, console_error, emit, io_ret.
    simpl. destruct (fs_access_W_OK h (path_join h (os_homedir h) "Desktop"));
      simpl; eexists; eexists; split; reflexivity. }
  unfold resolve_output_path. destruct path as [p|]; [|exact Hd].
  destruct (p =? ""); [exact Hd|].
  exists [], p. split; reflexivity.
Qed.

(** The handler in closed form: one case per point where it can stop. *)
Lemma download_chart_eq (config : JsVal) (path : option string) :
  download_chart h config path [] =
    match normalize_shape config with
    | Throw e => ([], Throw (wrap_internal "Failed to download chart: " e))
    | Ok nc =>
        match resolve_output_path h nc path [] with
        | (tr0, Throw e) => (tr0, Throw (wrap_internal "Failed to download chart: " e))
        | (tr0, Ok outputPath) =>
            let outputDir := path_dirname h outputPath in
            let tr1 := (tr0 ++ [EvAccess outputDir])%list in
            if fs_access_W_OK h outputDir then
              match generateChartConfig nc with
              | Throw e => (tr1, Throw (wrap_internal "Failed to download chart: " e))
              | Ok chartConfig =>
                  let url := generateChartUrl chartConfig in
                  let tr2 := (tr1 ++ [EvHttpGet url])%list in
                  match axios_get h url with
                  | inl e =>
                      (tr2, Throw (wrap_internal "Failed to download chart: "
                                     (classify_transfer_error outputPath (Thrown e))))
                  | inr body =>
                      let tr3 := (tr2 ++ [EvWriteFile outputPath body])%list in
                      match fs_writeFile h outputPath body with
                      | Some e =>
                          (tr3, Throw (wrap_internal "Failed to download chart: "
                                         (classify_transfer_error outputPath (Thrown e))))
                      | None => (tr3, Ok ("Chart saved to " ++ outputPath))
                      end
                  end
              end
            else (tr1, Throw (invalid (unwritable_message outputDir)))
        end
    end.
Proof.
  unfold download_chart, try_catch, io_bind, io_lift, io_throw, io_ret.
  destruct (normalize_shape config) as [nc|e]; [|reflexivity].
  destruct (resolve_output_path h nc path []) as [tr0 [outputPath|e]]; [|reflexivity].
  unfold access. cbv zeta.
  destruct (fs_access_W_OK h (path_dirname h outputPath)); [|reflexivity].
  destruct (generateChartConfig nc) as [chartConfig|e]; [|reflexivity].
  unfold http_get, write_file.
  destruct (axios_get h (generateChartUrl chartConfig)) as [e|body]; [reflexivity|].
  destruct (fs_writeFile h outputPath body); reflexivity.
Qed.

End DownloadOrder.

(** C8.  In [download_chart] every validation failure stops the handler
    before the fetch: a failure of the shape checks, an output directory
    that is not write-accessible (the error then names that directory) and a
    failure of the normaliser each end in an invalid-parameters error with
    neither a fetch nor a file write in the trace; a fetch is only ever
    made after all three have passed, and nothing is fetched or written
    before it. *)
Theorem validation_precedes_transfer
    (h : Host) (config : JsVal) (path : option string)
    (tr : list Event) (res : Result string) :
  download_chart h config path [] = (tr, res) ->
  (forall e, normalize_shape config = Throw e ->
     res = Throw e /\ (exists message, e = invalid message) /\ quiet tr = true)
  /\ (forall nc, normalize_shape config = Ok nc ->
      exists tr0 outputPath,
        resolve_output_path h nc path [] = (tr0, Ok outputPath)
        /\ (fs_access_W_OK h (path_dirname h outputPath) = false ->
            res = Throw (invalid (unwritable_message (path_dirname h outputPath)))
            /\ quiet tr = true)
        /\ (forall e, generateChartConfig nc = Throw e ->
            (exists message, res = Throw (invalid message)) /\ quiet tr = true)
        /\ (quiet tr = false ->
            fs_access_W_OK h (path_dirname h outputPath) = true
            /\ exists chartConfig rest,
                 generateChartConfig nc = Ok chartConfig
                 /\ tr = ((tr0 ++ [EvAccess (path_dirname h outputPath)])
                          ++ EvHttpGet (generateChartUrl chartConfig) :: rest)%list
                 /\ quiet (tr0 ++ [EvAccess (path_dirname h outputPath)])%list = true)).
Proof.
  intros H. rewrite download_chart_eq in H. split.
  - intros e He. rewrite He in H.
    destruct (normalize_shape_throws_invalid _ _ He) as [m ->].
    inversion H. subst. repeat split. now exists m.
  - intros nc Hnc. rewrite Hnc in H.
    destruct (resolve_output_path_quiet h nc path) as [tr0 [outputPath [E Hq]]].
    exists tr0, outputPath. split; [exact E|]. rewrite E in H. cbv zeta in H.
    assert (Hq1 : quiet (tr0 ++ [EvAccess (path_dirname h outputPath)])%list = true).
    { rewrite quiet_snoc, Hq. reflexivity. }
    destruct (fs_access_W_OK h (path_dirname h outputPath)).
    + split; [discriminate|].
      destruct (generateChartConfig nc) as [chartConfig|e'] eqn:Hg.
      * split; [discriminate|]. intros _. split; [reflexivity|].
        exists chartConfig.
        destruct (axios_get h (generateChartUrl chartConfig)) as [e|body].
        { inversion H. subst. exists []. repeat split. exact Hq1. }
        destruct (fs_writeFile h outputPath body);
          inversion H; subst; exists [EvWriteFile outputPath body];
          rewrite <- app_assoc; repeat split; exact Hq1.
      * destruct (generateChartConfig_throws_invalid _ _ Hg) as [m ->].
        inversion H. subst. split.
        { intros e Ee. inversion Ee. subst. split; [now exists m | exact Hq1]. }
        intros Hq'. rewrite Hq1 in Hq'. discriminate.
    + inversion H. subst. split; [intros _; split; [reflexivity | exact Hq1]|].
      split.
      * intros e _. split; [eexists; reflexivity | exact Hq1].
      * intros Hq'. rewrite Hq1 in Hq'. discriminate.
Qed.

Lemma validation_precedes_transfer_witness :
  download_chart sample_readonly_host sample_pie_flat (Some "/srv/out/pie.png") []
  = ([EvAccess "/srv/out"],
     Throw (invalid "Output directory does not exist or is not writable: /srv/out"))
  /\ quiet [EvAccess "/srv/out"] = true.
Proof.
  split; [reflexivity|].
  destruct (proj2 (validation_precedes_transfer sample_readonly_host sample_pie_flat
                     (Some "/srv/out/pie.png") [EvAccess "/srv/out"]
                     (Throw (invalid "Output directory does not exist or is not writable: /srv/out"))
                     eq_refl) sample_pie_flat eq_refl)
    as [tr0 [outputPath [_ [Hdir _]]]].
  exact (proj2 (Hdir eq_refl)).
Defined.

(* ================================================================== *)
(** * Text: appending, prefixes and bytes *)

Section Text.

Lemma append_nil_r (s : string) : s ++ "" = s.
Proof. induction s as [|c s IH]; simpl; [reflexivity | now rewrite IH]. Qed.

Lemma append_assoc (a b c : string) : (a ++ b) ++ c = a ++ (b ++ c).
Proof. induction a as [|x a IH]; simpl; [reflexivity | now rewrite IH]. Qed.

Lemma length_append (a b : string) :
  String.length (a ++ b) = String.length a + String.length b.
Proof. induction a as [|x a IH]; simpl; [reflexivity | now rewrite IH]. Qed.

Lemma strip_prefix_append (p s : string) : strip_prefix p (p ++ s) = Some s.
Proof.
  induction p as [|c p IH]; simpl; [reflexivity|].
  now rewrite Ascii.eqb_refl.
Qed.

(** A property of bytes that holds of all 256 of them. *)
Lemma all_bytes (P : ascii -> bool) :
  forallb P (map ascii_of_nat (seq 0 256)) = true -> forall c, P c = true.
Proof.
  intros H c. rewrite forallb_forall in H. apply H.
  rewrite <- (ascii_nat_embedding c). apply in_map. apply in_seq.
  pose proof (nat_ascii_bounded c). lia.
Qed.

End Text.

(* ================================================================== *)
(** * Percent-encoding round trip *)

Section PercentEncoding.

Lemma bytes_survive (c : ascii) : byte_survives c = true.
Proof. apply all_bytes. vm_compute. reflexivity. Qed.

Lemma decode_encoded_byte (c : ascii) (r : string) :
  decodeURIComponent ((if unreserved c then String c "" else percent c) ++ r)
  = match decodeURIComponent r with
    | Some t => Some (String c t)
    | None => None
    end.
Proof.
  pose proof (bytes_survive c) as H. unfold byte_survives in H.
  apply andb_prop in H as [H1 H2].
  destruct (unreserved c).
  - simpl in *. apply negb_true_iff in H2. now rewrite H2.
  - unfold percent in *. cbn [append decodeURIComponent] in *.
    change ("%" =? "%")%char with true in *. cbv iota in *.
    destruct (hex_value (hex_upper (nat_of_ascii c / 16))) as [a|]; [|discriminate].
    destruct (hex_value (hex_upper (nat_of_ascii c mod 16))) as [b|]; [|discriminate].
    apply String.eqb_eq in H1. injection H1 as ->.
    reflexivity.
Qed.

Lemma decode_encode (s : string) :
  decodeURIComponent (encodeURIComponent s) = Some s.
Proof.
  induction s as [|c s IH]; [reflexivity|].
  cbn [encodeURIComponent]. now rewrite decode_encoded_byte, IH.
Qed.

End PercentEncoding.

(* ================================================================== *)
(** * JSON strings and numbers *)

Section JsonAtoms.

Lemma parse_escaped_char (c : ascii) (tl : string) :
  parse_chars (escape_char c ++ tl)
  = match parse_chars tl with
    | Some (t, r) => Some (String c t, r)
    | None => None
    end.
Proof.
  destruct c as [[] [] [] [] [] [] [] []]; reflexivity.
Qed.

Lemma parse_escaped (s rest : string) :
  parse_chars (escape s ++ String dquote rest) = Some (s, rest).
Proof.
  induction s as [|c s IH].
  - reflexivity.
  - cbn [escape]. now rewrite append_assoc, parse_escaped_char, IH.
Qed.

End JsonAtoms.

Section JsonNumbers.

Lemma take_digits_stop (rest : string) :
  no_digit_head rest = true -> take_digits rest = (Nil, rest).
Proof.
  destruct rest as [|c r]; simpl; [reflexivity|].
  destruct (digit_cons c); [discriminate | reflexivity].
Qed.

Lemma take_digits_digits (d : uint) (rest : string) :
  no_digit_head rest = true ->
  take_digits (digits_of_uint d ++ rest) = (d, rest).
Proof.
  intros H. induction d; cbn [digits_of_uint append];
    try (cbn [take_digits]; change (digit_cons _) with (Some D0)
         || change (digit_cons _) with (Some D1)
         || change (digit_cons _) with (Some D2)
         || change (digit_cons _) with (Some D3)
         || change (digit_cons _) with (Some D4)
         || change (digit_cons _) with (Some D5)
         || change (digit_cons _) with (Some D6)
         || change (digit_cons _) with (Some D7)
         || change (digit_cons _) with (Some D8)
         || change (digit_cons _) with (Some D9);
         cbv iota beta; rewrite IHd; reflexivity).
  now apply take_digits_stop.
Qed.

Lemma digits_head (d : uint) :
  d <> Nil -> exists c tl, digits_of_uint d = String c tl /\ number_head c = true
                           /\ (c =? "-")%char = false.
Proof.
  destruct d; [congruence | ..]; intros _; simpl; eexists; eexists;
    (split; [reflexivity | split; reflexivity]).
Qed.

Lemma parse_number_digits (d : uint) (rest : string) :
  well_formed_digits d = true -> no_digit_head rest = true ->
  parse_number (digits_of_uint d ++ rest) = Some (JNum (Z.of_uint d), rest).
Proof.
  intros Hwf Hrest.
  assert (Hd : d <> Nil) by (intros ->; discriminate).
  destruct (digits_head d Hd) as [c [tl [E [_ Hminus]]]].
  unfold parse_number.
  assert (Hsplit : match digits_of_uint d ++ rest with
                   | String c r => if (c =? "-")%char then (true, r)
                                   else (false, digits_of_uint d ++ rest)
                   | EmptyString => (false, digits_of_uint d ++ rest)
                   end = (false, digits_of_uint d ++ rest)).
  { rewrite E. simpl. now rewrite Hminus. }
  rewrite Hsplit, (take_digits_digits d rest Hrest), Hwf. reflexivity.
Qed.

Lemma parse_number_negative (d : uint) (rest : string) :
  well_formed_digits d = true -> no_digit_head rest = true ->
  parse_number (String "-" (digits_of_uint d ++ rest))
  = Some (JNum (Z.opp (Z.of_uint d)), rest).
Proof.
  intros Hwf Hrest. unfold parse_number. simpl.
  rewrite (take_digits_digits d rest Hrest), Hwf. reflexivity.
Qed.

Lemma well_formed_to_uint (p : positive) : well_formed_digits (Pos.to_uint p) = true.
Proof.
  pose proof (DecimalPos.Unsigned.to_of (Pos.to_uint p)) as H.
  rewrite DecimalPos.Unsigned.of_to in H. simpl in H.
  pose proof (DecimalPos.Unsigned.to_uint_nonnil p) as Hn.
  pose proof (DecimalPos.Unsigned.to_uint_nonzero p) as Hz.
  destruct (Pos.to_uint p) as [|d| | | | | | | | |]; try reflexivity; try congruence.
  exfalso. unfold unorm in H. rewrite DecimalFacts.nzhead_D0 in H.
  destruct (nzhead d) eqn:E; try discriminate.
  - apply Hz. exact H.
  - exact (DecimalFacts.nzhead_nonzero d u E).
Qed.

Lemma of_uint_to_uint (p : positive) : Z.of_uint (Pos.to_uint p) = Zpos p.
Proof. unfold Z.of_uint. now rewrite DecimalPos.Unsigned.of_to. Qed.

Lemma parse_number_text (n : Z) (rest : string) :
  no_digit_head rest = true ->
  parse_number (number_to_string n ++ rest) = Some (JNum n, rest).
Proof.
  intros H. destruct n as [|p|p]; unfold number_to_string.
  - exact (parse_number_digits (D0 Nil) rest eq_refl H).
  - rewrite (parse_number_digits _ rest (well_formed_to_uint p) H).
    now rewrite of_uint_to_uint.
  - cbn [append].
    rewrite (parse_number_negative _ rest (well_formed_to_uint p) H).
    now rewrite of_uint_to_uint.
Qed.

Lemma number_text_head (n : Z) :
  exists c tl, number_to_string n = String c tl /\ number_head c = true.
Proof.
  destruct n as [|p|p]; unfold number_to_string.
  - eexists; eexists; split; reflexivity.
  - destruct (digits_head _ (DecimalPos.Unsigned.to_uint_nonnil p))
      as [c [tl [E [Hh _]]]].
    now exists c, tl.
  - eexists; eexists; split; reflexivity.
Qed.

(** On the first byte of a number the value parser goes to the number
    parser. *)
Lemma parse_value_number (fuel : nat) (c : ascii) (tl : string) :
  number_head c = true ->
  parse_value (S fuel) (String c tl) = parse_number (String c tl).
Proof.
  destruct c as [[] [] [] [] [] [] [] []]; intros H;
    try (vm_compute in H; discriminate H); reflexivity.
Qed.

Lemma number_head_value_head (c : ascii) (tl : string) :
  number_head c = true -> value_head (String c tl) = true.
Proof.
  destruct c as [[] [] [] [] [] [] [] []]; intros H;
    try (vm_compute in H; discriminate H); reflexivity.
Qed.

End JsonNumbers.

(* ================================================================== *)
(** * JSON values: parsing what was serialised *)

Section JsonValues.

Lemma stringify_array (l : list JsVal) :
  JSON_stringify (JArr l) = Some ("[" ++ String.concat "," (map item_text l) ++ "]").
Proof. reflexivity. Qed.

Lemma stringify_None (v : JsVal) :
  JSON_stringify v = None <-> unserialisable v = true.
Proof.
  destruct v; simpl; try (split; discriminate); try (split; reflexivity).
  destruct b; split; discriminate.
Qed.

Lemma stringify_object (l : Props) :
  JSON_stringify (JObj l)
  = Some ("{" ++ String.concat "," (map member_text (retained l)) ++ "}").
Proof.
  cbn [JSON_stringify]. do 4 f_equal.
  induction l as [|[k x] l IH]; [reflexivity|].
  cbn [retained filter snd]. fold (retained l).
  destruct (JSON_stringify x) as [t|] eqn:E.
  - destruct (unserialisable x) eqn:U.
    + apply stringify_None in U. congruence.
    + cbn [negb map]. unfold member_text at 1, item_text. cbn [fst snd].
      rewrite E. now rewrite IH.
  - rewrite (proj1 (stringify_None x) E). cbn [negb]. exact IH.
Qed.

Lemma json_image_object (l : Props) :
  json_image (JObj l) = JObj (map member_image (retained l)).
Proof.
  cbn [json_image]. f_equal.
  induction l as [|[k x] l IH]; [reflexivity|].
  cbn [retained filter snd]. fold (retained l).
  destruct (unserialisable x); cbn [negb map]; now rewrite IH.
Qed.

Lemma concat_cons (sep x : string) (l : list string) :
  l <> [] -> String.concat sep (x :: l) = x ++ sep ++ String.concat sep l.
Proof. destruct l; [congruence | reflexivity]. Qed.

Lemma skip_ws_value (s rest : string) :
  value_head s = true -> skip_ws (s ++ rest) = s ++ rest.
Proof.
  destruct s as [|c s]; [discriminate|]. simpl. intros H.
  destruct (is_ws c); [discriminate | reflexivity].
Qed.

Lemma head_is_value (c : ascii) (s rest : string) :
  value_head s = true -> (c =? "]")%char || (c =? "}")%char = true ->
  head_is c (s ++ rest) = None.
Proof.
  destruct s as [|a s]; [discriminate|]. simpl. intros H Hc.
  destruct (Ascii.eqb_spec a c) as [->|]; [|reflexivity].
  destruct (is_ws c), (c =? "]")%char, (c =? "}")%char; discriminate.
Qed.

Lemma item_text_head (v : JsVal) : value_head (item_text v) = true.
Proof.
  destruct v as [| |b|n|s|l|l|f|neg]; try reflexivity.
  - destruct b; reflexivity.
  - unfold item_text. cbn [JSON_stringify].
    destruct (number_text_head n) as [c [tl [E Hh]]]. rewrite E.
    now apply number_head_value_head.
Qed.

Lemma item_text_length (v : JsVal) : 1 <= String.length (item_text v).
Proof.
  pose proof (item_text_head v) as H.
  destruct (item_text v); [discriminate | simpl; lia].
Qed.

Lemma delim_cases (rest : string) :
  delim rest = true ->
  rest = "" \/ exists c tl, rest = String c tl
                            /\ (c = "," \/ c = "]" \/ c = "}")%char.
Proof.
  destruct rest as [|c tl]; [now left|]. simpl. intros H. right.
  exists c, tl. split; [reflexivity|].
  destruct (Ascii.eqb_spec c ","); [tauto|].
  destruct (Ascii.eqb_spec c "]"); [tauto|].
  destruct (Ascii.eqb_spec c "}"); [tauto | discriminate].
Qed.

Lemma delim_no_digit (rest : string) : delim rest = true -> no_digit_head rest = true.
Proof.
  intros H. destruct (delim_cases rest H) as [-> | [c [tl [-> [-> | [-> | ->]]]]]];
    reflexivity.
Qed.

(** ** The parser, one step at a time *)

Lemma parse_value_string (fuel : nat) (tl : string) :
  parse_value (S fuel) (String dquote tl)
  = match parse_chars tl with
    | Some (t, r) => Some (JStr t, r)
    | None => None
    end.
Proof. reflexivity. Qed.

Lemma parse_value_array (fuel : nat) (tl : string) :
  parse_value (S fuel) (String "[" tl)
  = match head_is "]" (skip_ws tl) with
    | Some r => Some (JArr [], r)
    | None => parse_elements fuel tl []
    end.
Proof. reflexivity. Qed.

Lemma parse_value_object (fuel : nat) (tl : string) :
  parse_value (S fuel) (String "{" tl)
  = match head_is "}" (skip_ws tl) with
    | Some r => Some (JObj [], r)
    | None => parse_members fuel tl []
    end.
Proof. reflexivity. Qed.

Lemma parse_elements_step (fuel : nat) (x : JsVal) (tail : string) (acc : list JsVal) :
  parses_back x -> keys_unique x = true ->
  String.length (item_text x) <= fuel -> delim tail = true ->
  parse_elements (S fuel) (item_text x ++ tail) acc
  = match head_is "," (skip_ws tail), head_is "]" (skip_ws tail) with
    | Some r, _ => parse_elements fuel r (acc ++ [json_image x])%list
    | None, Some r => Some (JArr (acc ++ [json_image x])%list, r)
    | None, None => None
    end.
Proof.
  intros Hx Hk Hlen Hd. cbn [parse_elements].
  now rewrite (Hx Hk fuel tail Hlen Hd).
Qed.

Lemma parse_members_step (fuel : nat) (k : string) (x : JsVal) (tail : string)
    (acc : Props) :
  parses_back x -> keys_unique x = true ->
  String.length (item_text x) <= fuel -> delim tail = true ->
  parse_members (S fuel) (member_text (k, x) ++ tail) acc
  = match head_is "," (skip_ws tail), head_is "}" (skip_ws tail) with
    | Some r, _ => parse_members fuel r (obj_set acc k (json_image x))
    | None, Some r => Some (JObj (obj_set acc k (json_image x)), r)
    | None, None => None
    end.
Proof.
  intros Hx Hk Hlen Hd. unfold member_text, quote. cbn [fst snd].
  cbn [append]. rewrite !append_assoc. cbn [append].
  cbn [parse_members]. cbn [skip_ws]. change (is_ws dquote) with false. cbv iota.
  cbn [head_is]. rewrite Ascii.eqb_refl.
  rewrite parse_escaped. cbn [skip_ws]. change (is_ws ":") with false. cbv iota.
  cbn [head_is]. rewrite Ascii.eqb_refl.
  now rewrite (Hx Hk fuel tail Hlen Hd).
Qed.

Lemma value_head_append (s t : string) :
  value_head s = true -> value_head (s ++ t) = true.
Proof. destruct s; [discriminate | trivial]. Qed.

Lemma concat_head (x : string) (l : list string) :
  value_head x = true -> value_head (String.concat "," (x :: l)) = true.
Proof.
  intros H. destruct l; [exact H|]. rewrite concat_cons by congruence.
  now apply value_head_append.
Qed.

Lemma concat_length (x : string) (l : list string) :
  l <> [] ->
  String.length (String.concat "," (x :: l))
  = String.length x + 1 + String.length (String.concat "," l).
Proof.
  intros H. rewrite (concat_cons _ _ _ H), !length_append. simpl. lia.
Qed.

(** ** Elements and members *)

Lemma parse_items (l : list JsVal) :
  Forall parses_back l -> forallb keys_unique l = true -> l <> [] ->
  forall acc fuel rest,
    String.length (String.concat "," (map item_text l)) < fuel ->
    parse_elements fuel (String.concat "," (map item_text l) ++ String "]" rest) acc
    = Some (JArr (acc ++ map json_image l)%list, rest).
Proof.
  induction l as [|x l IH]; intros HP Hk Hne acc fuel rest Hlen; [congruence|].
  inversion HP as [|? ? Hx HPl]; subst.
  cbn [forallb] in Hk. apply andb_prop in Hk as [Hkx Hkl].
  destruct fuel as [|f]; [lia|].
  destruct l as [|y l'].
  - cbn [map String.concat] in *.
    rewrite (parse_elements_step f x (String "]" rest) acc Hx Hkx);
      [reflexivity | lia | reflexivity].
  - cbn [map] in *. rewrite concat_length in Hlen by congruence.
    rewrite concat_cons by congruence. rewrite !append_assoc. cbn [append].
    rewrite (parse_elements_step f x _ acc Hx Hkx); [|lia|reflexivity].
    cbn [skip_ws]. change (is_ws ",") with false. cbv iota.
    cbn [head_is]. rewrite Ascii.eqb_refl.
    rewrite (IH HPl Hkl); [|congruence|lia].
    now rewrite <- app_assoc.
Qed.

Lemma member_text_head (kv : string * JsVal) : value_head (member_text kv) = true.
Proof. destruct kv. reflexivity. Qed.

Lemma member_text_length (k : string) (x : JsVal) :
  String.length (item_text x) <= String.length (member_text (k, x)).
Proof.
  unfold member_text. cbn [fst snd]. rewrite !length_append. lia.
Qed.

Lemma parse_member_list (m : Props) :
  Forall (fun kv => parses_back (snd kv)) m ->
  forallb (fun kv => keys_unique (snd kv)) m = true ->
  m <> [] ->
  forall acc fuel rest,
    NoDup (keys acc ++ keys m)%list ->
    String.length (String.concat "," (map member_text m)) < fuel ->
    parse_members fuel (String.concat "," (map member_text m) ++ String "}" rest) acc
    = Some (JObj (acc ++ map member_image m)%list, rest).
Proof.
  induction m as [|[k x] m IH]; intros HP Hk Hne acc fuel rest Hnd Hlen; [congruence|].
  inversion HP as [|? ? Hx HPm]; subst. cbn [snd] in Hx.
  cbn [forallb snd] in Hk. apply andb_prop in Hk as [Hkx Hkm].
  assert (Hfresh : ~ In k (keys acc)).
  { cbn [keys map fst] in Hnd. apply NoDup_remove_2 in Hnd.
    intros Hin. apply Hnd. apply in_or_app. now left. }
  destruct fuel as [|f]; [lia|].
  pose proof (member_text_length k x) as Hmt.
  destruct m as [|kv m'].
  - cbn [map String.concat] in *.
    rewrite (parse_members_step f k x (String "}" rest) acc Hx Hkx);
      [|lia|reflexivity].
    cbn [skip_ws]. change (is_ws "}") with false. cbv iota. cbn [head_is].
    change ("}" =? ",")%char with false. cbv iota. rewrite Ascii.eqb_refl.
    now rewrite (obj_set_fresh acc k _ Hfresh).
  - cbn [map] in *. rewrite concat_length in Hlen by congruence.
    rewrite concat_cons by congruence. rewrite !append_assoc. cbn [append].
    rewrite (parse_members_step f k x _ acc Hx Hkx); [|lia|reflexivity].
    cbn [skip_ws]. change (is_ws ",") with false. cbv iota.
    cbn [head_is]. rewrite Ascii.eqb_refl.
    rewrite (obj_set_fresh acc k _ Hfresh).
    rewrite (IH HPm Hkm); [|congruence| |lia].
    + now rewrite <- app_assoc.
    + unfold keys in *. rewrite map_app, <- app_assoc. exact Hnd.
Qed.

Lemma distinct_NoDup (l : list string) : distinct l = true -> NoDup l.
Proof.
  induction l as [|k l IH]; simpl; intros H; [constructor|].
  apply andb_prop in H as [Hk Hl]. constructor; [|now apply IH].
  intros Hin. apply negb_true_iff in Hk.
  assert (existsb (String.eqb k) l = true); [|congruence].
  apply existsb_exists. exists k. split; [exact Hin | apply String.eqb_refl].
Qed.

Lemma NoDup_keys_retained (l : Props) : NoDup (keys l) -> NoDup (keys (retained l)).
Proof.
  induction l as [|[k x] l IH]; simpl; intros H; [constructor|].
  inversion H as [|? ? Hnin Hnd]; subst.
  destruct (negb (unserialisable x)); [|now apply IH].
  simpl. constructor; [|now apply IH].
  intros Hin. apply Hnin. unfold keys, retained in *.
  apply in_map_iff in Hin as [[k' x'] [E Hin]]. simpl in E. subst k'.
  apply filter_In in Hin as [Hin _]. apply in_map_iff. now exists (k, x').
Qed.

(** ** Every value's text is read back *)

Lemma all_parse_back (v : JsVal) : parses_back v.
Proof.
  induction v as [| |b|n|s|l IH|l IH|f|neg] using JsVal_ind;
    intros Hk fuel rest Hlen Hd.
  - destruct fuel as [|fuel]; [simpl in Hlen; lia | reflexivity].
  - destruct fuel as [|fuel]; [simpl in Hlen; lia | reflexivity].
  - destruct fuel as [|fuel]; [destruct b; simpl in Hlen; lia|].
    destruct b; reflexivity.
  - destruct fuel as [|fuel]; [pose proof (item_text_length (JNum n)); lia|].
    unfold item_text. cbn [JSON_stringify json_image].
    destruct (number_text_head n) as [c [tl [E Hh]]].
    rewrite E. cbn [append]. rewrite (parse_value_number fuel c _ Hh).
    change (String c (tl ++ rest)) with (String c tl ++ rest). rewrite <- E.
    apply parse_number_text. now apply delim_no_digit.
  - destruct fuel as [|fuel]; [simpl in Hlen; lia|].
    unfold item_text. cbn [JSON_stringify json_image]. unfold quote.
    cbn [append]. rewrite append_assoc. cbn [append].
    now rewrite parse_value_string, parse_escaped.
  - unfold item_text in *. rewrite stringify_array in *.
    cbn [append] in *. rewrite append_assoc. cbn [append].
    cbn [String.length] in Hlen. rewrite length_append in Hlen. cbn in Hlen.
    destruct fuel as [|fuel]; [lia|].
    rewrite parse_value_array. cbn [json_image].
    destruct l as [|x l]; [reflexivity|].
    assert (Hhead : value_head (String.concat "," (map item_text (x :: l))) = true).
    { cbn [map]. apply concat_head, item_text_head. }
    rewrite (skip_ws_value _ _ Hhead), (head_is_value "]" _ _ Hhead eq_refl).
    apply (parse_items (x :: l) IH Hk); [congruence | lia].
  - unfold item_text in *. rewrite stringify_object in *.
    cbn [append] in *. rewrite append_assoc. cbn [append].
    cbn [String.length] in Hlen. rewrite length_append in Hlen. cbn in Hlen.
    destruct fuel as [|fuel]; [lia|].
    rewrite parse_value_object, json_image_object.
    cbn [keys_unique] in Hk. apply andb_prop in Hk as [Hdist Hvals].
    assert (HP : Forall (fun kv => parses_back (snd kv)) (retained l)).
    { apply Forall_forall. intros kv Hin. apply filter_In in Hin as [Hin _].
      exact (proj1 (Forall_forall _ _) IH kv Hin). }
    assert (HK : forallb (fun kv => keys_unique (snd kv)) (retained l) = true).
    { apply forallb_forall. intros kv Hin. apply filter_In in Hin as [Hin _].
      exact (proj1 (forallb_forall _ _) Hvals kv Hin). }
    assert (HN : NoDup (keys (retained l))).
    { apply NoDup_keys_retained, distinct_NoDup. exact Hdist. }
    destruct (retained l) as [|kv m] eqn:Er; [reflexivity|].
    assert (Hhead : value_head (String.concat "," (map member_text (kv :: m))) = true).
    { cbn [map]. apply concat_head, member_text_head. }
    rewrite (skip_ws_value _ _ Hhead).
    rewrite (head_is_value "}" _ _ Hhead eq_refl).
    apply (parse_member_list (kv :: m) HP HK); [congruence | exact HN | lia].
  - destruct fuel as [|fuel]; [simpl in Hlen; lia | reflexivity].
  - destruct fuel as [|fuel]; [simpl in Hlen; lia | reflexivity].
Qed.

Lemma parse_stringified (v : JsVal) (text : string) :
  keys_unique v = true ->
  JSON_stringify v = Some text ->
  JSON_parse text = Some (json_image v).
Proof.
  intros Hk E. unfold JSON_parse.
  pose proof (all_parse_back v Hk (S (String.length text)) "") as H.
  unfold item_text in H. rewrite E, append_nil_r in H.
  rewrite H; [reflexivity | lia | reflexivity].
Qed.

Lemma json_image_serialisable (v : JsVal) :
  serialisable v = true -> json_image v = v.
Proof.
  induction v as [| |b|n|s|l IH|l IH|f|neg] using JsVal_ind;
    intros H; try reflexivity;
    try discriminate.
  - cbn [json_image]. f_equal. cbn [serialisable] in H.
    induction l as [|x l IHl]; [reflexivity|].
    inversion IH; subst. cbn [forallb] in H. apply andb_prop in H as [Hx Hl].
    cbn [map]. f_equal; auto.
  - rewrite json_image_object. f_equal. cbn [serialisable] in H.
    induction l as [|[k x] l IHl]; [reflexivity|].
    inversion IH as [|? ? Px Pl]; subst. cbn [forallb snd] in H.
    apply andb_prop in H as [Hx Hl]. cbn [retained filter snd].
    fold (retained l). cbn [snd] in Px.
    assert (U : unserialisable x = false) by (destruct x; simpl in *; congruence).
    rewrite U. cbn [negb map]. unfold member_image at 1. cbn [fst snd].
    rewrite (Px Hx). f_equal. now apply IHl.
Qed.

End JsonValues.

(* ================================================================== *)
(** * Properties of values that the normaliser preserves *)

Section Preserved.

(** A property of values that holds of every atom but the integers, passes
    from an array or an object to its parts, and holds of an array or of an
    object with distinct keys as soon as it holds of the parts. *)
Variable Q : JsVal -> bool.
Hypothesis Q_atom : forall v, is_atom v = true -> is_integer v = false -> Q v = true.
Hypothesis Q_items : forall l, Q (JArr l) = true -> forallb Q l = true.
Hypothesis Q_props : forall l, Q (JObj l) = true -> values_satisfy Q l = true.
Hypothesis Q_array : forall l, forallb Q l = true -> Q (JArr l) = true.
Hypothesis Q_object :
  forall l, NoDup (keys l) -> values_satisfy Q l = true -> Q (JObj l) = true.

Lemma preserved_lookup (l : Props) (k : string) (v : JsVal) :
  values_satisfy Q l = true -> lookup k l = Some v -> Q v = true.
Proof.
  induction l as [|[a x] l IH]; simpl; intros H E; [discriminate|].
  apply andb_prop in H as [Hx Hl].
  destruct (a =? k); [now inversion E; subst | now apply IH].
Qed.

Lemma preserved_get_field (v : JsVal) (k : string) :
  Q v = true -> Q (get_field v k) = true.
Proof.
  intros H. destruct v; try (now apply Q_atom). simpl.
  destruct (lookup k props) as [x|] eqn:E; [|now apply Q_atom].
  exact (preserved_lookup props k x (Q_props _ H) E).
Qed.

Lemma preserved_obj_set (l : Props) (k : string) (v : JsVal) :
  values_satisfy Q l = true -> Q v = true -> values_satisfy Q (obj_set l k v) = true.
Proof.
  unfold values_satisfy.
  induction l as [|[a x] l IH]; intros H Hv; simpl in *.
  - now rewrite Hv.
  - apply andb_prop in H as [Hx Hl]. destruct (a =? k); simpl.
    + now rewrite Hv, Hl.
    + rewrite Hx. simpl. now apply IH.
Qed.

Lemma preserved_indexed (l : list JsVal) (i : nat) :
  forallb Q l = true -> values_satisfy Q (indexed_from i l) = true.
Proof.
  unfold values_satisfy.
  revert i. induction l as [|x l IH]; simpl; intros i H; [reflexivity|].
  apply andb_prop in H as [Hx Hl]. rewrite Hx. simpl. now apply IH.
Qed.

Lemma preserved_own_entries (src : JsVal) :
  Q src = true -> values_satisfy Q (own_entries src) = true.
Proof.
  intros H. destruct src; try reflexivity; simpl.
  - apply preserved_indexed. clear H.
    induction s as [|c s IH]; simpl; [reflexivity|].
    rewrite (Q_atom (JStr (String c "")) eq_refl eq_refl). exact IH.
  - apply preserved_indexed. now apply Q_items.
  - now apply Q_props.
Qed.

Lemma preserved_spread (l : Props) (src : JsVal) :
  values_satisfy Q l = true -> Q src = true -> values_satisfy Q (spread l src) = true.
Proof.
  intros Hl Hsrc. unfold spread.
  pose proof (preserved_own_entries src Hsrc) as He.
  revert l Hl. induction (own_entries src) as [|[k v] es IH]; intros l Hl;
    simpl; [exact Hl|].
  unfold values_satisfy in He. simpl in He. apply andb_prop in He as [Hv Hes].
  apply (IH Hes). now apply preserved_obj_set.
Qed.

Lemma preserved_js_or (a b : JsVal) : Q a = true -> Q b = true -> Q (js_or a b) = true.
Proof. intros Ha Hb. unfold js_or. now destruct (truthy a). Qed.

Lemma preserved_js_and (a b : JsVal) : Q a = true -> Q b = true -> Q (js_and a b) = true.
Proof. intros Ha Hb. unfold js_and. now destruct (truthy a). Qed.

Lemma preserved_default_to (a b : JsVal) :
  Q a = true -> Q b = true -> Q (default_to a b) = true.
Proof. intros Ha Hb. now destruct a. Qed.

Lemma preserved_literal (l : Props) :
  distinct (keys l) = true -> values_satisfy Q l = true -> Q (JObj l) = true.
Proof. intros Hd Hv. apply Q_object; [now apply distinct_NoDup | exact Hv]. Qed.

Lemma preserved_canonical_dataset (d : JsVal) :
  Q d = true -> Q (canonical_dataset d) = true.
Proof.
  intros H. unfold canonical_dataset. apply Q_object.
  - apply NoDup_keys_spread. apply distinct_NoDup. reflexivity.
  - apply preserved_spread.
    + unfold dataset_base, values_satisfy. cbn [forallb snd].
      rewrite (preserved_js_or _ _ (preserved_get_field d "label" H)
                 (Q_atom (JStr "") eq_refl eq_refl)).
      now rewrite !(preserved_get_field d _ H).
    + apply preserved_js_or; [now apply preserved_get_field|].
      now apply preserved_literal.
Qed.

Lemma preserved_data_block (args : JsVal) (ds : list JsVal) :
  Q args = true -> get_field args "datasets" = JArr ds ->
  Q (data_block args ds) = true.
Proof.
  intros H Eds. unfold data_block. apply preserved_literal; [reflexivity|].
  unfold values_satisfy. cbn [forallb snd].
  rewrite (preserved_js_or _ _ (preserved_get_field args "labels" H)
             (Q_array [] eq_refl)).
  rewrite Q_array; [reflexivity|].
  pose proof (Q_items ds) as Hds. rewrite <- Eds in Hds.
  specialize (Hds (preserved_get_field args "datasets" H)).
  rewrite forallb_forall in *. intros x Hin.
  apply in_map_iff in Hin as [d [<- Hin]].
  apply preserved_canonical_dataset. now apply Hds.
Qed.

Lemma preserved_canonical_options (args : JsVal) :
  Q args = true -> values_satisfy Q (canonical_options args) = true.
Proof.
  intros H. unfold canonical_options.
  apply preserved_spread; [apply preserved_spread; [reflexivity|]|].
  - apply preserved_default_to; [now apply preserved_get_field|].
    now apply preserved_literal.
  - apply preserved_js_and; [now apply preserved_get_field|].
    apply preserved_literal; [reflexivity|].
    unfold values_satisfy. cbn [forallb snd]. unfold title_block.
    rewrite preserved_literal; [reflexivity | reflexivity |].
    unfold values_satisfy. cbn [forallb snd].
    now rewrite (Q_atom (JBool true) eq_refl eq_refl), (preserved_get_field args "title" H).
Qed.

Lemma preserved_gauge_options (args : JsVal) :
  Q args = true -> Q datalabels_plugin = true ->
  values_satisfy Q (gauge_options args) = true.
Proof.
  intros H Hp. unfold gauge_options. apply preserved_obj_set; [|exact Hp].
  rewrite (spread_nil_object _ (NoDup_canonical_options args)).
  now apply preserved_canonical_options.
Qed.

Lemma NoDup_gauge_options (args : JsVal) : NoDup (keys (gauge_options args)).
Proof.
  unfold gauge_options. apply NoDup_keys_obj_set, NoDup_keys_spread. constructor.
Qed.

Lemma preserved_mk_config (type data options : JsVal) :
  Q type = true -> Q data = true -> Q options = true ->
  Q (mk_config type data options) = true.
Proof.
  intros Ht Hd Ho. unfold mk_config. apply preserved_literal; [reflexivity|].
  unfold values_satisfy. cbn [forallb snd]. now rewrite Ht, Hd, Ho.
Qed.

(** The canonical configuration inherits the property from the request;
    for the gauges, provided the plugin block has it. *)
Lemma preserved_by_normaliser (args config : JsVal) (t : string) :
  Q args = true ->
  get_field args "type" = JStr t ->
  (is_gauge t = true -> Q datalabels_plugin = true) ->
  generateChartConfig args = Ok config ->
  Q config = true.
Proof.
  intros H Et Hplugin Hc.
  destruct (generateChartConfig_Ok_inv _ _ Hc) as [t' [ds [Et' [Hin Eds]]]].
  assert (t' = t) by congruence. subst t'.
  rewrite (generateChartConfig_valid args t ds Et Hin Eds) in Hc.
  assert (Hplain : Q (mk_config (JStr t) (data_block args ds)
                                (JObj (canonical_options args))) = true).
  { apply preserved_mk_config; [now apply Q_atom | now apply preserved_data_block|].
    apply Q_object; [apply NoDup_canonical_options|].
    now apply preserved_canonical_options. }
  destruct (forallb has_concrete_data ds); cbn [negb] in Hc; [|discriminate].
  destruct (is_gauge t).
  - destruct (truthy (gauge_value (JArr ds))); [|discriminate].
    inversion Hc; subst.
    apply preserved_mk_config; [now apply Q_atom | now apply preserved_data_block|].
    apply Q_object; [apply NoDup_gauge_options|].
    apply preserved_gauge_options; [exact H | now apply Hplugin].
  - destruct (is_points t).
    + destruct (forallb first_is_point ds); [|discriminate].
      inversion Hc; subst. exact Hplain.
    + inversion Hc; subst. exact Hplain.
Qed.

End Preserved.

Section UrlRoundTrip.

Lemma NoDup_distinct (l : list string) : NoDup l -> distinct l = true.
Proof.
  induction 1 as [|k l Hnin Hnd IH]; simpl; [reflexivity|].
  rewrite IH, andb_true_r. apply negb_true_iff.
  destruct (existsb (String.eqb k) l) eqn:E; [|reflexivity].
  apply existsb_exists in E as [x [Hx Ex]]. apply String.eqb_eq in Ex. now subst.
Qed.

(** A request with distinct keys gives a configuration with distinct keys. *)
Lemma normaliser_keeps_keys_unique (args config : JsVal) :
  keys_unique args = true ->
  generateChartConfig args = Ok config ->
  keys_unique config = true.
Proof.
  intros H Hc.
  destruct (generateChartConfig_Ok_inv _ _ Hc) as [t [ds [Et _]]].
  apply (preserved_by_normaliser keys_unique) with (args := args) (t := t);
    try assumption.
  - intros v Hv _. now destruct v.
  - intros l Hl. exact Hl.
  - intros l Hl. cbn [keys_unique] in Hl. now apply andb_prop in Hl as [_ Hl].
  - intros l Hl. exact Hl.
  - intros l Hnd Hv. cbn [keys_unique]. fold (keys l).
    now rewrite (NoDup_distinct _ Hnd).
  - reflexivity.
Qed.

(** Outside the gauge branch no function value enters the configuration. *)
Lemma normaliser_adds_no_function (args config : JsVal) (t : string) :
  function_free args = true ->
  get_field args "type" = JStr t ->
  is_gauge t = false ->
  generateChartConfig args = Ok config ->
  function_free config = true.
Proof.
  intros H Et Hg Hc.
  apply (preserved_by_normaliser function_free) with (args := args) (t := t);
    try assumption.
  - intros v Hv _. now destruct v.
  - intros l Hl. exact Hl.
  - intros l Hl. exact Hl.
  - intros l Hl. exact Hl.
  - intros l _ Hv. exact Hv.
  - congruence.
Qed.

(** The integers of the configuration are those of the request. *)
Lemma normaliser_keeps_safe_integers (args config : JsVal) :
  safe_integers args = true ->
  generateChartConfig args = Ok config ->
  safe_integers config = true.
Proof.
  intros H Hc.
  destruct (generateChartConfig_Ok_inv _ _ Hc) as [t [ds [Et _]]].
  apply (preserved_by_normaliser safe_integers) with (args := args) (t := t);
    try assumption.
  - intros v Hv Hi. destruct v; try reflexivity; discriminate.
  - intros l Hl. exact Hl.
  - intros l Hl. exact Hl.
  - intros l Hl. exact Hl.
  - intros l _ Hv. exact Hv.
  - reflexivity.
Qed.

Lemma decode_url_generated (config : JsVal) (text : string) :
  keys_unique config = true ->
  JSON_stringify config = Some text ->
  generateChartUrl config = QUICKCHART_BASE_URL ++ "?c=" ++ encodeURIComponent text
  /\ decode_url (generateChartUrl config) = Some (json_image config).
Proof.
  intros Hk E. unfold generateChartUrl. rewrite E. split; [reflexivity|].
  unfold decode_url. rewrite <- append_assoc, strip_prefix_append, decode_encode.
  now apply parse_stringified.
Qed.

End UrlRoundTrip.




(** The configuration of a gauge holds the formatter function, which has no
    JSON text either: what is read back from the URL lacks it. *)
Lemma gauge_formatter_lost_in_url :
  exists config back,
    generateChartConfig sample_gauge = Ok config
    /\ decode_url (generateChartUrl config) = Some back
    /\ formatter_of config = JFun FormatterEcho
    /\ formatter_of back = JUndefined
    /\ back <> config.
Proof.
  eexists. eexists. split; [reflexivity|]. split; [vm_compute; reflexivity|].
  split; [reflexivity|]. split; [reflexivity|].
  intros E. apply (f_equal formatter_of) in E. vm_compute in E. discriminate E.
Qed.

(* ================================================================== *)
(** * Further properties of the normaliser *)

Lemma generateChartConfig_ext (a b : JsVal) :
  truthy a = truthy b ->
  (forall k, In k request_fields -> get_field a k = get_field b k) ->
  generateChartConfig a = generateChartConfig b.
Proof.
  intros Ht H. unfold generateChartConfig. rewrite <- Ht.
  destruct (truthy a) eqn:Ha; [|reflexivity]. symmetry in Ht.
  cbn [negb]. cbv iota.
  rewrite !(prop_ok a _ Ha), !(prop_ok b _ Ht).
  rewrite (H "type"), (H "labels"), (H "datasets"), (H "title"), (H "options");
    unfold request_fields; simpl; tauto.
Qed.

(** X1.  The normaliser reads nothing of a request but its [type],
    [labels], [datasets], [title] and [options]: two requests that agree on
    these five members (and are both truthy or both falsy) get the same
    result, configuration or error. *)
Theorem only_request_fields_matter (a b : JsVal) :
  truthy a = truthy b ->
  (forall k, In k request_fields -> get_field a k = get_field b k) ->
  generateChartConfig a = generateChartConfig b.
Proof. exact (generateChartConfig_ext a b). Qed.

Lemma only_request_fields_matter_witness :
  generateChartConfig sample_pie_flat
  = generateChartConfig
      (JObj [("type", JStr "pie");
             ("data", JObj [("datasets", JArr [JObj [("data", numbers [1]%Z)]]);
                            ("labels", JArr [JStr "a"])]);
             ("datasets", JArr [JObj [("data", numbers [1]%Z)]]);
             ("labels", JArr [JStr "a"])]).
Proof.
  apply only_request_fields_matter; [reflexivity|].
  intros k [<-|[<-|[<-|[<-|[<-|[]]]]]]; reflexivity.
Defined.

(** X2.  A successful normalisation maps the datasets one to one and in
    order: the canonical [data.datasets] has as many elements as the
    request's [datasets], and its i-th element is the canonical form of the
    i-th dataset. *)
Theorem canonical_datasets_follow_input (args config : JsVal) :
  generateChartConfig args = Ok config ->
  exists ds out,
    get_field args "datasets" = JArr ds
    /\ get_field (get_field config "data") "datasets" = JArr out
    /\ List.length out = List.length ds
    /\ forall i d, nth_error ds i = Some d ->
                   nth_error out i = Some (canonical_dataset d).
Proof.
  intros H.
  destruct (generateChartConfig_Ok_inv _ _ H) as [t [ds [Et [Hin Eds]]]].
  exists ds, (map canonical_dataset ds). split; [exact Eds|].
  rewrite (generateChartConfig_valid args t ds Et Hin Eds) in H.
  split.
  - destruct (forallb has_concrete_data ds); simpl in H; [|discriminate].
    destruct (is_gauge t).
    + destruct (truthy (gauge_value (JArr ds))); inversion H; reflexivity.
    + destruct (is_points t); [|inversion H; reflexivity].
      destruct (forallb first_is_point ds); inversion H; reflexivity.
  - split; [apply length_map|].
    intros i d Hd. now apply map_nth_error.
Qed.

Lemma canonical_datasets_follow_input_witness :
  exists config ds out,
    generateChartConfig sample_coloured = Ok config
    /\ get_field sample_coloured "datasets" = JArr ds
    /\ get_field (get_field config "data") "datasets" = JArr out
    /\ List.length out = List.length ds.
Proof.
  eexists.
  destruct (canonical_datasets_follow_input sample_coloured _ eq_refl)
    as [ds [out [E1 [E2 [L _]]]]].
  exists ds, out. split; [reflexivity|]. split; [exact E1|]. split; [exact E2 | exact L].
Defined.

(** X3.  In a successful result [data.labels] is the request's [labels]
    when that is truthy, and the empty array when it is absent or otherwise
    falsy. *)
Theorem labels_default_to_empty (args config : JsVal) :
  generateChartConfig args = Ok config ->
  (truthy (get_field args "labels") = true ->
   get_field (get_field config "data") "labels" = get_field args "labels")
  /\ (truthy (get_field args "labels") = false ->
      get_field (get_field config "data") "labels" = JArr []).
Proof.
  intros H.
  destruct (generateChartConfig_Ok_inv _ _ H) as [t [ds [Et [Hin Eds]]]].
  rewrite (generateChartConfig_valid args t ds Et Hin Eds) in H.
  assert (E : get_field (get_field config "data") "labels"
              = js_or (get_field args "labels") (JArr [])).
  { destruct (forallb has_concrete_data ds); simpl in H; [|discriminate].
    destruct (is_gauge t).
    - destruct (truthy (gauge_value (JArr ds))); inversion H; reflexivity.
    - destruct (is_points t); [|inversion H; reflexivity].
      destruct (forallb first_is_point ds); inversion H; reflexivity. }
  rewrite E. unfold js_or. split; intros ->; reflexivity.
Qed.

Lemma labels_default_to_empty_witness :
  exists config,
    generateChartConfig sample_bar = Ok config
    /\ get_field (get_field config "data") "labels" = JArr [].
Proof.
  eexists. split; [reflexivity|].
  apply (proj2 (labels_default_to_empty sample_bar _ eq_refl)). reflexivity.
Defined.

(** X4.  Once the type is one of the ten and [datasets] is an array, a
    dataset whose [data] is falsy (absent, [null], 0, [false] or the empty
    string) stops the normaliser with "Each dataset must have a data
    property", whatever the chart type: the test comes before the rules of
    the gauges and of scatter and bubble. *)
Theorem dataset_without_data_is_rejected (args : JsVal) (t : string) (ds : list JsVal)
    (d : JsVal) :
  get_field args "type" = JStr t ->
  In t validTypes ->
  get_field args "datasets" = JArr ds ->
  In d ds ->
  truthy (get_field d "data") = false ->
  generateChartConfig args = Throw (invalid "Each dataset must have a data property").
Proof.
  intros Et Hin Eds Hd Hdata.
  rewrite (generateChartConfig_valid args t ds Et Hin Eds).
  assert (Hc : forallb has_concrete_data ds = false).
  { destruct (forallb has_concrete_data ds) eqn:E; [|reflexivity].
    rewrite forallb_forall in E. specialize (E d Hd).
    unfold has_concrete_data in E. rewrite Hdata, andb_false_r in E. discriminate. }
  now rewrite Hc.
Qed.

Lemma dataset_without_data_is_rejected_witness :
  generateChartConfig
    (JObj [("type", JStr "radialGauge");
           ("datasets", JArr [JObj [("data", JNum 0)]])])
  = Throw (invalid "Each dataset must have a data property").
Proof.
  apply (dataset_without_data_is_rejected _ "radialGauge"
           [JObj [("data", JNum 0)]] (JObj [("data", JNum 0)])).
  - reflexivity.
  - simpl. tauto.
  - reflexivity.
  - now left.
  - reflexivity.
Defined.

(** X5.  When every dataset has passed the presence test and the rule of
    the chart type fails, the error message names the type: "<type>
    requires a single numeric value" for the gauges, "<type> requires data
    points in [x, y] format" for scatter and the same with "[x, y, r]" for
    bubble. *)
Theorem type_rule_failure_messages (args : JsVal) (t : string) (ds : list JsVal) :
  get_field args "type" = JStr t ->
  In t validTypes ->
  get_field args "datasets" = JArr ds ->
  forallb has_concrete_data ds = true ->
  type_rule t ds = false ->
  (is_gauge t = true ->
   generateChartConfig args = Throw (invalid (t ++ " requires a single numeric value")))
  /\ (t = "scatter" ->
      generateChartConfig args
      = Throw (invalid "scatter requires data points in [x, y] format"))
  /\ (t = "bubble" ->
      generateChartConfig args
      = Throw (invalid "bubble requires data points in [x, y, r] format")).
Proof.
  intros Et Hin Eds Hc Hrule.
  rewrite (generateChartConfig_valid args t ds Et Hin Eds), Hc. cbn [negb]. cbv iota.
  unfold type_rule in Hrule. split; [|split].
  - intros Hg. rewrite Hg in *. now rewrite Hrule.
  - intros ->. cbn in Hrule |- *. now rewrite Hrule.
  - intros ->. cbn in Hrule |- *. now rewrite Hrule.
Qed.

Lemma type_rule_failure_messages_witness :
  generateChartConfig sample_scatter_flat
  = Throw (invalid "scatter requires data points in [x, y] format").
Proof.
  apply (proj1 (proj2 (type_rule_failure_messages sample_scatter_flat "scatter" _
                         eq_refl (or_intror (or_intror (or_intror (or_intror
                           (or_intror (or_intror (or_introl eq_refl)))))))
                         eq_refl eq_refl eq_refl))).
  reflexivity.
Defined.

Lemma own_entries_falsy (v : JsVal) : truthy v = false -> own_entries v = [].
Proof.
  destruct v; simpl; try reflexivity; try discriminate.
  destruct s; [reflexivity | discriminate].
Qed.

Lemma lookup_canonical_options (args : JsVal) (opts : Props) (k : string) :
  get_field args "options" = JObj opts -> NoDup (keys opts) -> k <> "title" ->
  lookup k (canonical_options args) = lookup k opts.
Proof.
  intros Eo Hnd Hk. unfold canonical_options. rewrite Eo. cbn [default_to].
  rewrite (spread_nil_object opts Hnd). unfold js_and.
  destruct (truthy (get_field args "title")) eqn:Ht.
  - unfold spread. cbn [own_entries fold_left fst snd].
    rewrite lookup_obj_set. destruct (String.eqb_spec "title" k); congruence.
  - unfold spread. now rewrite (own_entries_falsy _ Ht).
Qed.

(** X6.  The caller's [options] pass through: when [options] is an object,
    every key of it other than [title] and [plugins] has the same value in
    the canonical options, no other key appears there, and without a truthy
    [title] the canonical options of a chart that is not a gauge are the
    caller's [options] unchanged. *)
Theorem caller_options_pass_through (args config : JsVal) (opts : Props) (t : string) :
  get_field args "options" = JObj opts ->
  NoDup (keys opts) ->
  get_field args "type" = JStr t ->
  generateChartConfig args = Ok config ->
  (forall k, k <> "title" -> k <> "plugins" ->
     own_property (get_field config "options") k = lookup k opts)
  /\ (truthy (get_field args "title") = false -> is_gauge t = false ->
      get_field config "options" = JObj opts).
Proof.
  intros Eo Hnd Et H.
  destruct (options_of_config _ _ H) as [t' [Et' Eopt]].
  assert (t' = t) by congruence. subst t'. rewrite Eopt. split.
  - intros k Hk1 Hk2. cbn [own_property]. destruct (is_gauge t).
    + rewrite lookup_gauge_options.
      destruct (String.eqb_spec "plugins" k); [congruence|].
      now apply lookup_canonical_options.
    + now apply lookup_canonical_options.
  - intros Ht Hg. rewrite Hg. f_equal. unfold canonical_options.
    rewrite Eo. cbn [default_to]. rewrite (spread_nil_object opts Hnd).
    unfold js_and. rewrite Ht. unfold spread. now rewrite (own_entries_falsy _ Ht).
Qed.

Lemma caller_options_pass_through_witness :
  exists config,
    generateChartConfig sample_with_legend = Ok config
    /\ own_property (get_field config "options") "legend" = Some (JBool false).
Proof.
  eexists. split; [reflexivity|].
  assert (Hnd : NoDup (keys [("legend", JBool false)])).
  { repeat constructor. simpl. tauto. }
  apply (proj1 (caller_options_pass_through sample_with_legend _
                  [("legend", JBool false)] "bar" eq_refl Hnd eq_refl eq_refl));
    discriminate.
Defined.

(* ================================================================== *)
(** * The [generate_chart] tool and the URL *)

(** X7.  The [generate_chart] tool answers with the URL of the canonical
    configuration exactly when the normaliser succeeds, and otherwise with
    the normaliser's own invalid-parameters error: it never reports an
    internal error. *)
Theorem generate_chart_answers (arguments : JsVal) :
  (forall url, generate_chart arguments = Ok url ->
     exists config, generateChartConfig arguments = Ok config
                    /\ url = generateChartUrl config)
  /\ (forall e, generate_chart arguments = Throw e ->
        exists message, e = invalid message
                        /\ generateChartConfig arguments = Throw (invalid message))
  /\ (forall config, generateChartConfig arguments = Ok config ->
        generate_chart arguments = Ok (generateChartUrl config)).
Proof.
  unfold generate_chart.
  destruct (generateChartConfig arguments) as [config|e0] eqn:H.
  - split; [|split].
    + intros url E. inversion E. now exists config.
    + discriminate.
    + intros c E. now inversion E.
  - destruct (generateChartConfig_throws_invalid _ _ H) as [m ->].
    split; [discriminate|]. split; [|discriminate].
    intros e E. inversion E. now exists m.
Qed.

Lemma generate_chart_answers_witness :
  exists message,
    McpError InvalidParams valid_types_message = invalid message
    /\ generateChartConfig sample_unknown_type = Throw (invalid message).
Proof.
  apply (proj1 (proj2 (generate_chart_answers sample_unknown_type))). reflexivity.
Defined.

Section UrlText.

Lemma all_chars_append (P : ascii -> bool) (a b : string) :
  all_chars P (a ++ b) = all_chars P a && all_chars P b.
Proof.
  induction a as [|c a IH]; simpl; [reflexivity|].
  now rewrite IH, andb_assoc.
Qed.

Lemma encoded_byte_safe (c : ascii) :
  all_chars url_safe (if unreserved c then String c "" else percent c) = true.
Proof. revert c. apply all_bytes. vm_compute. reflexivity. Qed.

Lemma encoded_safe (s : string) : all_chars url_safe (encodeURIComponent s) = true.
Proof.
  induction s as [|c s IH]; [reflexivity|].
  cbn [encodeURIComponent]. now rewrite all_chars_append, encoded_byte_safe, IH.
Qed.

End UrlText.

(** X8.  Whatever the configuration, the URL is the base endpoint followed
    by [?c=] and a query value made only of unreserved characters and
    percent escapes: no space, quote, brace, ampersand or other reserved
    character of the JSON text reaches the URL unescaped. *)
Theorem url_query_is_escaped (config : JsVal) :
  exists query,
    generateChartUrl config = QUICKCHART_BASE_URL ++ "?c=" ++ query
    /\ all_chars url_safe query = true.
Proof.
  unfold generateChartUrl. eexists. split; [reflexivity | apply encoded_safe].
Qed.

(** X9.  The URL determines what the configuration serialises to: of two
    configurations without duplicate keys and without function values, with
    safe integers and with a JSON text, those with the same URL have the
    same serialised content ([undefined] members left out, [undefined]
    elements and infinite numbers as [null]), and two different ones that
    hold neither [undefined] nor an infinite number have different URLs. *)
Theorem url_determines_config (c1 c2 : JsVal) (t1 t2 : string) :
  keys_unique c1 = true -> keys_unique c2 = true ->
  function_free c1 = true -> function_free c2 = true ->
  safe_integers c1 = true -> safe_integers c2 = true ->
  JSON_stringify c1 = Some t1 -> JSON_stringify c2 = Some t2 ->
  (generateChartUrl c1 = generateChartUrl c2 -> json_image c1 = json_image c2)
  /\ (serialisable c1 = true -> serialisable c2 = true -> c1 <> c2 ->
      generateChartUrl c1 <> generateChartUrl c2).
Proof.
  intros K1 K2 _ _ _ _ E1 E2.
  destruct (decode_url_generated c1 t1 K1 E1) as [_ D1].
  destruct (decode_url_generated c2 t2 K2 E2) as [_ D2].
  assert (Himg : generateChartUrl c1 = generateChartUrl c2 ->
                 json_image c1 = json_image c2).
  { intros Eurl. rewrite Eurl, D2 in D1. now inversion D1. }
  split; [exact Himg|].
  intros S1 S2 Hne Eurl. apply Hne.
  rewrite <- (json_image_serialisable c1 S1), <- (json_image_serialisable c2 S2).
  now apply Himg.
Qed.

Lemma url_determines_config_witness :
  json_image sample_sparse = json_image sample_dense
  /\ generateChartUrl sample_dense <> generateChartUrl (JObj [("y", JNum 2)]).
Proof.
  split.
  - apply (proj1 (url_determines_config sample_sparse sample_dense _ _
                    eq_refl eq_refl eq_refl eq_refl eq_refl eq_refl eq_refl eq_refl)).
    reflexivity.
  - apply (proj2 (url_determines_config sample_dense (JObj [("y", JNum 2)]) _ _
                    eq_refl eq_refl eq_refl eq_refl eq_refl eq_refl eq_refl eq_refl));
      [reflexivity | reflexivity | discriminate].
Defined.

(* ================================================================== *)
(** * Further properties of the shape adapter *)

Section AdapterShapes.

Lemma normalize_shape_rejects (config : JsVal) :
  truthy config = false \/ typeof_object config = false ->
  normalize_shape config = Throw (invalid object_message).
Proof.
  intros H. unfold normalize_shape.
  destruct H as [H|H]; rewrite H; [reflexivity|].
  now rewrite orb_true_r.
Qed.

Lemma index_key_not_name (i : nat) (name : string) :
  In name ["type"; "datasets"; "labels"; "data"] -> index_key i <> name.
Proof.
  unfold index_key. intros [<-|[<-|[<-|[<-|[]]]]];
    destruct (N.to_uint (N.of_nat i)); discriminate.
Qed.

Lemma keys_indexed_from (l : list JsVal) (i : nat) (k : string) :
  In k (keys (indexed_from i l)) -> exists j, k = index_key j.
Proof.
  revert i. induction l as [|x l IH]; simpl; intros i H; [destruct H|].
  destruct H as [<-|H]; [now exists i | exact (IH _ H)].
Qed.

Lemma lookup_spread_array (l : list JsVal) (name : string) :
  In name ["type"; "datasets"; "labels"; "data"] ->
  lookup name (spread [] (JArr l)) = None.
Proof.
  intros Hn. unfold spread. cbn [own_entries]. rewrite lookup_fold_obj_set.
  assert (E : lookup name (List.rev (indexed_from 0 l)) = None).
  { apply lookup_None_iff. intros Hin. unfold keys in Hin.
    rewrite map_rev in Hin. apply in_rev in Hin.
    destruct (keys_indexed_from l 0 name Hin) as [j Ej].
    exact (index_key_not_name j name Hn (eq_sym Ej)). }
  now rewrite E.
Qed.

Lemma lift_field_array (l : list JsVal) (nc : Props) (name : string) :
  lift_field (JArr l) nc name = Ok nc.
Proof. reflexivity. Qed.

Lemma normalize_shape_array (l : list JsVal) :
  normalize_shape (JArr l) = Throw (invalid shape_message).
Proof.
  unfold normalize_shape. cbn [truthy typeof_object negb orb]. cbv iota.
  repeat (rewrite lift_field_array; cbn [bind]). unfold get_field.
  rewrite (lookup_spread_array l "type"); [reflexivity | simpl; tauto].
Qed.

Lemma truthy_effective (config : JsVal) (name : string) :
  truthy (effective config name) = available config name.
Proof.
  unfold effective, available, lifts.
  destruct (truthy (get_field config name)) eqn:Ht; cbn [negb orb].
  - rewrite andb_false_r. exact Ht.
  - rewrite andb_true_r.
    destruct (truthy (get_field config "data") && typeof_object (get_field config "data")
              && truthy (get_field (get_field config "data") name)) eqn:E.
    + apply andb_prop in E as [_ E]. exact E.
    + exact Ht.
Qed.

Lemma get_field_lift_into (config : JsVal) (nc : Props) (k name : string) :
  get_field (JObj (lift_into config nc k)) name
  = if lifts config k && (k =? name)
    then get_field (get_field config "data") k
    else get_field (JObj nc) name.
Proof. unfold lift_into. apply get_field_cond_set. Qed.

Lemma adapted_field (props : Props) (name : string) :
  In name adapter_fields ->
  get_field (JObj (adapted props)) name = effective (JObj props) name.
Proof.
  unfold adapted, effective.
  intros [<-|[<-|[<-|[]]]]; rewrite !get_field_lift_into;
    cbn [String.eqb Ascii.eqb Bool.eqb andb];
    rewrite ?andb_false_r, ?andb_true_r;
    repeat match goal with
           | |- context [if ?b then _ else _] => destruct b
           end; reflexivity.
Qed.

Lemma adapted_other (props : Props) (name : string) :
  ~ In name adapter_fields ->
  get_field (JObj (adapted props)) name = get_field (JObj props) name.
Proof.
  intros Hn. unfold adapted. rewrite !get_field_lift_into.
  assert (E : forall k, In k adapter_fields -> (k =? name) = false).
  { intros k Hk. apply String.eqb_neq. intros ->. exact (Hn Hk). }
  rewrite (E "type"), (E "labels"), (E "datasets"); unfold adapter_fields; simpl;
    try tauto.
  now rewrite !andb_false_r.
Qed.

Lemma NoDup_lift_into (config : JsVal) (nc : Props) (name : string) :
  NoDup (keys nc) -> NoDup (keys (lift_into config nc name)).
Proof.
  intros H. unfold lift_into. destruct (lifts config name); [|exact H].
  now apply NoDup_keys_obj_set.
Qed.

Lemma NoDup_adapted (props : Props) : NoDup (keys props) -> NoDup (keys (adapted props)).
Proof. intros H. unfold adapted. now repeat apply NoDup_lift_into. Qed.

(** The adapter on a plain object: it succeeds with the adapted properties
    exactly when [type] and [datasets] are available. *)
Lemma normalize_shape_adapted (props : Props) :
  NoDup (keys props) ->
  normalize_shape (JObj props)
  = if available (JObj props) "type" && available (JObj props) "datasets"
    then Ok (JObj (adapted props))
    else Throw (invalid shape_message).
Proof.
  intros Hnd. rewrite (normalize_shape_object props Hnd). cbv zeta.
  fold (lift_into (JObj props) props "datasets").
  fold (lift_into (JObj props) (lift_into (JObj props) props "datasets") "labels").
  fold (lift_into (JObj props)
          (lift_into (JObj props) (lift_into (JObj props) props "datasets") "labels")
          "type").
  fold (adapted props).
  rewrite (adapted_field props "type"), (adapted_field props "datasets");
    unfold adapter_fields; simpl; try tauto.
  rewrite !truthy_effective.
  destruct (available (JObj props) "type"), (available (JObj props) "datasets");
    reflexivity.
Qed.

Lemma lifts_adapted (props : Props) (name : string) :
  In name adapter_fields -> lifts (JObj (adapted props)) name = false.
Proof.
  intros Hn. unfold lifts.
  rewrite (adapted_other props "data"), (adapted_field props name Hn).
  2:{ unfold adapter_fields. simpl. intuition discriminate. }
  rewrite truthy_effective. unfold available.
  destruct (truthy (get_field (JObj props) name)); cbn [orb negb];
    [now rewrite andb_false_r|].
  destruct (truthy (get_field (JObj props) "data")
            && typeof_object (get_field (JObj props) "data")
            && truthy (get_field (get_field (JObj props) "data") name));
    reflexivity.
Qed.

Lemma adapted_adapted (props : Props) : adapted (adapted props) = adapted props.
Proof.
  unfold adapted at 1. unfold lift_into.
  rewrite (lifts_adapted props "datasets"), (lifts_adapted props "labels"),
    (lifts_adapted props "type"); unfold adapter_fields; simpl; tauto.
Qed.

Lemma available_adapted (props : Props) (name : string) :
  In name adapter_fields ->
  available (JObj props) name = true ->
  available (JObj (adapted props)) name = true.
Proof.
  intros Hn Ha. unfold available at 1.
  now rewrite (adapted_field props name Hn), truthy_effective, Ha.
Qed.

End AdapterShapes.

(** X10.  A [config] that is falsy or not of type object (a number, a
    string, a boolean, [undefined], [null]) is refused with "Config must be
    a valid chart configuration object" before the handler calls the host
    at all. *)
Theorem download_refuses_non_objects
    (h : Host) (config : JsVal) (path : option string) :
  truthy config = false \/ typeof_object config = false ->
  download_chart h config path [] = ([], Throw (invalid object_message)).
Proof.
  intros H. rewrite download_chart_eq.
  now rewrite (normalize_shape_rejects config H).
Qed.

Lemma download_refuses_non_objects_witness :
  download_chart sample_readonly_host (JStr "pie") None []
  = ([], Throw (invalid object_message)).
Proof.
  apply download_refuses_non_objects. right. reflexivity.
Defined.

(** X11.  An array passes the object test but has neither [type] nor
    [datasets] nor a [data] member to take them from: every array [config]
    is refused with the "must include type and datasets" error, again
    before any host call. *)
Theorem download_refuses_arrays
    (h : Host) (items : list JsVal) (path : option string) :
  normalize_shape (JArr items) = Throw (invalid shape_message)
  /\ download_chart h (JArr items) path [] = ([], Throw (invalid shape_message)).
Proof.
  split; [apply normalize_shape_array|].
  rewrite download_chart_eq. now rewrite normalize_shape_array.
Qed.

(** X12.  On a plain object the adapter succeeds exactly when [type] and
    [datasets] are each available, truthy at the top level or truthy inside
    an object-typed [data] member; otherwise it fails with the "must
    include type and datasets" error. *)
Theorem adapter_succeeds_iff_available (props : Props) :
  NoDup (keys props) ->
  (available (JObj props) "type" && available (JObj props) "datasets" = true ->
   normalize_shape (JObj props) = Ok (JObj (adapted props))
   /\ forall name, In name adapter_fields ->
        get_field (JObj (adapted props)) name = effective (JObj props) name)
  /\ (available (JObj props) "type" && available (JObj props) "datasets" = false ->
      normalize_shape (JObj props) = Throw (invalid shape_message)).
Proof.
  intros Hnd. rewrite (normalize_shape_adapted props Hnd). split.
  - intros ->. split; [reflexivity | apply adapted_field].
  - intros ->. reflexivity.
Qed.

Lemma adapter_succeeds_iff_available_witness :
  normalize_shape (JObj [("type", JStr "pie"); ("data", JObj [("labels", JArr [])])])
  = Throw (invalid shape_message).
Proof.
  assert (Hnd : NoDup (keys [("type", JStr "pie"); ("data", JObj [("labels", JArr [])])])).
  { repeat constructor; simpl; intuition discriminate. }
  apply (proj2 (adapter_succeeds_iff_available _ Hnd)). reflexivity.
Defined.

(** X13.  The adapter is idempotent on plain objects: what it returns is
    returned unchanged when it is adapted again. *)
Theorem adapter_is_idempotent (props : Props) (normalized : JsVal) :
  NoDup (keys props) ->
  normalize_shape (JObj props) = Ok normalized ->
  normalize_shape normalized = Ok normalized.
Proof.
  intros Hnd H. rewrite (normalize_shape_adapted props Hnd) in H.
  destruct (available (JObj props) "type" && available (JObj props) "datasets") eqn:Ha;
    [|discriminate].
  inversion H; subst. apply andb_prop in Ha as [Ht Hd].
  rewrite (normalize_shape_adapted _ (NoDup_adapted props Hnd)).
  rewrite (available_adapted props "type"), (available_adapted props "datasets");
    unfold adapter_fields; simpl; try tauto.
  now rewrite adapted_adapted.
Qed.

Lemma adapter_is_idempotent_witness :
  exists normalized,
    normalize_shape sample_pie_nested = Ok normalized
    /\ normalize_shape normalized = Ok normalized.
Proof.
  assert (Hnd : NoDup (keys [("type", JStr "pie");
        ("data", JObj [("datasets", JArr [JObj [("data", numbers [1]%Z)]]);
                       ("labels", JArr [JStr "a"])])])).
  { repeat constructor; simpl; intuition discriminate. }
  eexists. split; [reflexivity|].
  exact (adapter_is_idempotent _ _ Hnd eq_refl).
Defined.

(** X14.  Every nested request is normalised like its flat equivalent:
    when the adapter accepts a plain object, the normaliser gives the same
    result (configuration or error) on the adapted object as on the flat
    request built from the adapted [type], [labels] and [datasets] and the
    top-level [title] and [options]; the [data] member left in the adapted
    object has no effect. *)
Theorem nested_request_equals_flat (props : Props) (normalized : JsVal) :
  NoDup (keys props) ->
  normalize_shape (JObj props) = Ok normalized ->
  generateChartConfig normalized = generateChartConfig (flat_equivalent (JObj props)).
Proof.
  intros Hnd H. rewrite (normalize_shape_adapted props Hnd) in H.
  destruct (available (JObj props) "type" && available (JObj props) "datasets");
    [|discriminate].
  inversion H; subst. apply generateChartConfig_ext; [reflexivity|].
  unfold request_fields.
  intros k [<-|[<-|[<-|[<-|[<-|[]]]]]].
  - rewrite adapted_field; [reflexivity | unfold adapter_fields; simpl; tauto].
  - rewrite adapted_field; [reflexivity | unfold adapter_fields; simpl; tauto].
  - rewrite adapted_field; [reflexivity | unfold adapter_fields; simpl; tauto].
  - rewrite adapted_other; [reflexivity|].
    unfold adapter_fields; simpl; intuition discriminate.
  - rewrite adapted_other; [reflexivity|].
    unfold adapter_fields; simpl; intuition discriminate.
Qed.

Lemma nested_request_equals_flat_witness :
  exists normalized,
    normalize_shape sample_pie_nested = Ok normalized
    /\ generateChartConfig normalized
       = generateChartConfig (flat_equivalent sample_pie_nested).
Proof.
  assert (Hnd : NoDup (keys [("type", JStr "pie");
        ("data", JObj [("datasets", JArr [JObj [("data", numbers [1]%Z)]]);
                       ("labels", JArr [JStr "a"])])])).
  { repeat constructor; simpl; intuition discriminate. }
  eexists. split; [reflexivity|].
  exact (nested_request_equals_flat _ _ Hnd eq_refl).
Defined.

(* ================================================================== *)
(** * The default output path and its timestamp *)

Section Timestamp.

Lemma replace_colons_no_colon (s : string) : lacks ":" (replace_colons s) = true.
Proof.
  unfold lacks. induction s as [|c s IH]; simpl; [reflexivity|].
  rewrite IH, andb_true_r.
  destruct (Ascii.eqb_spec c ":"); [reflexivity|].
  now apply negb_true_iff, Ascii.eqb_neq.
Qed.

Lemma all_chars_drop_line (P : ascii -> bool) (s : string) :
  all_chars P s = true -> all_chars P (drop_line s) = true.
Proof.
  induction s as [|c s IH]; simpl; intros H; [reflexivity|].
  destruct (is_line_terminator c); [exact H|].
  apply andb_prop in H as [_ H]. now apply IH.
Qed.

Lemma all_chars_cut_fraction (P : ascii -> bool) (s : string) :
  all_chars P s = true -> all_chars P (cut_fraction s) = true.
Proof.
  induction s as [|c s IH]; intros H; [reflexivity|].
  cbn [all_chars] in H. apply andb_prop in H as [Hc Hs].
  cbn [cut_fraction]. destruct (c =? ".")%char.
  - destruct s as [|c' s'].
    + cbn [all_chars]. now rewrite Hc.
    + destruct (is_line_terminator c').
      * cbn [all_chars]. now rewrite Hc, (IH Hs).
      * now apply all_chars_drop_line.
  - cbn [all_chars]. now rewrite Hc, (IH Hs).
Qed.

Lemma replace_first_T_no_colon (s : string) :
  lacks ":" s = true -> lacks ":" (replace_first_T s) = true.
Proof.
  unfold lacks. induction s as [|c s IH]; simpl; intros H; [reflexivity|].
  apply andb_prop in H as [Hc Hs].
  destruct (c =? "T")%char; simpl; [exact Hs|].
  now rewrite Hc, (IH Hs).
Qed.

Lemma replace_colons_append (a b : string) :
  replace_colons (a ++ b) = replace_colons a ++ replace_colons b.
Proof. induction a as [|c a IH]; simpl; [reflexivity | now rewrite IH]. Qed.

Lemma replace_colons_lacks (s : string) : lacks ":" s = true -> replace_colons s = s.
Proof.
  unfold lacks. induction s as [|c s IH]; simpl; intros H; [reflexivity|].
  apply andb_prop in H as [Hc Hs]. apply negb_true_iff in Hc.
  now rewrite Hc, (IH Hs).
Qed.

Lemma replace_colons_keeps_lines (s : string) :
  all_chars not_line_terminator s = true ->
  all_chars not_line_terminator (replace_colons s) = true.
Proof.
  induction s as [|c s IH]; simpl; intros H; [reflexivity|].
  apply andb_prop in H as [Hc Hs]. rewrite (IH Hs), andb_true_r.
  destruct (c =? ":")%char; [reflexivity | exact Hc].
Qed.

Lemma cut_fraction_lacks (a b : string) :
  lacks "." a = true -> cut_fraction (a ++ b) = a ++ cut_fraction b.
Proof.
  unfold lacks. induction a as [|c a IH]; intros H; [reflexivity|].
  cbn [all_chars] in H. apply andb_prop in H as [Hc Ha].
  apply negb_true_iff in Hc. cbn [append cut_fraction]. rewrite Hc.
  now rewrite (IH Ha).
Qed.

Lemma drop_line_all (s : string) :
  all_chars not_line_terminator s = true -> drop_line s = "".
Proof.
  induction s as [|c s IH]; simpl; intros H; [reflexivity|].
  apply andb_prop in H as [Hc Hs]. unfold not_line_terminator in Hc.
  apply negb_true_iff in Hc. rewrite Hc. now apply IH.
Qed.

Lemma cut_fraction_dot (frac : string) :
  frac <> "" -> all_chars not_line_terminator frac = true ->
  cut_fraction (String "." frac) = "".
Proof.
  intros Hne H. destruct frac as [|c r]; [congruence|].
  cbn [cut_fraction]. change ("." =? ".")%char with true. cbv iota.
  pose proof H as H'. cbn [all_chars] in H'. apply andb_prop in H' as [Hc _].
  unfold not_line_terminator in Hc. apply negb_true_iff in Hc. rewrite Hc.
  now apply drop_line_all.
Qed.

Lemma replace_first_T_lacks (a b : string) :
  lacks "T" a = true -> replace_first_T (a ++ String "T" b) = a ++ String "_" b.
Proof.
  unfold lacks. induction a as [|c a IH]; intros H; [reflexivity|].
  cbn [all_chars] in H. apply andb_prop in H as [Hc Ha].
  apply negb_true_iff in Hc. cbn [append replace_first_T]. rewrite Hc.
  now rewrite (IH Ha).
Qed.

Lemma plain_lacks (s : string) :
  all_chars plain_char s = true ->
  lacks ":" s = true /\ lacks "." s = true /\ lacks "T" s = true.
Proof.
  unfold lacks. induction s as [|c s IH]; simpl; intros H; [tauto|].
  apply andb_prop in H as [Hc Hs]. destruct (IH Hs) as [H1 [H2 H3]].
  unfold plain_char in Hc.
  apply andb_prop in Hc as [Hc _]. apply andb_prop in Hc as [Hc HT].
  apply andb_prop in Hc as [Hcol Hdot].
  now rewrite Hcol, Hdot, HT, H1, H2, H3.
Qed.

Lemma lacks_append (x : ascii) (a b : string) :
  lacks x (a ++ b) = lacks x a && lacks x b.
Proof. apply all_chars_append. Qed.

End Timestamp.

(** X16.  Whatever the clock returns, the timestamp of the default file
    name holds no colon. *)
Theorem timestamp_has_no_colon (iso : string) : lacks ":" (timestamp_of iso) = true.
Proof.
  unfold timestamp_of. apply replace_first_T_no_colon.
  unfold lacks. apply all_chars_cut_fraction. apply replace_colons_no_colon.
Qed.

(** X17.  On a clock string of the ISO form [date T hh : mm : ss . fraction]
    the timestamp is [date _ hh - mm - ss]: the colons become hyphens, the
    fraction goes with its dot, and the [T] becomes an underscore. *)
Theorem timestamp_of_iso_string (date hh mm ss frac : string) :
  all_chars plain_char date = true ->
  all_chars plain_char hh = true ->
  all_chars plain_char mm = true ->
  all_chars plain_char ss = true ->
  frac <> "" ->
  all_chars not_line_terminator frac = true ->
  timestamp_of (date ++ "T" ++ hh ++ ":" ++ mm ++ ":" ++ ss ++ "." ++ frac)
  = date ++ "_" ++ hh ++ "-" ++ mm ++ "-" ++ ss.
Proof.
  intros Hd Hh Hm Hs Hne Hf.
  destruct (plain_lacks date Hd) as [Dc [Dd DT]].
  destruct (plain_lacks hh Hh) as [Hc [Hdot _]].
  destruct (plain_lacks mm Hm) as [Mc [Mdot _]].
  destruct (plain_lacks ss Hs) as [Sc [Sdot _]].
  unfold timestamp_of.
  rewrite !replace_colons_append.
  rewrite (replace_colons_lacks date Dc), (replace_colons_lacks hh Hc),
    (replace_colons_lacks mm Mc), (replace_colons_lacks ss Sc).
  change (replace_colons "T") with "T". change (replace_colons ":") with "-".
  change (replace_colons ".") with ".".
  assert (Hfrac : replace_colons frac <> "") by (destruct frac; [congruence | discriminate]).
  pose proof (replace_colons_keeps_lines frac Hf) as Hlines.
  rewrite (cut_fraction_lacks date _ Dd). cbn [append].
  change (cut_fraction (String "T" ?x)) with (String "T" (cut_fraction x)).
  cbn [cut_fraction]. change ("T" =? ".")%char with false. cbv iota.
  rewrite (cut_fraction_lacks hh _ Hdot).
  cbn [cut_fraction]. change ("-" =? ".")%char with false. cbv iota.
  rewrite (cut_fraction_lacks mm _ Mdot).
  cbn [cut_fraction]. change ("-" =? ".")%char with false. cbv iota.
  rewrite (cut_fraction_lacks ss _ Sdot).
  rewrite (cut_fraction_dot _ Hfrac Hlines), append_nil_r.
  now rewrite (replace_first_T_lacks date _ DT).
Qed.

Lemma timestamp_of_iso_string_witness :
  timestamp_of "2026-11-03T08:42:00.123Z" = "2026-11-03_08-42-00".
Proof.
  apply (timestamp_of_iso_string "2026-11-03" "08" "42" "00" "123Z");
    try reflexivity. discriminate.
Defined.

Section AfterValidation.

(** What the adapter returns has a truthy [type] and truthy [datasets]. *)
Lemma normalize_shape_Ok_fields (config nc : JsVal) :
  normalize_shape config = Ok nc ->
  truthy (get_field nc "type") = true /\ truthy (get_field nc "datasets") = true.
Proof.
  unfold normalize_shape. intros H.
  destruct (truthy config) eqn:Hc; cbn [negb orb] in H; [|discriminate].
  destruct (typeof_object config); cbn [negb] in H; [|discriminate].
  destruct (lift_field_total config (spread [] config) "datasets" Hc) as [n1 E1].
  rewrite E1 in H. cbn [bind] in H.
  destruct (lift_field_total config n1 "labels" Hc) as [n2 E2].
  rewrite E2 in H. cbn [bind] in H.
  destruct (lift_field_total config n2 "type" Hc) as [n3 E3].
  rewrite E3 in H. cbn [bind] in H.
  destruct (truthy (get_field (JObj n3) "type")) eqn:Ht;
    destruct (truthy (get_field (JObj n3) "datasets")) eqn:Hd;
    cbn [negb orb] in H; try discriminate.
  inversion H; subst. now split.
Qed.

Lemma count_events_app (P : Event -> bool) (a b : list Event) :
  count_events P (a ++ b)%list = count_events P a + count_events P b.
Proof. unfold count_events. now rewrite filter_app, length_app. Qed.

Lemma filter_none (P : Event -> bool) (tr : list Event) :
  existsb P tr = false -> filter P tr = [].
Proof.
  induction tr as [|e tr IH]; simpl; intros HP; [reflexivity|].
  apply orb_false_elim in HP as [He Htr]. rewrite He. now apply IH.
Qed.

Lemma quiet_counts (tr : list Event) :
  quiet tr = true -> count_events is_fetch tr = 0 /\ count_events is_write tr = 0.
Proof.
  unfold quiet, count_events. intros H. apply andb_prop in H as [Hf Hw].
  apply negb_true_iff in Hf, Hw.
  now rewrite (filter_none _ _ Hf), (filter_none _ _ Hw).
Qed.

End AfterValidation.

(** X15.  When no output path is given, or an empty one, and the [type]
    that the shape checks leave is a string, the path is derived after the
    shape checks: the directory is the Desktop directory of the home
    directory when that is write-accessible and the home directory
    otherwise, and the file name is that [type], an underscore, the
    timestamp and [.png].  The fallback name [chart] is never used, the
    Desktop directory is probed once, and the chosen path is logged. *)
Theorem default_path_is_derived
    (h : Host) (config nc : JsVal) (t : string) (path : option string) :
  normalize_shape config = Ok nc ->
  get_field nc "type" = JStr t ->
  path = None \/ path = Some "" ->
  let outputPath :=
    path_join h (base_dir h)
      (t ++ "_" ++ timestamp_of (date_toISOString h) ++ ".png") in
  resolve_output_path h nc path [] = (default_path_trace h outputPath, Ok outputPath).
Proof.
  intros Hn Et Hp outputPath.
  destruct (normalize_shape_Ok_fields _ _ Hn) as [Ht _].
  assert (E : default_output_path h nc [] = (default_path_trace h outputPath, Ok outputPath)).
  { subst outputPath.
    unfold default_output_path, default_path_trace, base_dir, desktop_dir, timestamp_of,
      io_bind, access, console_error, emit, io_ret, js_or.
    rewrite Ht, Et. cbn [app to_string].
    destruct (fs_access_W_OK h (path_join h (os_homedir h) "Desktop")); reflexivity. }
  unfold resolve_output_path. destruct Hp as [-> | ->]; exact E.
Qed.

Lemma default_path_is_derived_witness :
  resolve_output_path sample_readonly_host sample_pie_flat None []
  = ([EvAccess "/home/u/Desktop";
      EvConsoleError "Desktop not accessible, using home directory instead";
      EvConsoleError "No output path provided, using: /home/u/pie_2026-11-03_08-42-00.png"],
     Ok "/home/u/pie_2026-11-03_08-42-00.png").
Proof.
  apply (default_path_is_derived sample_readonly_host sample_pie_flat sample_pie_flat
           "pie" None eq_refl eq_refl (or_introl eq_refl)).
Defined.

(** X18.  Once validation has passed, a host error [e] raised by the fetch
    or by the file write is reported by its code: [EACCES] and [EROFS] as
    invalid parameters "Cannot write to <path>: Permission denied",
    [ENOENT] as "Cannot write to <path>: Directory does not exist", and any
    other error as an internal error "Failed to download chart: <message>"
    (with "Unknown error" for an empty message).  A failed fetch is never
    followed by a file write. *)
Theorem transfer_errors_are_classified
    (h : Host) (config nc chartConfig : JsVal) (path : option string)
    (tr0 : list Event) (outputPath : string) (e : JsError) :
  normalize_shape config = Ok nc ->
  resolve_output_path h nc path [] = (tr0, Ok outputPath) ->
  fs_access_W_OK h (path_dirname h outputPath) = true ->
  generateChartConfig nc = Ok chartConfig ->
  axios_get h (generateChartUrl chartConfig) = inl e
  \/ (exists body, axios_get h (generateChartUrl chartConfig) = inr body
                   /\ fs_writeFile h outputPath body = Some e) ->
  exists tr report,
    download_chart h config path [] = (tr, Throw report)
    /\ (err_code e = Some "EACCES" \/ err_code e = Some "EROFS" ->
        report = invalid ("Cannot write to " ++ outputPath ++ ": Permission denied"))
    /\ (err_code e = Some "ENOENT" ->
        report = invalid ("Cannot write to " ++ outputPath ++ ": Directory does not exist"))
    /\ (is_fs_code e = false ->
        report = internal_report "Failed to download chart: " e)
    /\ (axios_get h (generateChartUrl chartConfig) = inl e ->
        existsb is_write tr = false).
Proof.
  intros Hn Hr Ha Hg Hfail.
  assert (Hq : quiet tr0 = true).
  { destruct (resolve_output_path_quiet h nc path) as [t [p [E Q]]].
    rewrite Hr in E. now inversion E; subst. }
  assert (Hclass :
    let report := wrap_internal "Failed to download chart: "
                    (classify_transfer_error outputPath (Thrown e)) in
    (err_code e = Some "EACCES" \/ err_code e = Some "EROFS" ->
     report = invalid ("Cannot write to " ++ outputPath ++ ": Permission denied"))
    /\ (err_code e = Some "ENOENT" ->
        report = invalid ("Cannot write to " ++ outputPath ++ ": Directory does not exist"))
    /\ (is_fs_code e = false ->
        report = internal_report "Failed to download chart: " e)).
  { cbv zeta. unfold classify_transfer_error, is_fs_code. split; [|split].
    - intros [-> | ->]; reflexivity.
    - intros ->. reflexivity.
    - destruct (err_code e) as [code|]; [|reflexivity].
      intros Hc. apply orb_false_elim in Hc as [Hc H3].
      apply orb_false_elim in Hc as [H1 H2]. now rewrite H1, H2, H3. }
  cbv zeta in Hclass. destruct Hclass as [C1 [C2 C3]].
  rewrite download_chart_eq, Hn, Hr. cbv zeta. rewrite Ha, Hg.
  destruct Hfail as [Hf | [body [Hf Hw]]].
  - rewrite Hf. eexists. eexists. split; [reflexivity|].
    split; [exact C1|]. split; [exact C2|]. split; [exact C3|].
    intros _. rewrite !existsb_app. cbn.
    unfold quiet in Hq. apply andb_prop in Hq as [_ Hq].
    apply negb_true_iff in Hq. now rewrite Hq.
  - rewrite Hf, Hw. eexists. eexists. split; [reflexivity|].
    split; [exact C1|]. split; [exact C2|]. split; [exact C3|].
    intros Hf'. congruence.
Qed.

Lemma transfer_errors_are_classified_witness :
  exists tr report,
    download_chart (sample_offline_host (mkJsError (Some "ENOTFOUND") "no route"))
      sample_pie_flat (Some "/srv/out/pie.png") [] = (tr, Throw report)
    /\ report = McpError InternalError "Failed to download chart: no route"
    /\ existsb is_write tr = false.
Proof.
  destruct (transfer_errors_are_classified
              (sample_offline_host (mkJsError (Some "ENOTFOUND") "no route"))
              sample_pie_flat sample_pie_flat _ (Some "/srv/out/pie.png") []
              "/srv/out/pie.png" (mkJsError (Some "ENOTFOUND") "no route")
              eq_refl eq_refl eq_refl eq_refl (or_introl eq_refl))
    as [tr [report [E [_ [_ [C3 Hw]]]]]].
  exists tr, report. split; [exact E|]. split; [exact (C3 eq_refl) | exact (Hw eq_refl)].
Defined.

(** X19.  A call of [download_chart] whose arguments are present, whose
    [outputPath] is a string or falsy and whose [type], as the shape checks
    leave it, is a string, fails with a protocol error only, and with an
    internal error only after the fetch was attempted: before the fetch
    every failure is an invalid-parameters error. *)
Theorem download_failures_are_protocol_errors
    (h : Host) (arguments config : JsVal) (path : option string)
    (tr : list Event) (e : Exn) :
  destructure_arguments arguments = Some (config, path) ->
  type_is_text config = true ->
  download_chart h config path [] = (tr, Throw e) ->
  (exists message, e = invalid message)
  \/ (exists message,
        e = McpError InternalError ("Failed to download chart: " ++ message)
        /\ existsb is_fetch tr = true).
Proof.
  intros _ _ H. rewrite download_chart_eq in H.
  assert (Hhost : forall p e0 t,
    existsb is_fetch t = true ->
    (t, @Throw string (wrap_internal "Failed to download chart: "
                         (classify_transfer_error p (Thrown e0)))) = (tr, Throw e) ->
    (exists message, e = invalid message)
    \/ (exists message,
          e = McpError InternalError ("Failed to download chart: " ++ message)
          /\ existsb is_fetch tr = true)).
  { intros p e0 t Hf E. inversion E; subst. clear E.
    unfold classify_transfer_error.
    destruct (err_code e0) as [code|].
    - destruct ((code =? "EACCES") || (code =? "EROFS")); [left; eexists; reflexivity|].
      destruct (code =? "ENOENT"); [left; eexists; reflexivity|].
      right. eexists. split; [reflexivity | exact Hf].
    - right. eexists. split; [reflexivity | exact Hf]. }
  destruct (normalize_shape config) as [nc|e1] eqn:Hn.
  - destruct (resolve_output_path_quiet h nc path) as [tr0 [p [E _]]].
    rewrite E in H. cbv zeta in H.
    destruct (fs_access_W_OK h (path_dirname h p)).
    + destruct (generateChartConfig nc) as [c|e2] eqn:Hg.
      * destruct (axios_get h (generateChartUrl c)) as [e0|body].
        { apply (Hhost p e0 _) in H; [exact H|].
          rewrite existsb_app. cbn. now rewrite orb_true_r. }
        destruct (fs_writeFile h p body) as [e0|]; [|discriminate].
        apply (Hhost p e0 _) in H; [exact H|].
        rewrite !existsb_app. cbn. now rewrite orb_true_r.
      * destruct (generateChartConfig_throws_invalid _ _ Hg) as [m ->].
        inversion H. left. now exists m.
    + inversion H. left. eexists. reflexivity.
  - destruct (normalize_shape_throws_invalid _ _ Hn) as [m ->].
    inversion H. left. now exists m.
Qed.

Lemma download_failures_are_protocol_errors_witness :
  exists tr,
    download_chart (sample_offline_host (mkJsError (Some "ENOTFOUND") "no route"))
      sample_pie_flat (Some "/srv/out/pie.png") []
    = (tr, Throw (McpError InternalError "Failed to download chart: no route"))
    /\ existsb is_fetch tr = true.
Proof.
  eexists. split; [reflexivity|].
  destruct (download_failures_are_protocol_errors
              (sample_offline_host (mkJsError (Some "ENOTFOUND") "no route"))
              (JObj [("config", sample_pie_flat);
                     ("outputPath", JStr "/srv/out/pie.png")])
              sample_pie_flat (Some "/srv/out/pie.png") _ _
              eq_refl eq_refl eq_refl)
    as [[message E] | [message [_ Hfetch]]]; [discriminate E | exact Hfetch].
Defined.

(** X20.  One call of [download_chart] fetches at most once and writes at
    most one file.  When it succeeds its answer is "Chart saved to
    <path>", the fetch and the write are the last two host calls, the bytes
    written are the bytes fetched, and a non-empty path given by the caller
    is the path written to. *)
Theorem download_fetches_and_writes_once
    (h : Host) (config : JsVal) (path : option string)
    (tr : list Event) (res : Result string) :
  download_chart h config path [] = (tr, res) ->
  count_events is_fetch tr <= 1
  /\ count_events is_write tr <= 1
  /\ (forall text, res = Ok text ->
        exists before outputPath url body,
          text = "Chart saved to " ++ outputPath
          /\ tr = (before ++ [EvHttpGet url; EvWriteFile outputPath body])%list
          /\ quiet before = true
          /\ axios_get h url = inr body
          /\ fs_writeFile h outputPath body = None
          /\ (forall p, path = Some p -> p <> "" -> outputPath = p)).
Proof.
  intros H. rewrite download_chart_eq in H.
  destruct (normalize_shape config) as [nc|e1] eqn:Hn;
    [|injection H as <- <-; repeat split; try (cbn; lia); discriminate].
  destruct (resolve_output_path_quiet h nc path) as [tr0 [p0 [E Hq]]].
  rewrite E in H. cbv zeta in H.
  assert (Hq1 : quiet (tr0 ++ [EvAccess (path_dirname h p0)])%list = true).
  { rewrite quiet_snoc, Hq. reflexivity. }
  destruct (quiet_counts _ Hq1) as [F0 W0].
  remember (tr0 ++ [EvAccess (path_dirname h p0)])%list as tr1 eqn:Etr1.
  destruct (fs_access_W_OK h (path_dirname h p0));
    [|injection H as <- <-; rewrite F0, W0; repeat split; try lia; discriminate].
  destruct (generateChartConfig nc) as [c|e2];
    [|injection H as <- <-; rewrite F0, W0; repeat split; try lia; discriminate].
  destruct (axios_get h (generateChartUrl c)) as [e0|body] eqn:Hget.
  - injection H as <- <-. rewrite !count_events_app, F0, W0.
    repeat split; try (cbn; lia). discriminate.
  - destruct (fs_writeFile h p0 body) as [e0|] eqn:Hw.
    + injection H as <- <-. rewrite !count_events_app, F0, W0.
      repeat split; try (cbn; lia). discriminate.
    + injection H as <- <-. rewrite !count_events_app, F0, W0.
      split; [cbn; lia|]. split; [cbn; lia|].
      intros text Et. injection Et as <-.
      exists tr1, p0, (generateChartUrl c), body.
      split; [reflexivity|]. split; [now rewrite <- !app_assoc|].
      split; [exact Hq1|]. split; [exact Hget|]. split; [exact Hw|].
      intros p -> Hp. unfold resolve_output_path in E.
      destruct (String.eqb_spec p ""); [congruence|].
      unfold io_ret in E. now injection E as _ <-.
Qed.

Lemma download_fetches_and_writes_once_witness :
  count_events is_fetch
    (fst (download_chart (sample_host "PNG") sample_pie_flat
            (Some "/srv/out/pie.png") [])) <= 1.
Proof.
  exact (proj1 (download_fetches_and_writes_once (sample_host "PNG") sample_pie_flat
                  (Some "/srv/out/pie.png") _ _ (surjective_pairing _))).
Defined.

(* ================================================================== *)
(** * The handlers of [src/index.ts] against the guarded ones *)

Section Unguarded.

Lemma spread_or_empty (l : Props) (v : JsVal) :
  spread l (js_or v (JObj [])) = spread l v.
Proof.
  unfold js_or. destruct (truthy v) eqn:H; [reflexivity|].
  unfold spread. now rewrite (own_entries_falsy v H).
Qed.

Lemma unguarded_map_dataset (d : JsVal) :
  nullish d = false -> IndexTs.map_dataset d = Ok (canonical_dataset d).
Proof.
  intros H. unfold IndexTs.map_dataset, prop. rewrite H. cbn [bind].
  unfold canonical_dataset, dataset_base. now rewrite spread_or_empty.
Qed.

Lemma unguarded_array_map (ds : list JsVal) :
  forallb (fun d => negb (nullish d)) ds = true ->
  array_map IndexTs.map_dataset ds = Ok (map canonical_dataset ds).
Proof.
  induction ds as [|d ds IH]; simpl; intros H; [reflexivity|].
  apply andb_prop in H as [Hd Hds]. apply negb_true_iff in Hd.
  now rewrite (unguarded_map_dataset d Hd), (IH Hds).
Qed.

Lemma concrete_not_nullish (ds : list JsVal) :
  forallb has_concrete_data ds = true ->
  forallb (fun d => negb (nullish d)) ds = true.
Proof.
  intros H. rewrite forallb_forall in *. intros d Hd. specialize (H d Hd).
  unfold has_concrete_data in H. apply andb_prop in H as [H _].
  now rewrite (truthy_not_nullish d H).
Qed.

(** The unguarded normaliser once the type is one of the ten, [datasets] is
    an array and no dataset is [null] or [undefined]. *)
Lemma unguarded_valid (args : JsVal) (t : string) (ds : list JsVal) :
  get_field args "type" = JStr t ->
  In t validTypes ->
  get_field args "datasets" = JArr ds ->
  forallb (fun d => negb (nullish d)) ds = true ->
  IndexTs.generateChartConfig args =
    if is_gauge t then
      if truthy (gauge_value (JArr ds)) then
        Ok (mk_config (JStr t) (data_block args ds) (JObj (gauge_options args)))
      else Throw (invalid (gauge_message t))
    else if is_points t then
      array_forEach (check_point (JStr t)) ds ;;;
      Ok (mk_config (JStr t) (data_block args ds) (JObj (canonical_options args)))
    else
      Ok (mk_config (JStr t) (data_block args ds) (JObj (canonical_options args))).
Proof.
  intros Et Hin Eds Hds.
  assert (Hargs : truthy args = true).
  { apply (get_field_truthy args "type"). rewrite Et. now apply valid_type_truthy. }
  unfold IndexTs.generateChartConfig.
  rewrite !(prop_ok _ _ Hargs). cbn [bind]. rewrite Et, Eds.
  unfold validateChartType. rewrite (proj2 (includes_valid t) Hin). cbn [negb bind].
  unfold IndexTs.call_map, IndexTs.call_forEach. cbn [nullish isArray own_items].
  rewrite (unguarded_array_map ds Hds). cbn [bind].
  fold (canonical_options args). fold (data_block args ds).
  fold (gauge_options args). fold (gauge_value (JArr ds)).
  unfold is_gauge, is_points, is_string.
  destruct ((t =? "radialGauge") || (t =? "speedometer")).
  - destruct (truthy (gauge_value (JArr ds))); reflexivity.
  - reflexivity.
Qed.

Lemma unguarded_nullish (args : JsVal) :
  nullish args = true ->
  IndexTs.generateChartConfig args = Throw (TypeError "type").
Proof.
  intros H. unfold IndexTs.generateChartConfig, prop. now rewrite H.
Qed.

Lemma unguarded_download_eq (h : Host) (config : JsVal) (outputPath : string) :
  IndexTs.download_chart h config outputPath [] =
    match IndexTs.generateChartConfig config with
    | Throw e => ([], Throw (wrap_internal "Failed to download chart: " e))
    | Ok chartConfig =>
        let url := generateChartUrl chartConfig in
        match axios_get h url with
        | inl e => ([EvHttpGet url], Throw (internal_report "Failed to download chart: " e))
        | inr body =>
            match fs_writeFile h outputPath body with
            | Some e =>
                ([EvHttpGet url; EvWriteFile outputPath body],
                 Throw (internal_report "Failed to download chart: " e))
            | None =>
                ([EvHttpGet url; EvWriteFile outputPath body],
                 Ok ("Chart saved to " ++ outputPath))
            end
        end
    end.
Proof.
  unfold IndexTs.download_chart, try_catch, io_bind, io_lift, io_throw, io_ret.
  destruct (IndexTs.generateChartConfig config) as [c|e]; [|reflexivity].
  unfold http_get, write_file. cbv zeta. cbn [app].
  destruct (axios_get h (generateChartUrl c)) as [e|body]; [reflexivity|].
  destruct (fs_writeFile h outputPath body); reflexivity.
Qed.

End Unguarded.

(** X21.  The guards only remove behaviour: on every request the guarded
    normaliser accepts, the normaliser of [src/index.ts] returns the same
    canonical configuration. *)
Theorem guarded_refines_unguarded (args config : JsVal) :
  generateChartConfig args = Ok config ->
  IndexTs.generateChartConfig args = Ok config.
Proof.
  intros H.
  destruct (generateChartConfig_Ok_inv _ _ H) as [t [ds [Et [Hin Eds]]]].
  rewrite (generateChartConfig_valid args t ds Et Hin Eds) in H.
  destruct (forallb has_concrete_data ds) eqn:Hc; cbn [negb] in H; [|discriminate].
  rewrite (unguarded_valid args t ds Et Hin Eds (concrete_not_nullish ds Hc)).
  destruct (is_gauge t); [exact H|].
  destruct (is_points t); [|exact H].
  destruct (forallb first_is_point ds) eqn:Hf; [|discriminate].
  now rewrite (forEach_points_ok _ ds Hf).
Qed.

Lemma guarded_refines_unguarded_witness :
  exists config,
    generateChartConfig sample_gauge = Ok config
    /\ IndexTs.generateChartConfig sample_gauge = Ok config.
Proof.
  eexists. split; [reflexivity|].
  exact (guarded_refines_unguarded sample_gauge _ eq_refl).
Defined.

(** X22.  The normaliser of [src/index.ts] does not test a dataset's
    [data]: for a chart type that is neither a gauge nor scatter or bubble
    it accepts every array of datasets that are not [null] or [undefined]
    and passes a missing [data] on as [undefined], where the guarded
    normaliser answers "Each dataset must have a data property". *)
Theorem unguarded_accepts_missing_data (args : JsVal) (t : string) (ds : list JsVal) :
  get_field args "type" = JStr t ->
  In t validTypes ->
  is_gauge t = false ->
  is_points t = false ->
  get_field args "datasets" = JArr ds ->
  forallb (fun d => negb (nullish d)) ds = true ->
  IndexTs.generateChartConfig args
  = Ok (mk_config (JStr t) (data_block args ds) (JObj (canonical_options args)))
  /\ (forallb has_concrete_data ds = false ->
      generateChartConfig args
      = Throw (invalid "Each dataset must have a data property")).
Proof.
  intros Et Hin Hg Hp Eds Hds. split.
  - now rewrite (unguarded_valid args t ds Et Hin Eds Hds), Hg, Hp.
  - intros Hc. now rewrite (generateChartConfig_valid args t ds Et Hin Eds), Hc.
Qed.

Lemma unguarded_accepts_missing_data_witness :
  (exists config,
     IndexTs.generateChartConfig sample_without_data = Ok config
     /\ get_field (get_field config "data") "datasets"
        = JArr [JObj [("label", JStr "no data"); ("data", JUndefined);
                      ("backgroundColor", JUndefined); ("borderColor", JUndefined)]])
  /\ generateChartConfig sample_without_data
     = Throw (invalid "Each dataset must have a data property").
Proof.
  destruct (unguarded_accepts_missing_data sample_without_data "bar"
              [JObj [("label", JStr "no data")]] eq_refl (or_introl eq_refl)
              eq_refl eq_refl eq_refl eq_refl) as [E1 E2].
  split.
  - eexists. split; [exact E1 | reflexivity].
  - exact (E2 eq_refl).
Defined.

(** X23.  A request that is [null] or [undefined] makes the normaliser of
    [src/index.ts] throw while it reads [type], and its [generate_chart]
    tool reports an internal error; the guarded tool reports invalid
    parameters, "No arguments provided to generateChartConfig". *)
Theorem null_request_internal_or_invalid (arguments : JsVal) :
  nullish arguments = true ->
  (exists message,
     IndexTs.generate_chart arguments
     = Throw (McpError InternalError ("Failed to generate chart: " ++ message)))
  /\ generate_chart arguments
     = Throw (invalid "No arguments provided to generateChartConfig").
Proof.
  intros H. split.
  - unfold IndexTs.generate_chart. rewrite (unguarded_nullish _ H).
    eexists. reflexivity.
  - unfold generate_chart. rewrite gate_no_arguments; [reflexivity|].
    now destruct arguments.
Qed.

Lemma null_request_internal_or_invalid_witness :
  generate_chart JNull = Throw (invalid "No arguments provided to generateChartConfig").
Proof.
  exact (proj2 (null_request_internal_or_invalid JNull eq_refl)).
Defined.

(** X24.  The [download_chart] tool of [src/index.ts] never probes the
    output directory: when its normaliser fails no host call is made, and
    otherwise the fetch is the first host call, also for a directory that
    cannot be written.  The file is written only after a successful fetch,
    and every host error, whatever its code, is reported as an internal
    error. *)
Theorem unguarded_download_fetches_first
    (h : Host) (config : JsVal) (outputPath : string)
    (tr : list Event) (res : Result string) :
  IndexTs.download_chart h config outputPath [] = (tr, res) ->
  existsb is_access tr = false
  /\ (forall e, IndexTs.generateChartConfig config = Throw e -> tr = [])
  /\ (forall chartConfig,
        IndexTs.generateChartConfig config = Ok chartConfig ->
        exists rest, tr = EvHttpGet (generateChartUrl chartConfig) :: rest
                     /\ existsb is_fetch rest = false
                     /\ (forall e, axios_get h (generateChartUrl chartConfig) = inl e ->
                           rest = []
                           /\ res = Throw (internal_report "Failed to download chart: " e))
                     /\ (forall body e,
                           axios_get h (generateChartUrl chartConfig) = inr body ->
                           fs_writeFile h outputPath body = Some e ->
                           res = Throw (internal_report "Failed to download chart: " e))).
Proof.
  intros H. rewrite unguarded_download_eq in H.
  destruct (IndexTs.generateChartConfig config) as [c|e0].
  - cbv zeta in H.
    destruct (axios_get h (generateChartUrl c)) as [e|body] eqn:Hget.
    + injection H as <- <-. split; [reflexivity|]. split; [discriminate|].
      intros c' Ec. injection Ec as <-. exists []. rewrite Hget.
      split; [reflexivity|]. split; [reflexivity|]. split.
      * intros e' Ee. injection Ee as <-. now split.
      * discriminate.
    + destruct (fs_writeFile h outputPath body) as [e|] eqn:Hw;
        injection H as <- <-; (split; [reflexivity|]); (split; [discriminate|]);
        intros c' Ec; injection Ec as <-;
        exists [EvWriteFile outputPath body]; rewrite Hget;
        (split; [reflexivity|]); (split; [reflexivity|]);
        (split; [discriminate|]);
        intros body' e' Eb Ew; injection Eb as <-; congruence.
  - injection H as <- <-. split; [reflexivity|]. split; [reflexivity|]. discriminate.
Qed.

Lemma unguarded_download_fetches_first_witness :
  existsb is_access
    (fst (IndexTs.download_chart sample_readonly_host sample_pie_flat
            "/srv/out/pie.png" [])) = false.
Proof.
  exact (proj1 (unguarded_download_fetches_first sample_readonly_host sample_pie_flat
                  "/srv/out/pie.png" _ _ (surjective_pairing _))).
Defined.
